(** * Defect Detective: a verified model of [backend/server.py]

    The service receives an uploaded image, sends it to a remote language
    model, parses the model's textual reply into a list of defect records,
    stores the result in a document store and serves the stored results.

    The development embeds [server.py] function by function.  Python values
    are modelled by one dynamically typed universe ([pyval]); Python [str]
    is a sequence of Unicode code points; exceptions are values of type
    [exn] threaded through a sum type.  The parts of the interpreter and of
    third-party libraries whose result depends on IEEE-754 arithmetic or on
    version-specific message text are collected in the record [Runtime],
    over which every definition of the server is parametric.

    What lies outside the process is an input of each request ([Env]):
    the configured key, the clock, the fresh identifiers and the answer of
    the remote endpoint.  The document store is a state ([Store.database])
    passed through the handlers; it may be unreachable.

    The limits that decide the outcome of a request are part of the
    model: the nesting of containers and the digits of an integer
    literal at which the JSON decoder gives up ([Json.limits], set by
    [Runtime]), and the size of a document at which the store refuses it
    ([Store.max_bson_size]).  The interpreter is taken to have room for
    the calls the handlers make and for the nesting of the answers the
    server is written for ([JSON_DEPTH]).

    Not modelled: exhaustion of memory, failures while reading the
    upload, the serialization of the response by the framework, and the
    scheduling of concurrent requests (each handler runs as one step on
    the store).

    Layout: definitions first (strings, JSON, base64, datetime, the document
    store, pydantic models, the endpoints), then the lemmas and the
    theorems about them. *)

From Stdlib Require Import ZArith NArith List String Ascii Bool Lia.
From Stdlib Require Import DecimalString Permutation Sorted.
Import ListNotations.

Set Implicit Arguments.
Set Warnings "-register-all".

(* ================================================================== *)
(** * Python strings *)
(* ================================================================== *)

(** A Python [str] is a sequence of code points. *)
Definition pystr := list N.

(** [py "abc"] is the Python literal ['abc'] (ASCII text only). *)
Definition py (s : string) : pystr :=
  map N_of_ascii (list_ascii_of_string s).

(** [pyq] is [py], except that an apostrophe stands for the double quote
    (code point 34); it is used to write JSON text. *)
Definition pyq (s : string) : pystr :=
  map (fun c => if N.eqb c 39 then 34%N else c) (py s).

Arguments py s%_string.
Arguments pyq s%_string.

Module Str.

(** [str.isspace] for one code point: the characters [str.strip()]
    removes. *)
Definition isspace (c : N) : bool :=
  ((9 <=? c) && (c <=? 13) || (28 <=? c) && (c <=? 32)
   || (c =? 133) || (c =? 160) || (c =? 5760)
   || (8192 <=? c) && (c <=? 8202)
   || (c =? 8232) || (c =? 8233) || (c =? 8239) || (c =? 8287)
   || (c =? 12288))%N.

Fixpoint lstrip (s : pystr) : pystr :=
  match s with
  | c :: r => if isspace c then lstrip r else s
  | [] => []
  end.

Definition rstrip (s : pystr) : pystr := rev (lstrip (rev s)).

(** [s.strip()] *)
Definition strip (s : pystr) : pystr := rstrip (lstrip s).

(** [s.startswith(p)] *)
Fixpoint startswith (s p : pystr) {struct p} : bool :=
  match p, s with
  | [], _ => true
  | a :: p', b :: s' => (a =? b)%N && startswith s' p'
  | _ :: _, [] => false
  end.

(** [s.endswith(p)] *)
Definition endswith (s p : pystr) : bool := startswith (rev s) (rev p).

(** [s[n:]] for [n >= 0] *)
Definition drop (n : nat) (s : pystr) : pystr := skipn n s.

(** [s[:-n]] for [n > 0] *)
Definition drop_last (n : nat) (s : pystr) : pystr :=
  firstn (List.length s - n) s.

(** [needle in hay] *)
Fixpoint contains (needle hay : pystr) : bool :=
  startswith hay needle
  || match hay with
     | [] => false
     | _ :: r => contains needle r
     end.

Fixpoint eqb (a b : pystr) : bool :=
  match a, b with
  | [], [] => true
  | x :: a', y :: b' => (x =? y)%N && eqb a' b'
  | _, _ => false
  end.

(** Comparison of strings by code point: the order of [<] on [str] in
    Python and the order of string values in the store. *)
Fixpoint compare (a b : pystr) : comparison :=
  match a, b with
  | [], [] => Eq
  | [], _ :: _ => Lt
  | _ :: _, [] => Gt
  | x :: a', y :: b' =>
      match (x ?= y)%N with
      | Eq => compare a' b'
      | c => c
      end
  end.

(** [sep.join(parts)] *)
Fixpoint join (sep : pystr) (parts : list pystr) : pystr :=
  match parts with
  | [] => []
  | [p] => p
  | p :: rest => p ++ sep ++ join sep rest
  end.

End Str.

(* ================================================================== *)
(** * Python values *)
(* ================================================================== *)

(** A naive [datetime.datetime] (no time zone), as [datetime.utcnow()]
    returns it. *)
Record datetime := {
  year : N;
  month : N;
  day : N;
  hour : N;
  minute : N;
  second : N;
  microsecond : N
}.

(** A Python [float], kept symbolically: the value denoted by a JSON real
    literal, the conversion of an integer, or one of the three constants
    [json.loads] accepts.  No arithmetic is performed on floats by the
    server; what the libraries decide about a float is in [Runtime]. *)
Inductive pyfloat :=
| FloatLit (lexeme : pystr)
| FloatOfInt (z : Z)
| FloatNaN
| FloatInf
| FloatNegInf.

(** The Python objects the server handles.  A [dict] is an association
    list in insertion order with unique keys. *)
Inductive pyval :=
| PNone
| PBool (b : bool)
| PInt (z : Z)
| PFloat (f : pyfloat)
| PStr (s : pystr)
| PList (items : list pyval)
| PDict (pairs : list (pystr * pyval))
| PDatetime (d : datetime)
| PObjectId (oid : pystr).

Definition pydict := list (pystr * pyval).

Module Dict.

(** [d.get(k)] / [k in d] *)
Fixpoint get (k : pystr) (d : pydict) : option pyval :=
  match d with
  | [] => None
  | (k', v) :: r => if Str.eqb k k' then Some v else get k r
  end.

Definition mem (k : pystr) (d : pydict) : bool :=
  match get k d with Some _ => true | None => false end.

(** [d[k] = v]: an existing key keeps its position. *)
Fixpoint set (k : pystr) (v : pyval) (d : pydict) : pydict :=
  match d with
  | [] => [(k, v)]
  | (k', v') :: r =>
      if Str.eqb k k' then (k', v) :: r else (k', v') :: set k v r
  end.

(** [dict(pairs)] *)
Definition of_pairs (pairs : list (pystr * pyval)) : pydict :=
  fold_left (fun d kv => set (fst kv) (snd kv) d) pairs [].

Definition keys (d : pydict) : list pystr := map fst d.

End Dict.

(* ================================================================== *)
(** * Exceptions and the runtime interface *)
(* ================================================================== *)

(** Exceptions raised by the interpreter and by the libraries the server
    calls.  The text of their message is version specific and is supplied
    by [Runtime]. *)
Inductive fault :=
| AttributeError (obj : pyval) (attr : pystr)
| NotIterable (obj : pyval)
| NotSubscriptable (obj : pyval)
| KeyError (obj : pyval)
| NotAMapping (obj : pyval)
| JoinTypeError (item : pyval)
| ValidationError (model : pystr) (input : pyval)
| JSONDecodeError (doc : pystr)
| ValueError (what : pystr)
| HTTPStatusError (status : Z) (url : pystr)
| TransportError (detail : pystr)
| EncodingError (what : pyval)
| StoreError
| RecursionError
| UnicodeDecodeError
| DocumentTooLarge (size : N).

Inductive exn :=
| HTTPException (status_code : Z) (detail : pystr)
| RuntimeError (msg : pystr)
| LibraryError (f : fault).

(** The result of a computation that may raise. *)
Inductive outcome (A : Type) :=
| Return (a : A)
| Raise (e : exn).

Arguments Return {A} a.
Arguments Raise {A} e.

Definition bind {A B : Type} (m : outcome A) (k : A -> outcome B)
  : outcome B :=
  match m with
  | Return a => k a
  | Raise e => Raise e
  end.

Notation "x <- m ;; k" := (bind m (fun x => k))
  (at level 61, m at next level, right associativity).

(** [try: m except Exception as e: h(e)] *)
Definition try_except {A : Type} (m : outcome A) (h : exn -> outcome A)
  : outcome A :=
  match m with
  | Return a => Return a
  | Raise e => h e
  end.

(** Apply a raising function to the elements of a list from left to
    right, as a list comprehension does. *)
Fixpoint map_outcome {A B : Type} (f : A -> outcome B) (l : list A)
  : outcome (list B) :=
  match l with
  | [] => Return []
  | a :: r =>
      b <- f a ;;
      bs <- map_outcome f r ;;
      Return (b :: bs)
  end.

(** What the server uses of the interpreter and of its libraries without
    this development fixing it: message texts, the serializer, and every
    decision that rests on floating-point arithmetic or on pydantic's
    lax-mode conversions between types. *)
Record Runtime := {
  (** [str(e)] for a library exception *)
  describe : fault -> pystr;
  (** [json.dumps(data)] *)
  json_dumps : pyval -> outcome pystr;
  (** [bool(x)] for a float *)
  float_truthy : pyfloat -> bool;
  (** pydantic's conversion to [str] of a string that is not well-formed
      Unicode *)
  lax_str : pystr -> option pystr;
  (** pydantic's conversion to [int] of a [bool], [float] or [str] *)
  lax_int : pyval -> option Z;
  (** pydantic's conversion to [float] of a [bool], a [str] or an [int]
      beyond the exactly representable range *)
  lax_float : pyval -> option pyfloat;
  (** pydantic's conversion to [bool] of an [int], [float] or [str] *)
  lax_bool : pyval -> option bool;
  (** pydantic's conversion to [datetime] of a number or [str] *)
  lax_datetime : pyval -> option datetime;
  (** [datetime.fromisoformat] on a string that is not in the form
      [isoformat()] produces *)
  fromisoformat_other : pystr -> option datetime;
  (** the store's ordering of two values that are not both strings, both
      dates, both integers or both booleans *)
  bson_compare_other : pyval -> pyval -> comparison;
  (** the nesting of JSON containers the interpreter still has room for
      where [analyze_defects] calls [json.loads], counted beyond the
      nesting of the answers the server is written for ([JSON_DEPTH]) *)
  json_room : nat;
  (** the same where the HTTP client decodes the body of a response *)
  client_json_room : nat;
  (** [sys.get_int_max_str_digits()], counted beyond the 640 digits the
      interpreter always converts; [None] when it sets no limit *)
  int_max_str_digits : option nat
}.

(** [str(e)] *)
Definition str_of_exn (rt : Runtime) (e : exn) : pystr :=
  match e with
  | HTTPException s d =>
      py (DecimalString.NilZero.string_of_int (Z.to_int s)) ++ py ": " ++ d
  | RuntimeError m => m
  | LibraryError f => describe rt f
  end.

(** [str(n)] for an [int] *)
Definition str_of_int (z : Z) : pystr :=
  py (DecimalString.NilZero.string_of_int (Z.to_int z)).

(** [bool(v)] *)
Definition truthy (rt : Runtime) (v : pyval) : bool :=
  match v with
  | PNone => false
  | PBool b => b
  | PInt z => negb (z =? 0)%Z
  | PFloat f => float_truthy rt f
  | PStr s => match s with [] => false | _ => true end
  | PList l => match l with [] => false | _ => true end
  | PDict d => match d with [] => false | _ => true end
  | PDatetime _ => true
  | PObjectId _ => true
  end.

(** The elements [for x in v] visits. *)
Definition iterate (v : pyval) : outcome (list pyval) :=
  match v with
  | PList items => Return items
  | PDict pairs => Return (map (fun kv => PStr (fst kv)) pairs)
  | PStr s => Return (map (fun c => PStr [c]) s)
  | _ => Raise (LibraryError (NotIterable v))
  end.

(** [v.get(key, default)] *)
Definition py_get (v : pyval) (key : pystr) (default : pyval)
  : outcome pyval :=
  match v with
  | PDict d =>
      Return (match Dict.get key d with Some x => x | None => default end)
  | _ => Raise (LibraryError (AttributeError v (py "get")))
  end.

(* ================================================================== *)
(** * [json.loads] *)
(* ================================================================== *)

(** The decoder of the standard [json] module in its default
    configuration ([strict=True], the constants [NaN], [Infinity] and
    [-Infinity] accepted).  The scanners return, as the C scanner does
    with its index, the number of characters they consumed. *)
Module Json.

Inductive token :=
| TLBrace | TRBrace | TLBrack | TRBrack | TColon | TComma
| TString (s : pystr)
| TValue (v : pyval).

Definition is_ws (c : N) : bool :=
  ((c =? 32) || (c =? 9) || (c =? 10) || (c =? 13))%N.

Definition is_digit (c : N) : bool := ((48 <=? c) && (c <=? 57))%N.

Definition hex_digit (c : N) : option N :=
  (if (48 <=? c) && (c <=? 57) then Some (c - 48)
   else if (65 <=? c) && (c <=? 70) then Some (c - 55)
   else if (97 <=? c) && (c <=? 102) then Some (c - 87)
   else None)%N.

Definition hex4 (a b c d : N) : option N :=
  match hex_digit a, hex_digit b, hex_digit c, hex_digit d with
  | Some x, Some y, Some z, Some w => Some (((x * 16 + y) * 16 + z) * 16 + w)%N
  | _, _, _, _ => None
  end.

Definition is_high_surrogate (u : N) : bool :=
  ((55296 <=? u) && (u <=? 56319))%N.

Definition is_low_surrogate (u : N) : bool :=
  ((56320 <=? u) && (u <=? 57343))%N.

Definition join_surrogates (hi lo : N) : N :=
  (65536 + ((hi - 55296) * 1024 + (lo - 56320)))%N.

(** The character a one-letter escape denotes. *)
Definition simple_escape (e : N) : option N :=
  (if e =? 34 then Some 34          (* quote *)
   else if e =? 92 then Some 92     (* backslash *)
   else if e =? 47 then Some 47     (* slash *)
   else if e =? 98 then Some 8      (* b: backspace *)
   else if e =? 102 then Some 12    (* f: form feed *)
   else if e =? 110 then Some 10    (* n: line feed *)
   else if e =? 114 then Some 13    (* r: carriage return *)
   else if e =? 116 then Some 9     (* t: tab *)
   else None)%N.

Definition prepend (c : N) (n : nat) (r : option (pystr * nat))
  : option (pystr * nat) :=
  match r with
  | Some (str, k) => Some (c :: str, (n + k)%nat)
  | None => None
  end.

(** [scanstring s]: [s] starts just after the opening quote; the result
    is the decoded string and the number of characters up to and
    including the closing quote. *)
Fixpoint scanstring (s : pystr) : option (pystr * nat) :=
  match s with
  | [] => None
  | c :: r =>
      if (c =? 34)%N then Some ([], 1%nat)
      else if (c =? 92)%N then
        match r with
        | [] => None
        | e :: r1 =>
            if (e =? 117)%N then
              match r1 with
              | h1 :: h2 :: h3 :: h4 :: r2 =>
                  match hex4 h1 h2 h3 h4 with
                  | None => None
                  | Some uni =>
                      match r2 with
                      | b :: u :: r3 =>
                          if is_high_surrogate uni && (b =? 92)%N && (u =? 117)%N
                          then
                            match r3 with
                            | k1 :: k2 :: k3 :: k4 :: r4 =>
                                match hex4 k1 k2 k3 k4 with
                                | None => None
                                | Some uni2 =>
                                    if is_low_surrogate uni2
                                    then prepend (join_surrogates uni uni2) 12
                                           (scanstring r4)
                                    else prepend uni 6 (scanstring r2)
                                end
                            | _ => None
                            end
                          else prepend uni 6 (scanstring r2)
                      | _ => prepend uni 6 (scanstring r2)
                      end
                  end
              | _ => None
              end
            else
              match simple_escape e with
              | Some ch => prepend ch 2 (scanstring r1)
              | None => None
              end
        end
      else if (c <=? 31)%N then None
      else prepend c 1 (scanstring r)
  end.

Fixpoint span_digits (s : pystr) : pystr * pystr :=
  match s with
  | c :: r =>
      if is_digit c
      then let (ds, rest) := span_digits r in (c :: ds, rest)
      else ([], s)
  | [] => ([], [])
  end.

Definition Z_of_digits (ds : pystr) : Z :=
  fold_left (fun acc c => (acc * 10 + Z.of_N (c - 48))%Z) ds 0%Z.

(** The integer part of a number (an optional minus sign, then either a
    single 0 or a non-zero digit followed by digits): sign, digits and the
    rest of the input. *)
Definition scan_integer (s : pystr) : option (bool * pystr * pystr) :=
  let (neg, s1) :=
    match s with
    | c :: r => if (c =? 45)%N then (true, r) else (false, s)
    | [] => (false, s)
    end in
  match s1 with
  | [] => None
  | d :: r =>
      if (d =? 48)%N then Some (neg, [d], r)
      else if is_digit d
           then let (ds, rest) := span_digits r in Some (neg, d :: ds, rest)
           else None
  end.

(** The optional fraction (a dot and at least one digit): its text, empty
    when absent, and the rest. *)
Definition scan_frac (s : pystr) : pystr * pystr :=
  match s with
  | c :: r =>
      if (c =? 46)%N then
        match span_digits r with
        | ([], _) => ([], s)
        | (fs, rest) => (c :: fs, rest)
        end
      else ([], s)
  | [] => ([], s)
  end.

(** The optional exponent (e or E, an optional sign, at least one
    digit). *)
Definition scan_exp (s : pystr) : pystr * pystr :=
  match s with
  | c :: r =>
      if ((c =? 101) || (c =? 69))%N then
        let (sign, r1) :=
          match r with
          | g :: r' => if ((g =? 43) || (g =? 45))%N then ([g], r') else ([], r)
          | [] => ([], r)
          end in
        match span_digits r1 with
        | ([], _) => ([], s)
        | (es, rest) => (c :: sign ++ es, rest)
        end
      else ([], s)
  | [] => ([], s)
  end.

(** A number: an [int] when it has neither fraction nor exponent, a
    [float] otherwise. *)
Definition scan_number (s : pystr) : option (pyval * nat) :=
  match scan_integer s with
  | None => None
  | Some (neg, ds, rest) =>
      let (frac, rest1) := scan_frac rest in
      let (exp, _) := scan_exp rest1 in
      let sign := if neg then [45%N] else [] in
      let lexeme := sign ++ ds ++ frac ++ exp in
      match frac, exp with
      | [], [] =>
          Some (PInt (if neg then - Z_of_digits ds else Z_of_digits ds)%Z,
                List.length lexeme)
      | _, _ => Some (PFloat (FloatLit lexeme), List.length lexeme)
      end
  end.

(** One token at the head of [s] (which starts with a non-blank
    character) and its length. *)
Definition scan_token (s : pystr) : option (token * nat) :=
  match s with
  | [] => None
  | c :: r =>
      if (c =? 34)%N then
        match scanstring r with
        | Some (str, n) => Some (TString str, S n)
        | None => None
        end
      else if (c =? 123)%N then Some (TLBrace, 1%nat)
      else if (c =? 125)%N then Some (TRBrace, 1%nat)
      else if (c =? 91)%N then Some (TLBrack, 1%nat)
      else if (c =? 93)%N then Some (TRBrack, 1%nat)
      else if (c =? 58)%N then Some (TColon, 1%nat)
      else if (c =? 44)%N then Some (TComma, 1%nat)
      else if Str.startswith s (py "null") then Some (TValue PNone, 4%nat)
      else if Str.startswith s (py "true") then Some (TValue (PBool true), 4%nat)
      else if Str.startswith s (py "false") then Some (TValue (PBool false), 5%nat)
      else if Str.startswith s (py "NaN") then Some (TValue (PFloat FloatNaN), 3%nat)
      else if Str.startswith s (py "Infinity")
           then Some (TValue (PFloat FloatInf), 8%nat)
      else if Str.startswith s (py "-Infinity")
           then Some (TValue (PFloat FloatNegInf), 9%nat)
      else
        match scan_number s with
        | Some (v, n) => Some (TValue v, n)
        | None => None
        end
  end.

(** The containers that enclose the value being read, innermost first,
    each with what it holds so far (most recent first). *)
Inductive frame :=
| InList (items : list pyval)
| InDict (pairs : list (pystr * pyval)) (key : pystr).

Inductive pstate :=
| PValue (stk : list frame)
| PListOpen (stk : list frame)
| PDictOpen (stk : list frame)
| PKey (pairs : list (pystr * pyval)) (stk : list frame)
| PColon (pairs : list (pystr * pyval)) (key : pystr) (stk : list frame)
| PListNext (items : list pyval) (stk : list frame)
| PDictNext (pairs : list (pystr * pyval)) (stk : list frame)
| PDone (v : pyval).

(** A complete value goes to the innermost enclosing container. *)
Definition deliver (v : pyval) (stk : list frame) : pstate :=
  match stk with
  | [] => PDone v
  | InList items :: k => PListNext (v :: items) k
  | InDict pairs key :: k => PDictNext ((key, v) :: pairs) k
  end.

Definition start_value (stk : list frame) (t : token) : option pstate :=
  match t with
  | TValue v => Some (deliver v stk)
  | TString s => Some (deliver (PStr s) stk)
  | TLBrack => Some (PListOpen stk)
  | TLBrace => Some (PDictOpen stk)
  | _ => None
  end.

Definition step (st : pstate) (t : token) : option pstate :=
  match st with
  | PValue stk => start_value stk t
  | PListOpen stk =>
      match t with
      | TRBrack => Some (deliver (PList []) stk)
      | _ => start_value (InList [] :: stk) t
      end
  | PDictOpen stk =>
      match t with
      | TRBrace => Some (deliver (PDict []) stk)
      | TString k => Some (PColon [] k stk)
      | _ => None
      end
  | PKey pairs stk =>
      match t with
      | TString k => Some (PColon pairs k stk)
      | _ => None
      end
  | PColon pairs key stk =>
      match t with
      | TColon => Some (PValue (InDict pairs key :: stk))
      | _ => None
      end
  | PListNext items stk =>
      match t with
      | TComma => Some (PValue (InList items :: stk))
      | TRBrack => Some (deliver (PList (rev items)) stk)
      | _ => None
      end
  | PDictNext pairs stk =>
      match t with
      | TComma => Some (PKey pairs stk)
      | TRBrace => Some (deliver (PDict (Dict.of_pairs (rev pairs))) stk)
      | _ => None
      end
  | PDone _ => None
  end.

(** What bounds the decoder besides the grammar: the nesting of
    containers the interpreter has room for, and the longest integer
    literal it converts ([None]: any). *)
Record limits := {
  max_depth : nat;
  max_digits : option nat
}.

(** The digits of an integer literal: it has no leading zeros, so they
    are the decimal digits of its value. *)
Definition int_digits (z : Z) : nat :=
  Decimal.nb_digits (N.to_uint (Z.abs_N z)).

(** An integer literal the interpreter refuses to convert. *)
Definition too_long (lim : limits) (t : token) : bool :=
  match t, max_digits lim with
  | TValue (PInt z), Some n => (n <? int_digits z)%nat
  | _, _ => false
  end.

(** A container just opened for which the interpreter has no room. *)
Definition too_deep (lim : limits) (st : pstate) : bool :=
  match st with
  | PListOpen stk | PDictOpen stk => (max_depth lim <? S (List.length stk))%nat
  | _ => false
  end.

Inductive result :=
| Decoded (v : pyval)
| NotJson
| TooDeep
| TooLong.

(** One pass over the text, as the scanner makes it: the first thing to
    go wrong decides the result.  [skip] counts the characters of the
    current token still to pass over. *)
Fixpoint scan (lim : limits) (st : pstate) (skip : nat) (s : pystr)
  {struct s} : result :=
  match s with
  | [] => match st with PDone v => Decoded v | _ => NotJson end
  | c :: r =>
      match skip with
      | S k => scan lim st k r
      | O =>
          if is_ws c then scan lim st 0 r
          else
            match scan_token s with
            | None => NotJson
            | Some (t, n) =>
                match step st t with
                | None => NotJson
                | Some st' =>
                    if too_long lim t then TooLong
                    else if too_deep lim st' then TooDeep
                    else scan lim st' (pred n) r
                end
            end
      end
  end.

(** [json.loads(s)] for a [str] argument: the value, or
    [json.JSONDecodeError] for a text that is not JSON, [RecursionError]
    for a nesting the interpreter has no room for, [ValueError] for an
    integer literal beyond its digit limit. *)
Definition loads (lim : limits) (s : pystr) : outcome pyval :=
  match scan lim (PValue []) 0 s with
  | Decoded v => Return v
  | NotJson => Raise (LibraryError (JSONDecodeError s))
  | TooDeep => Raise (LibraryError RecursionError)
  | TooLong =>
      Raise (LibraryError
               (ValueError
                  (py "Exceeds the limit for integer string conversion")))
  end.

End Json.

(** The nesting of the answers the server is written for: an answer of
    the provider holds its text six containers deep, the reply the
    prompt asks for nests three.  The interpreter is taken to have room
    for them wherever the server decodes JSON; [json_room] and
    [client_json_room] count what it has beyond. *)
Definition JSON_DEPTH : nat := 6.

(** The limits of [json.loads] as [analyze_defects] calls it. *)
Definition reply_limits (rt : Runtime) : Json.limits :=
  {| Json.max_depth := JSON_DEPTH + json_room rt;
     Json.max_digits := option_map (Nat.add 640) (int_max_str_digits rt) |}.

(** The limits of [json.loads] as the HTTP client calls it. *)
Definition client_limits (rt : Runtime) : Json.limits :=
  {| Json.max_depth := JSON_DEPTH + client_json_room rt;
     Json.max_digits := option_map (Nat.add 640) (int_max_str_digits rt) |}.

(* ================================================================== *)
(** * [base64.b64encode] *)
(* ================================================================== *)

Module Base64.

(** The character of a 6-bit value in the standard alphabet. *)
Definition alphabet (i : N) : N :=
  (if i <? 26 then 65 + i
   else if i <? 52 then 97 + (i - 26)
   else if i <? 62 then 48 + (i - 52)
   else if i =? 62 then 43
   else 47)%N.

Definition pad : N := 61%N.

(** [base64.b64encode(bs).decode("utf-8")] *)
Fixpoint b64encode (bs : list Byte.byte) : pystr :=
  match bs with
  | [] => []
  | [a] =>
      let n := (Byte.to_N a * 65536)%N in
      [alphabet (n / 262144); alphabet ((n / 4096) mod 64); pad; pad]
  | [a; b] =>
      let n := (Byte.to_N a * 65536 + Byte.to_N b * 256)%N in
      [alphabet (n / 262144); alphabet ((n / 4096) mod 64);
       alphabet ((n / 64) mod 64); pad]
  | a :: b :: c :: r =>
      let n := (Byte.to_N a * 65536 + Byte.to_N b * 256 + Byte.to_N c)%N in
      alphabet (n / 262144) :: alphabet ((n / 4096) mod 64)
      :: alphabet ((n / 64) mod 64) :: alphabet (n mod 64)
      :: b64encode r
  end.

(** The 6-bit value of a character of the alphabet. *)
Definition value (c : N) : option N :=
  (if (65 <=? c) && (c <=? 90) then Some (c - 65)
   else if (97 <=? c) && (c <=? 122) then Some (c - 71)
   else if (48 <=? c) && (c <=? 57) then Some (c + 4)
   else if c =? 43 then Some 62
   else if c =? 47 then Some 63
   else None)%N.

Definition byte_of (n : N) : option Byte.byte := Byte.of_N n.

(** The decoder, used to state that the encoding loses nothing: the
    inverse of [b64encode] on canonical input. *)
Fixpoint b64decode (s : pystr) : option (list Byte.byte) :=
  match s with
  | [] => Some []
  | c1 :: c2 :: c3 :: c4 :: r =>
      match value c1, value c2 with
      | Some v1, Some v2 =>
          if (c3 =? pad)%N && (c4 =? pad)%N then
            match r, byte_of ((v1 * 4096 + v2 * 64) / 1024) with
            | [], Some a => Some [a]
            | _, _ => None
            end
          else if (c4 =? pad)%N then
            match r, value c3 with
            | [], Some v3 =>
                let n := (v1 * 262144 + v2 * 4096 + v3 * 64)%N in
                match byte_of (n / 65536), byte_of ((n / 256) mod 256) with
                | Some a, Some b => Some [a; b]
                | _, _ => None
                end
            | _, _ => None
            end
          else
            match value c3, value c4, b64decode r with
            | Some v3, Some v4, Some rest =>
                let n := (v1 * 262144 + v2 * 4096 + v3 * 64 + v4)%N in
                match byte_of (n / 65536), byte_of ((n / 256) mod 256),
                      byte_of (n mod 256) with
                | Some a, Some b, Some c => Some (a :: b :: c :: rest)
                | _, _, _ => None
                end
            | _, _, _ => None
            end
      | _, _ => None
      end
  | _ => None
  end.

End Base64.

(* ================================================================== *)
(** * [datetime] *)
(* ================================================================== *)

Module Datetime.

Definition is_leap (y : N) : bool :=
  ((y mod 4 =? 0) && (negb (y mod 100 =? 0) || (y mod 400 =? 0)))%N.

Definition days_in_month (y m : N) : N :=
  (if m =? 2 then (if is_leap y then 29 else 28)
   else if (m =? 4) || (m =? 6) || (m =? 9) || (m =? 11) then 30
   else 31)%N.

(** The values a [datetime] object can hold. *)
Definition valid (d : datetime) : bool :=
  ((1 <=? year d) && (year d <=? 9999)
   && (1 <=? month d) && (month d <=? 12)
   && (1 <=? day d) && (day d <=? days_in_month (year d) (month d))
   && (hour d <? 24) && (minute d <? 60) && (second d <? 60)
   && (microsecond d <? 1000000))%N.

(** Chronological comparison. *)
Definition compare (a b : datetime) : comparison :=
  match (year a ?= year b)%N with Eq =>
  match (month a ?= month b)%N with Eq =>
  match (day a ?= day b)%N with Eq =>
  match (hour a ?= hour b)%N with Eq =>
  match (minute a ?= minute b)%N with Eq =>
  match (second a ?= second b)%N with Eq =>
    (microsecond a ?= microsecond b)%N
  | c => c end | c => c end | c => c end | c => c end | c => c end
  | c => c end.

Definition lt (a b : datetime) : Prop := compare a b = Lt.

(** [a] is not later than [b]. *)
Definition le (a b : datetime) : Prop := compare a b <> Gt.

(** [n] written with [w] decimal digits, zero padded (for [n < 10^w]). *)
Fixpoint digits (w : nat) (n : N) : pystr :=
  match w with
  | O => []
  | S w' => (48 + (n / 10 ^ N.of_nat w') mod 10)%N :: digits w' n
  end.

(** [d.isoformat()]: the fraction is left out when it is zero. *)
Definition isoformat (d : datetime) : pystr :=
  digits 4 (year d) ++ py "-" ++ digits 2 (month d) ++ py "-"
  ++ digits 2 (day d) ++ py "T" ++ digits 2 (hour d) ++ py ":"
  ++ digits 2 (minute d) ++ py ":" ++ digits 2 (second d)
  ++ (if (microsecond d =? 0)%N then []
      else py "." ++ digits 6 (microsecond d)).

(** Read [w] decimal digits. *)
Fixpoint number (w : nat) (acc : N) (s : pystr) : option (N * pystr) :=
  match w with
  | O => Some (acc, s)
  | S w' =>
      match s with
      | c :: r =>
          if Json.is_digit c then number w' (acc * 10 + (c - 48))%N r
          else None
      | [] => None
      end
  end.

Definition expect (c : N) (s : pystr) : option pystr :=
  match s with
  | x :: r => if (x =? c)%N then Some r else None
  | [] => None
  end.

Definition obind {A B : Type} (m : option A) (k : A -> option B)
  : option B :=
  match m with Some a => k a | None => None end.

(** The fields of a string of the form [isoformat] produces:
    [YYYY-MM-DDTHH:MM:SS], optionally followed by a dot and six digits. *)
Definition parse_iso (s : pystr) : option datetime :=
  obind (number 4 0 s) (fun '(y, s) =>
  obind (expect 45 s) (fun s =>
  obind (number 2 0 s) (fun '(mo, s) =>
  obind (expect 45 s) (fun s =>
  obind (number 2 0 s) (fun '(d, s) =>
  obind (expect 84 s) (fun s =>
  obind (number 2 0 s) (fun '(h, s) =>
  obind (expect 58 s) (fun s =>
  obind (number 2 0 s) (fun '(mi, s) =>
  obind (expect 58 s) (fun s =>
  obind (number 2 0 s) (fun '(se, s) =>
  match s with
  | [] => Some {| year := y; month := mo; day := d; hour := h;
                  minute := mi; second := se; microsecond := 0 |}
  | _ =>
      obind (expect 46 s) (fun s =>
      obind (number 6 0 s) (fun '(us, s) =>
      match s with
      | [] => Some {| year := y; month := mo; day := d; hour := h;
                      minute := mi; second := se; microsecond := us |}
      | _ => None
      end))
  end))))))))))).

(** [datetime.fromisoformat(s)]; [None] stands for [ValueError]. *)
Definition fromisoformat (rt : Runtime) (s : pystr) : option datetime :=
  match parse_iso s with
  | Some d => if valid d then Some d else None
  | None => fromisoformat_other rt s
  end.

End Datetime.

(* ================================================================== *)
(** * The document store *)
(* ================================================================== *)

(** The [analyses] collection behind [db.analyses], with the operations
    the server calls through the driver: [insert_one], and
    [find().sort(key, -1).limit(n)] read by [to_list(length=n)]. *)
Module Store.

Definition document := pydict.

Record database := {
  (** whether the server can be reached; when it cannot, every operation
      raises *)
  available : bool;
  (** the documents of the collection, in insertion order *)
  analyses : list document
}.

Definition int64_min : Z := (- 2 ^ 63)%Z.
Definition int64_max : Z := (2 ^ 63 - 1)%Z.

Definition is_surrogate (c : N) : bool :=
  ((55296 <=? c) && (c <=? 57343))%N.

(** A string that encodes to UTF-8. *)
Definition well_formed (s : pystr) : bool :=
  forallb (fun c => negb (is_surrogate c)) s.

(** What the driver can encode: integers of at most eight bytes and
    strings that encode to UTF-8. *)
Fixpoint encodable (v : pyval) : bool :=
  match v with
  | PInt z => ((int64_min <=? z) && (z <=? int64_max))%Z
  | PStr s => well_formed s
  | PList items => forallb encodable items
  | PDict pairs =>
      forallb (fun kv : pystr * pyval =>
                 let (k, x) := kv in well_formed k && encodable x)
              pairs
  | _ => true
  end.

(** The bytes of a string in UTF-8. *)
Definition utf8_length (s : pystr) : N :=
  fold_right
    (fun c n =>
       ((if c <? 128 then 1 else if c <? 2048 then 2
         else if c <? 65536 then 3 else 4) + n)%N)
    0%N s.

(** The bytes of the decimal index that names an array element. *)
Definition index_length (i : N) : N :=
  N.of_nat (Decimal.nb_digits (N.to_uint i)).

(** The bytes of a value in the store's encoding: an integer takes four
    bytes when it fits in 32 bits and eight otherwise, a string its
    UTF-8 bytes, a length and a terminator, a document or an array its
    elements (a type byte, the terminated name, the value), a length and
    a terminator. *)
Fixpoint bson_size (v : pyval) : N :=
  match v with
  | PNone => 0
  | PBool _ => 1
  | PInt z => if ((- 2 ^ 31 <=? z) && (z <=? 2 ^ 31 - 1))%Z then 4 else 8
  | PFloat _ => 8
  | PStr s => 5 + utf8_length s
  | PDatetime _ => 8
  | PObjectId _ => 12
  | PList items =>
      5 + (fix elements (i : N) (l : list pyval) : N :=
             match l with
             | [] => 0
             | x :: r =>
                 2 + index_length i + bson_size x + elements (i + 1) r
             end) 0 items
  | PDict pairs =>
      5 + (fix elements (l : list (pystr * pyval)) : N :=
             match l with
             | [] => 0
             | (k, x) :: r => 2 + utf8_length k + bson_size x + elements r
             end) pairs
  end%N.

(** The largest document the store accepts: 16 MiB. *)
Definition max_bson_size : N := 16777216%N.

(** [collection.insert_one(doc)]: the driver adds an [_id] to a document
    that has none, encodes it and sends it; a document beyond the size
    limit is refused. *)
Definition insert_one (db : database) (oid : pystr) (doc : document)
  : outcome database :=
  if negb (available db) then Raise (LibraryError StoreError)
  else
    let doc' :=
      if Dict.mem (py "_id") doc then doc
      else Dict.set (py "_id") (PObjectId oid) doc in
    if negb (encodable (PDict doc'))
    then Raise (LibraryError (EncodingError (PDict doc')))
    else if (max_bson_size <? bson_size (PDict doc'))%N
    then Raise (LibraryError (DocumentTooLarge (bson_size (PDict doc'))))
    else Return {| available := available db;
                   analyses := analyses db ++ [doc'] |}.

(** The position of a value's type in the store's order of types. *)
Definition type_rank (v : pyval) : N :=
  match v with
  | PNone => 2
  | PInt _ | PFloat _ => 3
  | PStr _ => 4
  | PDict _ => 5
  | PList _ => 6
  | PObjectId _ => 8
  | PBool _ => 9
  | PDatetime _ => 10
  end.

Definition is_list (v : pyval) : bool :=
  match v with PList _ => true | _ => false end.

(** The store's order on field values. *)
Definition bson_compare (rt : Runtime) (a b : pyval) : comparison :=
  match a, b with
  | PStr x, PStr y => Str.compare x y
  | PDatetime x, PDatetime y => Datetime.compare x y
  | PInt x, PInt y => (x ?= y)%Z
  | PBool x, PBool y => Bool.compare x y
  | PNone, PNone => Eq
  | _, _ =>
      if is_list a || is_list b || (type_rank a =? type_rank b)%N
      then bson_compare_other rt a b
      else (type_rank a ?= type_rank b)%N
  end.

(** The value a document is sorted by: a missing field counts as null. *)
Definition sort_key (field : pystr) (doc : document) : pyval :=
  match Dict.get field doc with
  | Some v => v
  | None => PNone
  end.

(** [sort(field, -1)]: descending.  Documents with equal keys stay in
    insertion order (the store promises no order among them). *)
Fixpoint insert_desc (rt : Runtime) (field : pystr) (d : document)
  (l : list document) : list document :=
  match l with
  | [] => [d]
  | x :: r =>
      match bson_compare rt (sort_key field d) (sort_key field x) with
      | Lt => x :: insert_desc rt field d r
      | _ => d :: l
      end
  end.

Definition sort_desc (rt : Runtime) (field : pystr) (l : list document)
  : list document :=
  fold_right (insert_desc rt field) [] l.

(** [await find().sort(field, -1).limit(n).to_list(length=n)] *)
Definition find_sorted (rt : Runtime) (db : database) (field : pystr)
  (n : Z) : outcome (list document) :=
  if (n <? 0)%Z then
    Raise (LibraryError (ValueError (py "length must be non-negative")))
  else if negb (available db) then Raise (LibraryError StoreError)
  else if (int64_max <? n)%Z
       then Raise (LibraryError (EncodingError (PInt n)))
  else Return (firstn (Z.to_nat n) (sort_desc rt field (analyses db))).

(** Whether a field value satisfies an equality condition on a string:
    the value is that string, or an array with that string among its
    elements. *)
Definition matches (v : pyval) (s : pystr) : bool :=
  match v with
  | PStr x => Str.eqb x s
  | PList items =>
      existsb (fun i => match i with PStr x => Str.eqb x s | _ => false end)
              items
  | _ => false
  end.

(** [await collection.find_one({field: value})] for a string [value]:
    the first document, in the order of insertion, whose field matches;
    [None] when there is none. *)
Definition find_one (db : database) (field value : pystr)
  : outcome (option document) :=
  if negb (available db) then Raise (LibraryError StoreError)
  else if negb (well_formed value)
       then Raise (LibraryError (EncodingError (PStr value)))
  else Return (find (fun doc =>
                       match Dict.get field doc with
                       | Some v => matches v value
                       | None => false
                       end)
                    (analyses db)).

End Store.

(* ================================================================== *)
(** * The pydantic models *)
(* ================================================================== *)

Record DefectResult := {
  defect_type : pystr;
  confidence : pyfloat;
  severity : pystr;
  description : pystr
}.

Record AnalysisResult := {
  id : pystr;
  filename : pystr;
  upload_time : datetime;
  total_defects : Z;
  defects_found : list DefectResult;
  analysis_complete : bool;
  image_base64 : option pystr
}.

Record AnalysisResponse := {
  success : bool;
  message : pystr;
  analysis : option AnalysisResult
}.

(** Field validation as pydantic performs it on Python input; [None]
    is a validation error. *)
Module Validate.

Definition as_str (rt : Runtime) (v : pyval) : option pystr :=
  match v with
  | PStr s => if Store.well_formed s then Some s else lax_str rt s
  | _ => None
  end.

Definition as_int (rt : Runtime) (v : pyval) : option Z :=
  match v with
  | PInt z => Some z
  | PBool _ | PFloat _ | PStr _ => lax_int rt v
  | _ => None
  end.

Definition as_float (rt : Runtime) (v : pyval) : option pyfloat :=
  match v with
  | PFloat f => Some f
  | PInt z =>
      if (Z.abs z <=? 2 ^ 53)%Z then Some (FloatOfInt z) else lax_float rt v
  | PBool _ | PStr _ => lax_float rt v
  | _ => None
  end.

Definition as_bool (rt : Runtime) (v : pyval) : option bool :=
  match v with
  | PBool b => Some b
  | PInt _ | PFloat _ | PStr _ => lax_bool rt v
  | _ => None
  end.

Definition as_datetime (rt : Runtime) (v : pyval) : option datetime :=
  match v with
  | PDatetime d => Some d
  | PInt _ | PFloat _ | PStr _ => lax_datetime rt v
  | _ => None
  end.

Definition optional_str (rt : Runtime) (v : pyval) : option (option pystr) :=
  match v with
  | PNone => Some None
  | _ => option_map Some (as_str rt v)
  end.

(** A required field of the keyword arguments. *)
Definition required {A : Type} (f : pyval -> option A) (name : pystr)
  (kwargs : pydict) : option A :=
  match Dict.get name kwargs with
  | Some v => f v
  | None => None
  end.

(** A field with a default. *)
Definition defaulted {A : Type} (f : pyval -> option A) (name : pystr)
  (default : A) (kwargs : pydict) : option A :=
  match Dict.get name kwargs with
  | Some v => f v
  | None => Some default
  end.

End Validate.

(* ================================================================== *)
(** * The model client *)
(* ================================================================== *)

(** The [httpx] client as the server uses it: one POST, answered by a
    response or failing in transport (connection error, timeout). *)
Module Httpx.

Record Response := {
  status_code : Z;
  (** [resp.text]: the body decoded with the charset of the response *)
  text : pystr;
  (** the body as [resp.json()] reads it: the bytes decoded with the
      encoding the JSON decoder detects, a byte order mark removed;
      [None] when the bytes do not decode *)
  json_document : option pystr
}.

Inductive post_outcome :=
| Responded (resp : Response)
| Failed (detail : pystr).

(** [resp.is_success] *)
Definition is_success (resp : Response) : bool :=
  ((200 <=? status_code resp) && (status_code resp <=? 299))%Z.

(** [resp.raise_for_status()] *)
Definition raise_for_status (url : pystr) (resp : Response) : outcome unit :=
  if is_success resp then Return tt
  else Raise (LibraryError (HTTPStatusError (status_code resp) url)).

(** [resp.json()] *)
Definition json (lim : Json.limits) (resp : Response) : outcome pyval :=
  match json_document resp with
  | Some s => Json.loads lim s
  | None => Raise (LibraryError UnicodeDecodeError)
  end.

End Httpx.

(** What a request finds outside the process: the configuration read at
    start-up, the values of [uuid.uuid4()] and [datetime.utcnow()], the
    identifier the driver gives a new document, and the remote
    endpoint. *)
Record Env := {
  GOOGLE_API_KEY : option pystr;
  uuid4_session : pystr;
  uuid4_id : pystr;
  utcnow : datetime;
  new_object_id : pystr;
  post : pystr -> pyval -> Httpx.post_outcome
}.

(** Truth value of an optional string: [None] and the empty string are
    false. *)
Definition nonempty (s : option pystr) : option pystr :=
  match s with
  | Some (c :: r) => Some (c :: r)
  | _ => None
  end.

Definition LEAKED_MARKER : pystr := py "reported as leaked".

Module Llm.

Record ImageContent := {
  image_base64 : pystr;
  mime_type : pystr
}.

Record UserMessage := {
  text : pystr;
  file_contents : list ImageContent
}.

Record LlmChat := {
  api_key : option pystr;
  system_message : pystr;
  _model : pystr
}.

Definition DEFAULT_MODEL : pystr := py "gemini-2.0-flash".

(** [LlmChat.__init__]: the key is the global one, whatever is passed. *)
Definition init (env : Env) (api_key : option pystr)
  (session_id : option pystr) (system_message : option pystr) : LlmChat :=
  {| api_key := GOOGLE_API_KEY env;
     system_message := match nonempty system_message with
                       | Some m => m
                       | None => []
                       end;
     _model := DEFAULT_MODEL |}.

(** [LlmChat.with_model]: positional and keyword arguments. *)
Definition with_model (self : LlmChat) (args : list pystr)
  (kwargs : list (pystr * pystr)) : LlmChat :=
  let set m := {| api_key := api_key self;
                  system_message := system_message self;
                  _model := m |} in
  match args with
  | [_; c :: r] => set (c :: r)
  | _ =>
      match find (fun kv => Str.eqb (fst kv) (py "model")) kwargs with
      | Some (_, c :: r) => set (c :: r)
      | _ => self
      end
  end.

Definition LEAKED_KEY_ERROR : pystr :=
  py "Your Gemini API key was reported as leaked and is blocked. "
  ++ py "Please generate a new key and update GOOGLE_API_KEY.".

(** The request body of [send_message]. *)
Definition payload (prompt_text : pystr) (images : list ImageContent)
  : pyval :=
  let parts :=
    PDict [(py "text", PStr prompt_text)]
    :: map (fun img =>
              PDict [(py "inlineData",
                      PDict [(py "mimeType", PStr (mime_type img));
                             (py "data", PStr (image_base64 img))])])
           images in
  PDict [(py "contents",
          PList [PDict [(py "role", PStr (py "user"));
                        (py "parts", PList parts)]]);
         (py "generationConfig",
          PDict [(py "maxOutputTokens", PInt 512)])].

Definition endpoint (model key : pystr) : pystr :=
  py "https://generativelanguage.googleapis.com/v1/models/" ++ model
  ++ py ":generateContent?key=" ++ key.

(** [v[0]] *)
Definition first_item (v : pyval) : outcome pyval :=
  match v with
  | PList (x :: _) => Return x
  | PStr (c :: _) => Return (PStr [c])
  | PList [] | PStr [] | PDict _ => Raise (LibraryError (KeyError v))
  | _ => Raise (LibraryError (NotSubscriptable v))
  end.

(** The [text] entries of the parts that are dictionaries and have
    one. *)
Fixpoint texts_of (parts : list pyval) : list pyval :=
  match parts with
  | [] => []
  | PDict d :: r =>
      match Dict.get (py "text") d with
      | Some t => t :: texts_of r
      | None => texts_of r
      end
  | _ :: r => texts_of r
  end.

(** The arguments of [str.join]: every item must be a [str]. *)
Fixpoint strings_of (items : list pyval) : outcome (list pystr) :=
  match items with
  | [] => Return []
  | PStr s :: r => ss <- strings_of r ;; Return (s :: ss)
  | v :: _ => Raise (LibraryError (JoinTypeError v))
  end.

Section SendMessage.

Variable rt : Runtime.
Variable env : Env.

(** The text of the first candidate, or the serialized envelope. *)
Definition reply_text (data : pyval) : outcome pystr :=
  match data with
  | PDict d =>
      match Dict.get (py "candidates") d with
      | Some candidates =>
          if truthy rt candidates then
            cand <- first_item candidates ;;
            content <- py_get cand (py "content") (PDict []) ;;
            parts <- py_get content (py "parts") (PList []) ;;
            items <- iterate parts ;;
            match texts_of items with
            | [] => json_dumps rt data
            | texts =>
                ss <- strings_of texts ;;
                Return (Str.join [10%N] ss)
            end
          else json_dumps rt data
      | None => json_dumps rt data
      end
  | _ => json_dumps rt data
  end.

(** [LlmChat.send_message] *)
Definition send_message (self : LlmChat) (user_message : UserMessage)
  : outcome pystr :=
  match nonempty (api_key self) with
  | None => Raise (RuntimeError (py "No API key provided for Gemini."))
  | Some key =>
      let prompt_text := Str.strip (system_message self) in
      let prompt_text :=
        match prompt_text with
        | [] => prompt_text
        | _ => prompt_text ++ [10%N; 10%N]
        end in
      let prompt_text := prompt_text ++ text user_message in
      let model :=
        match _model self with [] => DEFAULT_MODEL | m => m end in
      let url := endpoint model key in
      match post env url (payload prompt_text (file_contents user_message)) with
      | Httpx.Failed detail => Raise (LibraryError (TransportError detail))
      | Httpx.Responded resp =>
          if (Httpx.status_code resp =? 403)%Z
             && Str.contains LEAKED_MARKER (Httpx.text resp)
          then Raise (RuntimeError LEAKED_KEY_ERROR)
          else
            _ <- Httpx.raise_for_status url resp ;;
            data <- Httpx.json (client_limits rt) resp ;;
            reply_text data
      end
  end.

End SendMessage.

End Llm.

(* ================================================================== *)
(** * The application *)
(* ================================================================== *)

Definition SYSTEM_MESSAGE : pystr := pyq "You are an expert industrial defect detection AI. Analyze images for manufacturing and industrial defects like:
        - Cold joints in welds
        - Foreign materials/contaminants
        - Cracks and fractures  
        - Corrosion and rust
        - Surface imperfections
        - Misaligned components
        - Dimensional issues
        
        Return ONLY a valid JSON response with this exact structure:
        {
            'defects_found': [
                {
                    'defect_type': 'Cold Joint',
                    'confidence': 92,
                    'severity': 'High',
                    'description': 'Incomplete weld penetration detected in joint area'
                },
                {
                    'defect_type': 'Foreign Material', 
                    'confidence': 86,
                    'severity': 'Medium',
                    'description': 'Metallic debris embedded in surface'
                }
            ],
            'total_defects': 2
        }
        
        If no defects are found, return:
        {
            'defects_found': [],
            'total_defects': 0
        }".

Definition USER_INSTRUCTION : pystr :=
  py "Analyze this manufacturing/industrial image for defects. Return JSON response only.".

(** [create_gemini_chat()] *)
Definition create_gemini_chat (env : Env) : outcome Llm.LlmChat :=
  match nonempty (GOOGLE_API_KEY env) with
  | None =>
      Raise (RuntimeError
               (py "GOOGLE_API_KEY is not set in the environment. "
                ++ py "Please set a valid Gemini API key."))
  | Some key =>
      Return (Llm.with_model
                (Llm.init env (Some key)
                   (Some (py "defect_analysis_" ++ uuid4_session env))
                   (Some SYSTEM_MESSAGE))
                [py "gemini"; py "gemini-2.0-flash"] [])
  end.

(** The uploaded file as the framework hands it to the handler. *)
Module UploadFile.

Record t := {
  filename : pystr;
  content_type : option pystr;
  contents : list Byte.byte
}.

End UploadFile.

(** The record substituted for a reply that is not JSON. *)
Definition PARSE_ERROR_DATA : pyval :=
  PDict [(py "defects_found",
          PList [PDict [(py "defect_type", PStr (py "Analysis Error"));
                        (py "confidence", PInt 50);
                        (py "severity", PStr (py "Unknown"));
                        (py "description",
                         PStr (py "Could not parse AI response properly"))]]);
         (py "total_defects", PInt 1)].

(** The same record after validation. *)
Definition PARSE_ERROR_RECORD : DefectResult :=
  {| defect_type := py "Analysis Error";
     confidence := FloatOfInt 50;
     severity := py "Unknown";
     description := py "Could not parse AI response properly" |}.

(** The reply without its surrounding blanks and code fence. *)
Definition response_text (response : pystr) : pystr :=
  let response_text := Str.strip response in
  let response_text :=
    if Str.startswith response_text (py "```json")
    then Str.drop 7 response_text else response_text in
  if Str.endswith response_text (py "```")
  then Str.drop_last 3 response_text else response_text.

(** The inner [try] of [analyze_defects]: the parsed reply, or the
    fallback when [json.loads] raises [JSONDecodeError]; any other
    exception of [json.loads] passes through. *)
Definition analysis_data (rt : Runtime) (response : pystr)
  : outcome pyval :=
  match Json.loads (reply_limits rt) (response_text response) with
  | Raise (LibraryError (JSONDecodeError _)) => Return PARSE_ERROR_DATA
  | r => r
  end.

Section Application.

Variable rt : Runtime.

(** The fields of a [DefectResult] read from keyword arguments. *)
Definition defect_of_kwargs (kwargs : pydict) : option DefectResult :=
  match Validate.required (Validate.as_str rt) (py "defect_type") kwargs,
        Validate.required (Validate.as_float rt) (py "confidence") kwargs,
        Validate.required (Validate.as_str rt) (py "severity") kwargs,
        Validate.required (Validate.as_str rt) (py "description") kwargs with
  | Some t, Some c, Some s, Some d =>
      Some {| defect_type := t; confidence := c; severity := s;
              description := d |}
  | _, _, _, _ => None
  end.

(** [DefectResult] built from the entries of [defect] as keyword
    arguments. *)
Definition new_DefectResult (defect : pyval) : outcome DefectResult :=
  match defect with
  | PDict kwargs =>
      match defect_of_kwargs kwargs with
      | Some d => Return d
      | None =>
          Raise (LibraryError (ValidationError (py "DefectResult") defect))
      end
  | _ => Raise (LibraryError (NotAMapping defect))
  end.

(** The [AnalysisResult] that [analyze_defects] constructs: [id],
    [upload_time] and [analysis_complete] take their defaults. *)
Definition new_AnalysisResult (env : Env) (filename : pystr)
  (total_defects : pyval) (defects_found : list DefectResult)
  (image_base64 : pystr) : outcome AnalysisResult :=
  match Validate.as_str rt (PStr filename),
        Validate.as_int rt total_defects,
        Validate.as_str rt (PStr image_base64) with
  | Some f, Some n, Some img =>
      Return {| id := uuid4_id env;
                filename := f;
                upload_time := utcnow env;
                total_defects := n;
                defects_found := defects_found;
                analysis_complete := true;
                image_base64 := Some img |}
  | _, _, _ =>
      Raise (LibraryError
               (ValidationError (py "AnalysisResult") total_defects))
  end.

Definition dump_defect (d : DefectResult) : pyval :=
  PDict [(py "defect_type", PStr (defect_type d));
         (py "confidence", PFloat (confidence d));
         (py "severity", PStr (severity d));
         (py "description", PStr (description d))].

(** [analysis.model_dump()] *)
Definition model_dump (a : AnalysisResult) : pydict :=
  [(py "id", PStr (id a));
   (py "filename", PStr (filename a));
   (py "upload_time", PDatetime (upload_time a));
   (py "total_defects", PInt (total_defects a));
   (py "defects_found", PList (map dump_defect (defects_found a)));
   (py "analysis_complete", PBool (analysis_complete a));
   (py "image_base64",
    match image_base64 a with Some s => PStr s | None => PNone end)].

(** The document [analyze_defects] hands to [insert_one]. *)
Definition analysis_dict (a : AnalysisResult) : pydict :=
  Dict.set (py "upload_time")
           (PStr (Datetime.isoformat (upload_time a)))
           (model_dump a).

(** The detail of the error for a key the provider has blocked. *)
Definition LEAKED_KEY_DETAIL : pystr :=
  py "LLM provider (Gemini) blocked the API key because it was "
  ++ py "reported as leaked. Please generate a new API key and "
  ++ py "update GOOGLE_API_KEY in your environment.".

(** The detail of any other failure of the call to the provider. *)
Definition llm_failure_detail (msg : pystr) : pystr :=
  py "Analysis failed while calling LLM: " ++ msg.

(** The two inner [try] blocks that obtain the reply: the chat is
    created, then the image is sent with the fixed instruction. *)
Definition ask_model (env : Env) (content_type base64_image : pystr)
  : outcome pystr :=
  chat <- try_except (create_gemini_chat env)
            (fun e =>
               match e with
               | RuntimeError msg => Raise (HTTPException 500 msg)
               | _ => Raise e
               end) ;;
  let image_content :=
    {| Llm.image_base64 := base64_image;
       Llm.mime_type := content_type |} in
  let user_message :=
    {| Llm.text := USER_INSTRUCTION;
       Llm.file_contents := [image_content] |} in
  try_except (Llm.send_message rt env chat user_message)
    (fun e =>
       let msg := str_of_exn rt e in
       if Str.contains LEAKED_MARKER msg
       then Raise (HTTPException 500 LEAKED_KEY_DETAIL)
       else Raise (HTTPException 500 (llm_failure_detail msg))).

(** The document as the store keeps it: the driver has added [_id]. *)
Definition stored_document (oid : pystr) (a : AnalysisResult)
  : Store.document :=
  Dict.set (py "_id") (PObjectId oid) (analysis_dict a).

(** The response of a completed analysis. *)
Definition success_response (a : AnalysisResult) : AnalysisResponse :=
  {| success := true;
     message := py "Analysis complete. Found "
                ++ str_of_int (total_defects a) ++ py " defects.";
     analysis := Some a |}.

(** From the reply to the response: the reply is parsed, the records and
    the result are built, the result is stored. *)
Definition record_analysis (env : Env) (file : UploadFile.t)
  (db : Store.database) (base64_image response : pystr)
  : outcome (AnalysisResponse * Store.database) :=
  data <- analysis_data rt response ;;
  found <- py_get data (py "defects_found") (PList []) ;;
  items <- iterate found ;;
  defects <- map_outcome new_DefectResult items ;;
  total <- py_get data (py "total_defects")
             (PInt (Z.of_nat (List.length defects))) ;;
  analysis <- new_AnalysisResult env (UploadFile.filename file) total
                defects base64_image ;;
  db' <- Store.insert_one db (new_object_id env) (analysis_dict analysis) ;;
  Return (success_response analysis, db').

(** The body of the outer [try] of [analyze_defects]. *)
Definition analyze_body (env : Env) (file : UploadFile.t)
  (db : Store.database) : outcome (AnalysisResponse * Store.database) :=
  match UploadFile.content_type file with
  | None =>
      Raise (LibraryError (AttributeError PNone (py "startswith")))
  | Some content_type =>
      if negb (Str.startswith content_type (py "image/")) then
        Raise (HTTPException 400 (py "Only image files are supported"))
      else
        let base64_image := Base64.b64encode (UploadFile.contents file) in
        response <- ask_model env content_type base64_image ;;
        record_analysis env file db base64_image response
  end.

(** [POST /api/analyze]: the response or the [HTTPException] raised, and
    the store afterwards. *)
Definition analyze_defects (env : Env) (file : UploadFile.t)
  (db : Store.database) : outcome AnalysisResponse * Store.database :=
  match analyze_body env file db with
  | Return (resp, db') => (Return resp, db')
  | Raise (HTTPException s d) => (Raise (HTTPException s d), db)
  | Raise e =>
      (Raise (HTTPException 500 (py "Analysis failed: " ++ str_of_exn rt e)),
       db)
  end.

(** A list of [DefectResult] validated from a list of dictionaries. *)
Definition defects_of (v : pyval) : option (list DefectResult) :=
  match v with
  | PList items =>
      fold_right
        (fun item acc =>
           match item, acc with
           | PDict kwargs, Some ds =>
               option_map (fun d => d :: ds) (defect_of_kwargs kwargs)
           | _, _ => None
           end)
        (Some []) items
  | _ => None
  end.

(** [AnalysisResult] built from the entries of a stored document as
    keyword arguments: missing fields take their defaults, keys that are
    no field are ignored. *)
Definition AnalysisResult_of_document (env : Env) (doc : Store.document)
  : outcome AnalysisResult :=
  match Validate.defaulted (Validate.as_str rt) (py "id") (uuid4_id env) doc,
        Validate.required (Validate.as_str rt) (py "filename") doc,
        Validate.defaulted (Validate.as_datetime rt) (py "upload_time")
          (utcnow env) doc,
        Validate.required (Validate.as_int rt) (py "total_defects") doc,
        Validate.required defects_of (py "defects_found") doc,
        Validate.defaulted (Validate.as_bool rt) (py "analysis_complete")
          true doc,
        Validate.defaulted (Validate.optional_str rt) (py "image_base64")
          None doc with
  | Some i, Some f, Some t, Some n, Some ds, Some c, Some img =>
      Return {| id := i; filename := f; upload_time := t;
                total_defects := n; defects_found := ds;
                analysis_complete := c; image_base64 := img |}
  | _, _, _, _, _, _, _ =>
      Raise (LibraryError (ValidationError (py "AnalysisResult") (PDict doc)))
  end.

(** The loop body of [get_analysis_history]: a string [upload_time] is
    parsed before the model is built. *)
Definition normalize_upload_time (doc : Store.document)
  : outcome Store.document :=
  match Dict.get (py "upload_time") doc with
  | Some (PStr s) =>
      match Datetime.fromisoformat rt s with
      | Some d => Return (Dict.set (py "upload_time") (PDatetime d) doc)
      | None => Raise (LibraryError (ValueError s))
      end
  | _ => Return doc
  end.

(** One turn of the loop of [get_analysis_history]. *)
Definition load_document (env : Env) (doc : Store.document)
  : outcome AnalysisResult :=
  doc' <- normalize_upload_time doc ;;
  AnalysisResult_of_document env doc'.

Definition DEFAULT_LIMIT : Z := 10.

(** [GET /api/history?limit=N] *)
Definition get_analysis_history (env : Env) (db : Store.database)
  (limit : option Z) : outcome (list AnalysisResult) :=
  let limit := match limit with Some n => n | None => DEFAULT_LIMIT end in
  try_except
    (analyses <- Store.find_sorted rt db (py "upload_time") limit ;;
     map_outcome (load_document env) analyses)
    (fun e =>
       Raise (HTTPException 500
                (py "Failed to fetch history: " ++ str_of_exn rt e))).

(** The body of the [try] of [get_analysis]. *)
Definition get_analysis_body (env : Env) (db : Store.database)
  (analysis_id : pystr) : outcome AnalysisResult :=
  found <- Store.find_one db (py "id") analysis_id ;;
  match found with
  | Some analysis =>
      if truthy rt (PDict analysis) then load_document env analysis
      else Raise (HTTPException 404 (py "Analysis not found"))
  | None => Raise (HTTPException 404 (py "Analysis not found"))
  end.

(** [GET /api/analysis/{analysis_id}] *)
Definition get_analysis (env : Env) (db : Store.database)
  (analysis_id : pystr) : outcome AnalysisResult :=
  match get_analysis_body env db analysis_id with
  | Return a => Return a
  | Raise (HTTPException s d) => Raise (HTTPException s d)
  | Raise e =>
      Raise (HTTPException 500
               (py "Failed to fetch analysis: " ++ str_of_exn rt e))
  end.

End Application.

(** The status line the framework answers with. *)
Definition http_status {A : Type} (r : outcome A) : Z :=
  match r with
  | Return _ => 200
  | Raise (HTTPException s _) => s
  | Raise _ => 500
  end.

(* ================================================================== *)
(** * Configuration *)
(* ================================================================== *)

(** The module-level settings, read once from the process environment
    (as it is after [load_dotenv()]). *)
Module Config.

Definition environ := list (pystr * pystr).

(** [os.environ.get(name)] *)
Fixpoint get (e : environ) (name : pystr) : option pystr :=
  match e with
  | [] => None
  | (k, v) :: r => if Str.eqb name k then Some v else get r name
  end.

(** [os.environ.get(name, default)] *)
Definition get_default (e : environ) (name default : pystr) : pystr :=
  match get e name with
  | Some v => v
  | None => default
  end.

Definition MONGO_URL (e : environ) : pystr :=
  get_default e (py "MONGO_URL") (py "mongodb://localhost:27017").

Definition GOOGLE_API_KEY (e : environ) : option pystr :=
  get e (py "GEMINI_API_KEY").

Definition DATABASE_NAME (e : environ) : pystr :=
  get_default e (py "DB_NAME") (py "defect_detective").

End Config.

(** What a request finds when the process was started in the environment
    [e]: the key is the one read at start-up. *)
Definition started_in (e : Config.environ) (env : Env) : Env :=
  {| GOOGLE_API_KEY := Config.GOOGLE_API_KEY e;
     uuid4_session := uuid4_session env;
     uuid4_id := uuid4_id env;
     utcnow := utcnow env;
     new_object_id := new_object_id env;
     post := post env |}.

(* ================================================================== *)
(** * Sample data *)
(* ================================================================== *)

(** A runtime that refuses every lax conversion, used to run the model
    on concrete requests. *)
Definition strict_runtime : Runtime :=
  {| describe := fun _ => py "error";
     json_dumps := fun _ => Return (py "{}");
     float_truthy := fun _ => true;
     lax_str := fun _ => None;
     lax_int := fun _ => None;
     lax_float := fun _ => None;
     lax_bool := fun _ => None;
     lax_datetime := fun _ => None;
     fromisoformat_other := fun _ => None;
     bson_compare_other := fun _ _ => Eq;
     json_room := 994;
     client_json_room := 990;
     int_max_str_digits := Some 3660 |}.

Definition sample_time (s : N) : datetime :=
  {| year := 2024; month := 5; day := 17; hour := 9; minute := 30;
     second := s; microsecond := 0 |}.

(** The environment of the [n]-th request of a sample session: a key is
    configured, the clock shows second [n], the identifiers end in [n],
    and the endpoint answers every request with [resp]. *)
Definition sample_env (n : N) (resp : Httpx.post_outcome) : Env :=
  {| GOOGLE_API_KEY := Some (py "k");
     uuid4_session := py "5a0f2c1e-0000-4000-8000-0000000001"
                      ++ Datetime.digits 2 n;
     uuid4_id := py "5a0f2c1e-0000-4000-8000-0000000000"
                 ++ Datetime.digits 2 n;
     utcnow := sample_time n;
     new_object_id := py "665f000000000000000000" ++ Datetime.digits 2 n;
     post := fun _ _ => resp |}.

(** The body of a successful answer of the endpoint whose single text
    part is the reply; the reply is given as it stands inside a JSON
    string, that is with its quotes and backslashes escaped. *)
Definition sample_body (escaped_reply : string) : pystr :=
  pyq ("{'candidates':[{'content':{'parts':[{'text':'"
       ++ escaped_reply ++ "'}]}}]}")%string.

Definition answering (escaped_reply : string) : Httpx.post_outcome :=
  Httpx.Responded {| Httpx.status_code := 200;
                     Httpx.text := sample_body escaped_reply;
                     Httpx.json_document :=
                       Some (sample_body escaped_reply) |}.

(** A response whose body is plain text, read in the same way as text
    and as a JSON document. *)
Definition plain_response (status : Z) (body : pystr) : Httpx.Response :=
  {| Httpx.status_code := status;
     Httpx.text := body;
     Httpx.json_document := Some body |}.

(** The same for a reply given by its characters, none of which needs
    escaping. *)
Definition answering_text (reply : pystr) : Httpx.post_outcome :=
  let body := pyq "{'candidates':[{'content':{'parts':[{'text':'"
              ++ reply ++ pyq "'}]}}]}" in
  Httpx.Responded {| Httpx.status_code := 200;
                     Httpx.text := body;
                     Httpx.json_document := Some body |}.

(** The answer of the provider for a key it has blocked. *)
Definition leaked_answer : Httpx.post_outcome :=
  Httpx.Responded
    {| Httpx.status_code := 403;
       Httpx.text := py "API key was reported as leaked. Please use another API key.";
       Httpx.json_document :=
         Some (py "API key was reported as leaked. Please use another API key.") |}.

Definition sample_file (content_type : string) : UploadFile.t :=
  {| UploadFile.filename := py "weld.png";
     UploadFile.content_type := Some (py content_type);
     UploadFile.contents := [Byte.x89; Byte.x50; Byte.x4e; Byte.x47] |}.

Definition empty_db : Store.database :=
  {| Store.available := true; Store.analyses := [] |}.

(** A small history: a first upload at second 1 whose reply is not JSON,
    then an upload at second 2 whose reply reports one crack and claims
    five defects. *)
Definition first_result : AnalysisResult :=
  {| id := py "5a0f2c1e-0000-4000-8000-000000000001";
     filename := py "weld.png";
     upload_time := sample_time 1;
     total_defects := 1;
     defects_found := [PARSE_ERROR_RECORD];
     analysis_complete := true;
     image_base64 := Some (py "iVBORw==") |}.

Definition crack_reply : string :=
  "{\'defects_found\': [{\'defect_type\': \'Crack\', \'confidence\': 92, \'severity\': \'High\', \'description\': \'Hairline crack\'}], \'total_defects\': 5}".

Definition second_result : AnalysisResult :=
  {| id := py "5a0f2c1e-0000-4000-8000-000000000002";
     filename := py "weld.png";
     upload_time := sample_time 2;
     total_defects := 5;
     defects_found :=
       [{| defect_type := py "Crack";
           confidence := FloatOfInt 92;
           severity := py "High";
           description := py "Hairline crack" |}];
     analysis_complete := true;
     image_base64 := Some (py "iVBORw==") |}.

Definition first_store : Store.database :=
  {| Store.available := true;
     Store.analyses :=
       [stored_document (py "665f00000000000000000001") first_result] |}.

Definition second_store : Store.database :=
  {| Store.available := true;
     Store.analyses :=
       [stored_document (py "665f00000000000000000001") first_result;
        stored_document (py "665f00000000000000000002") second_result] |}.

(** A history in which the clock went back: an upload stamped second 5
    whose reply is not JSON, then the upload of [second_result], stamped
    second 2. *)
Definition fifth_result : AnalysisResult :=
  {| id := py "5a0f2c1e-0000-4000-8000-000000000005";
     filename := py "weld.png";
     upload_time := sample_time 5;
     total_defects := 1;
     defects_found := [PARSE_ERROR_RECORD];
     analysis_complete := true;
     image_base64 := Some (py "iVBORw==") |}.

Definition skewed_store : Store.database :=
  {| Store.available := true;
     Store.analyses :=
       [stored_document (py "665f00000000000000000005") fifth_result;
        stored_document (py "665f00000000000000000002") second_result] |}.

(** A collection in which another writer left a document without
    [filename] next to the first sample result. *)
Definition damaged_store : Store.database :=
  {| Store.available := true;
     Store.analyses :=
       [stored_document (py "665f00000000000000000001") first_result;
        [(py "_id", PObjectId (py "665f00000000000000000007"));
         (py "id", PStr (py "7"));
         (py "total_defects", PInt 0);
         (py "defects_found", PList [])]] |}.

(** A runtime whose status error reads as the client's does: it names
    the status and the address of the request. *)
Definition verbose_runtime : Runtime :=
  {| describe := fun f =>
       match f with
       | HTTPStatusError status url =>
           py "Client error '" ++ str_of_int status ++ py "' for url '"
           ++ url ++ py "'"
       | _ => py "error"
       end;
     json_dumps := fun _ => Return (py "{}");
     float_truthy := fun _ => true;
     lax_str := fun _ => None;
     lax_int := fun _ => None;
     lax_float := fun _ => None;
     lax_bool := fun _ => None;
     lax_datetime := fun _ => None;
     fromisoformat_other := fun _ => None;
     bson_compare_other := fun _ _ => Eq;
     json_room := 994;
     client_json_room := 990;
     int_max_str_digits := Some 3660 |}.

(* ================================================================== *)
(** * What the store accepts *)
(* ================================================================== *)

Definition defect_storable (d : DefectResult) : bool :=
  Store.well_formed (defect_type d) && Store.well_formed (severity d)
  && Store.well_formed (description d).

(** The results whose document the driver can encode. *)
Definition storable (a : AnalysisResult) : bool :=
  Store.well_formed (id a) && Store.well_formed (filename a)
  && ((Store.int64_min <=? total_defects a)
      && (total_defects a <=? Store.int64_max))%Z
  && forallb defect_storable (defects_found a)
  && match image_base64 a with
     | Some s => Store.well_formed s
     | None => true
     end.

(* ================================================================== *)
(** * Histories of the store *)
(* ================================================================== *)

(** [reachable rt db results]: the store [db] is what a sequence of
    requests to [POST /api/analyze] leaves behind, starting from an empty
    collection, and [results] are the analyses they returned, oldest
    first.  Between requests the store may become unreachable and come
    back. *)
Inductive reachable (rt : Runtime)
  : Store.database -> list AnalysisResult -> Prop :=
| reachable_empty (up : bool) :
    reachable rt {| Store.available := up; Store.analyses := [] |} []
| reachable_success (db db' : Store.database) (results : list AnalysisResult)
    (env : Env) (file : UploadFile.t) (resp : AnalysisResponse)
    (a : AnalysisResult) :
    reachable rt db results ->
    Datetime.valid (utcnow env) = true ->
    analyze_defects rt env file db = (Return resp, db') ->
    analysis resp = Some a ->
    reachable rt db' (results ++ [a])
| reachable_failure (db db' : Store.database) (results : list AnalysisResult)
    (env : Env) (file : UploadFile.t) (e : exn) :
    reachable rt db results ->
    analyze_defects rt env file db = (Raise e, db') ->
    reachable rt db' results
| reachable_outage (db : Store.database) (results : list AnalysisResult)
    (up : bool) :
    reachable rt db results ->
    reachable rt {| Store.available := up;
                    Store.analyses := Store.analyses db |} results.

(** The clock advanced between one upload and the next. *)
Definition chronological (results : list AnalysisResult) : Prop :=
  StronglySorted
    (fun a b => Datetime.lt (upload_time a) (upload_time b)) results.

(* ================================================================== *)
(** * Facts about strings *)
(* ================================================================== *)

Section StrFacts.

Local Open Scope N_scope.

Lemma Str_eqb_eq (a b : pystr) : Str.eqb a b = true <-> a = b.
Proof.
  revert b; induction a as [|x a IH]; intros [|y b]; simpl;
    try (split; [discriminate | congruence]); try tauto.
  rewrite andb_true_iff, N.eqb_eq, IH.
  split; [intros [-> ->] | intros [= -> ->]]; auto.
Qed.

Lemma Str_eqb_refl (a : pystr) : Str.eqb a a = true.
Proof. now apply Str_eqb_eq. Qed.

Lemma startswith_app (p s : pystr) : Str.startswith (p ++ s) p = true.
Proof.
  induction p as [|a p IH]; simpl; [reflexivity|].
  now rewrite N.eqb_refl, IH.
Qed.

Lemma endswith_app (s p : pystr) : Str.endswith (s ++ p) p = true.
Proof.
  unfold Str.endswith. rewrite rev_app_distr. apply startswith_app.
Qed.

Lemma drop_app (p s : pystr) : Str.drop (List.length p) (p ++ s) = s.
Proof.
  unfold Str.drop. induction p; simpl; auto.
Qed.

Lemma drop_last_app (s p : pystr) :
  Str.drop_last (List.length p) (s ++ p) = s.
Proof.
  unfold Str.drop_last. rewrite length_app.
  replace (List.length s + List.length p - List.length p)%nat
    with (List.length s + 0)%nat by lia.
  rewrite firstn_app_2. simpl. apply app_nil_r.
Qed.

Lemma lstrip_spaces (ws s : pystr) :
  forallb Str.isspace ws = true -> Str.lstrip (ws ++ s) = Str.lstrip s.
Proof.
  induction ws as [|c ws IH]; simpl; [reflexivity|].
  rewrite andb_true_iff. intros [Hc Hws]. now rewrite Hc, IH.
Qed.

Lemma lstrip_head (c : N) (s : pystr) :
  Str.isspace c = false -> Str.lstrip (c :: s) = c :: s.
Proof. simpl. now intros ->. Qed.

Lemma rstrip_spaces (s ws : pystr) :
  forallb Str.isspace ws = true -> Str.rstrip (s ++ ws) = Str.rstrip s.
Proof.
  intros H. unfold Str.rstrip. rewrite rev_app_distr, lstrip_spaces; auto.
  rewrite forallb_forall in *. intros x Hx. apply H. now apply in_rev.
Qed.

Lemma rstrip_last (s : pystr) (c : N) :
  Str.isspace c = false -> Str.rstrip (s ++ [c]) = s ++ [c].
Proof.
  intros H. unfold Str.rstrip. rewrite rev_app_distr. simpl.
  rewrite H. simpl. now rewrite rev_involutive.
Qed.

(** Stripping removes exactly the blanks around a text that begins and
    ends with characters that are not blank. *)
Lemma strip_surrounded (ws1 ws2 mid : pystr) (a b : N) :
  forallb Str.isspace ws1 = true -> forallb Str.isspace ws2 = true ->
  Str.isspace a = false -> Str.isspace b = false ->
  Str.strip (ws1 ++ (a :: mid ++ [b]) ++ ws2) = a :: mid ++ [b].
Proof.
  intros H1 H2 Ha Hb. unfold Str.strip.
  rewrite lstrip_spaces by assumption.
  change ((a :: mid ++ [b]) ++ ws2) with (a :: (mid ++ [b]) ++ ws2).
  rewrite lstrip_head by assumption.
  change (a :: (mid ++ [b]) ++ ws2) with ((a :: mid ++ [b]) ++ ws2).
  rewrite rstrip_spaces by assumption.
  change (a :: mid ++ [b]) with ((a :: mid) ++ [b]).
  now apply rstrip_last.
Qed.

End StrFacts.

(** The fence markers. *)
Lemma response_text_fenced (ws1 ws2 s : pystr) :
  forallb Str.isspace ws1 = true -> forallb Str.isspace ws2 = true ->
  response_text (ws1 ++ py "```json" ++ s ++ py "```" ++ ws2) = s.
Proof.
  intros H1 H2. unfold response_text.
  replace (ws1 ++ py "```json" ++ s ++ py "```" ++ ws2)
    with (ws1 ++ (96%N :: (py "``json" ++ s ++ py "``") ++ [96%N]) ++ ws2).
  2:{ cbn [py map list_ascii_of_string N_of_ascii N_of_digits app].
      repeat (rewrite <- ?app_assoc; cbn [app]). reflexivity. }
  rewrite strip_surrounded by (assumption || reflexivity).
  replace (96%N :: (py "``json" ++ s ++ py "``") ++ [96%N])
    with (py "```json" ++ (s ++ py "```")).
  2:{ cbn [py map list_ascii_of_string N_of_ascii N_of_digits app].
      repeat (rewrite <- ?app_assoc; cbn [app]). reflexivity. }
  rewrite startswith_app.
  change 7%nat with (List.length (py "```json")). rewrite drop_app.
  rewrite endswith_app.
  change 3%nat with (List.length (py "```")). now rewrite drop_last_app.
Qed.

(* ================================================================== *)
(** * Facts about computations that may raise *)
(* ================================================================== *)

Lemma bind_Return_inv {A B : Type} (m : outcome A) (k : A -> outcome B)
  (b : B) :
  bind m k = Return b -> exists a, m = Return a /\ k a = Return b.
Proof. destruct m as [a|e]; simpl; [eauto | discriminate]. Qed.

(** Peel the binds of a computation that returned. *)
Ltac invert_bind H :=
  let a := fresh "x" in
  let Ha := fresh "H" a in
  apply bind_Return_inv in H; destruct H as (a & Ha & H).

Lemma map_outcome_Forall2 {A B : Type} (f : A -> outcome B) (l : list A)
  (bs : list B) :
  map_outcome f l = Return bs <-> Forall2 (fun a b => f a = Return b) l bs.
Proof.
  revert bs; induction l as [|a l IH]; intros bs; simpl.
  - split.
    + intros [= <-]. constructor.
    + intros H; inversion H; reflexivity.
  - split.
    + intros H. invert_bind H. invert_bind H.
      injection H as <-. constructor; [assumption | now apply IH].
    + intros H; inversion H as [|? b ? bs' Hf Hr]; subst.
      rewrite Hf. simpl. apply IH in Hr. now rewrite Hr.
Qed.

(* ================================================================== *)
(** * Facts about the encodings *)
(* ================================================================== *)

Lemma alphabet_ascii (i : N) : (Base64.alphabet i < 128)%N.
Proof.
  unfold Base64.alphabet.
  destruct (N.ltb_spec i 26); [lia|].
  destruct (N.ltb_spec i 52); [lia|].
  destruct (N.ltb_spec i 62); [lia|].
  destruct (N.eqb_spec i 62); lia.
Qed.

Lemma well_formed_ascii (s : pystr) :
  Forall (fun c => (c < 128)%N) s -> Store.well_formed s = true.
Proof.
  unfold Store.well_formed. induction 1 as [|c s Hc _ IH]; simpl; auto.
  rewrite IH, andb_true_r. unfold Store.is_surrogate.
  apply negb_true_iff, andb_false_iff. left. apply N.leb_gt. lia.
Qed.

Lemma b64encode_ascii (bs : list Byte.byte) :
  Forall (fun c => (c < 128)%N) (Base64.b64encode bs).
Proof.
  assert (Hpad : (Base64.pad < 128)%N) by (unfold Base64.pad; lia).
  assert (H : forall n (l : list Byte.byte),
             (List.length l <= n)%nat ->
             Forall (fun c => (c < 128)%N) (Base64.b64encode l)).
  { induction n as [|n IH]; intros l Hl.
    - destruct l; [constructor | simpl in Hl; lia].
    - destruct l as [|a [|b [|c r]]]; simpl;
        repeat (constructor; try apply alphabet_ascii; try assumption).
      apply IH. simpl in Hl. lia. }
  now apply (H (List.length bs)).
Qed.

Lemma b64encode_well_formed (bs : list Byte.byte) :
  Store.well_formed (Base64.b64encode bs) = true.
Proof. apply well_formed_ascii, b64encode_ascii. Qed.

Lemma digits_ascii (w : nat) (n : N) :
  Forall (fun c => (c < 128)%N) (Datetime.digits w n).
Proof.
  induction w as [|w IH]; cbn [Datetime.digits]; constructor; [|assumption].
  assert ((n / 10 ^ N.of_nat w) mod 10 < 10)%N
    by (apply N.mod_upper_bound; discriminate).
  lia.
Qed.

Lemma isoformat_ascii (d : datetime) :
  Forall (fun c => (c < 128)%N) (Datetime.isoformat d).
Proof.
  unfold Datetime.isoformat.
  repeat (apply Forall_app; split); try apply digits_ascii;
    try (repeat constructor; fail).
  destruct (microsecond d =? 0)%N; [constructor|].
  apply Forall_app; split; [repeat constructor | apply digits_ascii].
Qed.

Lemma isoformat_well_formed (d : datetime) :
  Store.well_formed (Datetime.isoformat d) = true.
Proof. apply well_formed_ascii, isoformat_ascii. Qed.

(* ================================================================== *)
(** * Facts about [analyze_defects] *)
(* ================================================================== *)

Section AnalyzeFacts.

Variable rt : Runtime.

Lemma as_str_well_formed (s : pystr) :
  Store.well_formed s = true -> Validate.as_str rt (PStr s) = Some s.
Proof. simpl. now intros ->. Qed.

Lemma new_AnalysisResult_inv (env : Env) (fname : pystr) (total : pyval)
  (defects : list DefectResult) (img : pystr) (a : AnalysisResult) :
  new_AnalysisResult rt env fname total defects img = Return a ->
  exists f n i,
    Validate.as_str rt (PStr fname) = Some f
    /\ Validate.as_int rt total = Some n
    /\ Validate.as_str rt (PStr img) = Some i
    /\ a = {| id := uuid4_id env; filename := f; upload_time := utcnow env;
              total_defects := n; defects_found := defects;
              analysis_complete := true; image_base64 := Some i |}.
Proof.
  unfold new_AnalysisResult.
  destruct (Validate.as_str rt (PStr fname)) as [f|];
    destruct (Validate.as_int rt total) as [n|];
    destruct (Validate.as_str rt (PStr img)) as [i|];
    try discriminate.
  intros [= <-]. now exists f, n, i.
Qed.

Lemma analysis_dict_no_id (a : AnalysisResult) :
  Dict.mem (py "_id") (analysis_dict a) = false.
Proof. reflexivity. Qed.

Lemma insert_one_analysis_inv (db db' : Store.database) (oid : pystr)
  (a : AnalysisResult) :
  Store.insert_one db oid (analysis_dict a) = Return db' ->
  Store.available db = true
  /\ Store.encodable (PDict (stored_document oid a)) = true
  /\ (Store.bson_size (PDict (stored_document oid a))
      <= Store.max_bson_size)%N
  /\ db' = {| Store.available := true;
              Store.analyses := Store.analyses db ++ [stored_document oid a] |}.
Proof.
  unfold Store.insert_one. rewrite analysis_dict_no_id.
  destruct (Store.available db); cbn [negb]; [|discriminate].
  fold (stored_document oid a).
  destruct (Store.encodable (PDict (stored_document oid a)));
    cbn [negb]; [|discriminate].
  destruct (N.ltb_spec Store.max_bson_size
              (Store.bson_size (PDict (stored_document oid a))));
    [discriminate|].
  intros [= <-]. auto.
Qed.

Lemma insert_one_analysis (db : Store.database) (oid : pystr)
  (a : AnalysisResult) :
  Store.available db = true ->
  Store.encodable (PDict (stored_document oid a)) = true ->
  (Store.bson_size (PDict (stored_document oid a))
   <= Store.max_bson_size)%N ->
  Store.insert_one db oid (analysis_dict a)
  = Return {| Store.available := true;
              Store.analyses := Store.analyses db ++ [stored_document oid a] |}.
Proof.
  intros Hav Henc Hsize. unfold Store.insert_one.
  rewrite analysis_dict_no_id, Hav. cbn [negb].
  fold (stored_document oid a). rewrite Henc. cbn [negb].
  apply N.ltb_ge in Hsize. now rewrite Hsize.
Qed.

(** What a successful run of the parsing and storing stage consists of. *)
Lemma record_analysis_inv (env : Env) (file : UploadFile.t)
  (db db' : Store.database) (img reply : pystr) (resp : AnalysisResponse) :
  record_analysis rt env file db img reply = Return (resp, db') ->
  exists data found items defects total a,
    analysis_data rt reply = Return data
    /\ py_get data (py "defects_found") (PList []) = Return found
    /\ iterate found = Return items
    /\ map_outcome (new_DefectResult rt) items = Return defects
    /\ py_get data (py "total_defects")
         (PInt (Z.of_nat (List.length defects))) = Return total
    /\ new_AnalysisResult rt env (UploadFile.filename file) total defects img
       = Return a
    /\ Store.insert_one db (new_object_id env) (analysis_dict a) = Return db'
    /\ resp = success_response a.
Proof.
  unfold record_analysis. intros H.
  invert_bind H. invert_bind H. invert_bind H. invert_bind H.
  invert_bind H. invert_bind H. invert_bind H. injection H as <- <-.
  eauto 14.
Qed.


(** A request succeeds exactly when the upload is an image, the model
    replied and the reply was recorded. *)
Lemma analyze_defects_Return (env : Env) (file : UploadFile.t)
  (db db' : Store.database) (resp : AnalysisResponse) :
  analyze_defects rt env file db = (Return resp, db') <->
  exists ct reply,
    UploadFile.content_type file = Some ct
    /\ Str.startswith ct (py "image/") = true
    /\ ask_model rt env ct (Base64.b64encode (UploadFile.contents file))
       = Return reply
    /\ record_analysis rt env file db
         (Base64.b64encode (UploadFile.contents file)) reply
       = Return (resp, db').
Proof.
  unfold analyze_defects, analyze_body. split.
  - destruct (UploadFile.content_type file) as [ct|]; [|discriminate].
    destruct (Str.startswith ct (py "image/")) eqn:Hct; simpl;
      [|discriminate].
    destruct (ask_model rt env ct _) as [reply|e] eqn:Hask; simpl.
    + destruct (record_analysis rt env file db _ reply)
        as [[r d]|e] eqn:Hrec.
      * intros [= <- <-]. eauto 6.
      * destruct e; discriminate.
    + destruct e; discriminate.
  - intros (ct & reply & -> & -> & -> & Hrec). simpl. now rewrite Hrec.
Qed.

(** A request that fails leaves the store as it was. *)
Lemma analyze_defects_Raise (env : Env) (file : UploadFile.t)
  (db db' : Store.database) (e : exn) :
  analyze_defects rt env file db = (Raise e, db') ->
  db' = db /\ exists s d, e = HTTPException s d.
Proof.
  unfold analyze_defects.
  destruct (analyze_body rt env file db) as [[r d]|[s d|m|f]];
    intros [= <- <-]; eauto.
Qed.

End AnalyzeFacts.

(* ================================================================== *)
(** * Base64 loses nothing *)
(* ================================================================== *)

Section Base64Facts.

Local Open Scope N_scope.

Lemma value_alphabet (i : N) :
  i < 64 -> Base64.value (Base64.alphabet i) = Some i.
Proof.
  intros Hi. unfold Base64.alphabet, Base64.value.
  destruct (N.ltb_spec i 26).
  { replace ((65 <=? 65 + i) && (65 + i <=? 90))%bool with true.
    - f_equal; lia.
    - symmetry. apply andb_true_iff. split; apply N.leb_le; lia. }
  destruct (N.ltb_spec i 52).
  { replace ((65 <=? 97 + (i - 26)) && (97 + (i - 26) <=? 90))%bool
      with false.
    2:{ symmetry. apply andb_false_iff. right. apply N.leb_gt. lia. }
    replace ((97 <=? 97 + (i - 26)) && (97 + (i - 26) <=? 122))%bool
      with true.
    - f_equal; lia.
    - symmetry. apply andb_true_iff. split; apply N.leb_le; lia. }
  destruct (N.ltb_spec i 62).
  { replace ((65 <=? 48 + (i - 52)) && (48 + (i - 52) <=? 90))%bool
      with false.
    2:{ symmetry. apply andb_false_iff. left. apply N.leb_gt. lia. }
    replace ((97 <=? 48 + (i - 52)) && (48 + (i - 52) <=? 122))%bool
      with false.
    2:{ symmetry. apply andb_false_iff. left. apply N.leb_gt. lia. }
    replace ((48 <=? 48 + (i - 52)) && (48 + (i - 52) <=? 57))%bool
      with true.
    - f_equal; lia.
    - symmetry. apply andb_true_iff. split; apply N.leb_le; lia. }
  destruct (N.eqb_spec i 62) as [->|]; [reflexivity|].
  assert (i = 63) as -> by lia. reflexivity.
Qed.

Lemma alphabet_not_pad (i : N) : (Base64.alphabet i =? Base64.pad) = false.
Proof.
  apply N.eqb_neq. unfold Base64.alphabet, Base64.pad.
  destruct (N.ltb_spec i 26); [lia|].
  destruct (N.ltb_spec i 52); [lia|].
  destruct (N.ltb_spec i 62); [lia|].
  destruct (N.eqb_spec i 62); lia.
Qed.

Lemma byte_of_to_N (b : Byte.byte) : Base64.byte_of (Byte.to_N b) = Some b.
Proof. apply Byte.of_to_N. Qed.

Lemma byte_bound (b : Byte.byte) : Byte.to_N b < 256.
Proof. pose proof (Byte.to_N_bounded b). lia. Qed.

Ltac euclid := zify; Z.to_euclidean_division_equations; lia.

Lemma sextets_of_three (a b c : N) :
  a < 256 -> b < 256 -> c < 256 ->
  let n := a * 65536 + b * 256 + c in
  n / 262144 < 64
  /\ (n / 262144) * 262144 + ((n / 4096) mod 64) * 4096
     + ((n / 64) mod 64) * 64 + n mod 64 = n
  /\ n / 65536 = a /\ (n / 256) mod 256 = b /\ n mod 256 = c.
Proof. intros Ha Hb Hc n. subst n. repeat split; euclid. Qed.


Lemma decode_one (a : Byte.byte) :
  Base64.b64decode (Base64.b64encode [a]) = Some [a].
Proof.
  pose proof (byte_bound a) as Ha.
  cbn [Base64.b64encode Base64.b64decode].
  set (A := Byte.to_N a) in *.
  rewrite !value_alphabet by euclid.
  rewrite N.eqb_refl. cbn [andb].
  replace ((A * 65536 / 262144 * 4096 + (A * 65536 / 4096) mod 64 * 64) / 1024)
    with A by euclid.
  subst A. now rewrite byte_of_to_N.
Qed.

Lemma decode_two (a b : Byte.byte) :
  Base64.b64decode (Base64.b64encode [a; b]) = Some [a; b].
Proof.
  pose proof (byte_bound a) as Ha. pose proof (byte_bound b) as Hb.
  cbn [Base64.b64encode Base64.b64decode].
  set (A := Byte.to_N a) in *. set (B := Byte.to_N b) in *.
  set (n := A * 65536 + B * 256).
  rewrite !value_alphabet by (subst n; euclid).
  rewrite alphabet_not_pad, N.eqb_refl. cbn [andb].
  replace (n / 262144 * 262144 + (n / 4096) mod 64 * 4096
           + (n / 64) mod 64 * 64) with n by (subst n; euclid).
  replace (n / 65536) with A by (subst n; euclid).
  replace ((n / 256) mod 256) with B.
  2:{ replace (n / 256) with (A * 256 + B) by (subst n; euclid). euclid. }
  subst A B. now rewrite !byte_of_to_N.
Qed.

Lemma decode_three (a b c : Byte.byte) (r : list Byte.byte) :
  Base64.b64decode (Base64.b64encode r) = Some r ->
  Base64.b64decode (Base64.b64encode (a :: b :: c :: r))
  = Some (a :: b :: c :: r).
Proof.
  intros IH.
  pose proof (byte_bound a) as Ha. pose proof (byte_bound b) as Hb.
  pose proof (byte_bound c) as Hc.
  cbn [Base64.b64encode Base64.b64decode].
  set (A := Byte.to_N a) in *. set (B := Byte.to_N b) in *.
  set (C := Byte.to_N c) in *.
  destruct (sextets_of_three Ha Hb Hc) as (H1 & H2 & H3 & H4 & H5).
  set (n := A * 65536 + B * 256 + C) in *.
  assert (forall x, x mod 64 < 64) by (intros; apply N.mod_upper_bound; lia).
  rewrite !value_alphabet by auto.
  rewrite !alphabet_not_pad. cbn [andb].
  rewrite IH, H2, H3, H4, H5.
  subst A B C. now rewrite !byte_of_to_N.
Qed.

(** Decoding the encoding gives the bytes back. *)
Lemma b64decode_b64encode (bs : list Byte.byte) :
  Base64.b64decode (Base64.b64encode bs) = Some bs.
Proof.
  assert (H : forall n (l : list Byte.byte),
             (List.length l <= n)%nat ->
             Base64.b64decode (Base64.b64encode l) = Some l).
  { induction n as [|n IH]; intros l Hl.
    - destruct l; [reflexivity | simpl in Hl; lia].
    - destruct l as [|a [|b [|c r]]];
        [reflexivity | apply decode_one | apply decode_two |].
      apply decode_three, IH. simpl in Hl. lia. }
  now apply (H (List.length bs)).
Qed.

End Base64Facts.

(* ================================================================== *)
(** * ISO timestamps: reading back and ordering *)
(* ================================================================== *)

Section DatetimeFacts.

Local Open Scope N_scope.

Lemma pow10_pos (w : nat) : 0 < 10 ^ N.of_nat w.
Proof. apply N.neq_0_lt_0, N.pow_nonzero. discriminate. Qed.

Lemma mod_pow10_succ (n : N) (w : nat) :
  n mod 10 ^ N.of_nat (S w)
  = ((n / 10 ^ N.of_nat w) mod 10) * 10 ^ N.of_nat w + n mod 10 ^ N.of_nat w.
Proof.
  rewrite Nat2N.inj_succ, N.pow_succ_r', (N.mul_comm 10).
  rewrite N.Div0.mod_mul_r. lia.
Qed.

Lemma digit_is_digit (x : N) : Json.is_digit (48 + x mod 10) = true.
Proof.
  assert (x mod 10 < 10) by (apply N.mod_upper_bound; discriminate).
  generalize dependent (x mod 10). intros m Hm.
  unfold Json.is_digit. apply andb_true_iff; split; apply N.leb_le; lia.
Qed.

(** Reading [w] digits written by [digits] gives the number back. *)
Lemma number_digits (w : nat) (acc n : N) (rest : pystr) :
  Datetime.number w acc (Datetime.digits w n ++ rest)
  = Some (acc * 10 ^ N.of_nat w + n mod 10 ^ N.of_nat w, rest).
Proof.
  revert acc; induction w as [|w IH]; intros acc.
  - cbn [Datetime.number Datetime.digits app]. f_equal. f_equal.
    change (10 ^ N.of_nat 0) with 1. rewrite N.mod_1_r. lia.
  - cbn [Datetime.number Datetime.digits app].
    rewrite digit_is_digit, IH. f_equal. f_equal.
    rewrite (mod_pow10_succ n w), Nat2N.inj_succ, N.pow_succ_r'.
    set (P := 10 ^ N.of_nat w). set (h := (n / P) mod 10).
    replace (48 + h - 48) with h by lia. lia.
Qed.

Lemma number_digits_small (w : nat) (n : N) (rest : pystr) :
  n < 10 ^ N.of_nat w ->
  Datetime.number w 0 (Datetime.digits w n ++ rest) = Some (n, rest).
Proof.
  intros H. rewrite number_digits, N.mod_small by assumption.
  reflexivity.
Qed.

Lemma expect_head (c : N) (s : pystr) :
  Datetime.expect c (c :: s) = Some s.
Proof. simpl. now rewrite N.eqb_refl. Qed.

Lemma valid_bounds (d : datetime) :
  Datetime.valid d = true ->
  year d < 10 ^ N.of_nat 4 /\ month d < 10 ^ N.of_nat 2
  /\ day d < 10 ^ N.of_nat 2 /\ hour d < 10 ^ N.of_nat 2
  /\ minute d < 10 ^ N.of_nat 2 /\ second d < 10 ^ N.of_nat 2
  /\ microsecond d < 10 ^ N.of_nat 6.
Proof.
  unfold Datetime.valid. rewrite !andb_true_iff, !N.leb_le, !N.ltb_lt.
  intros (((((((((Hy1 & Hy2) & Hm1) & Hm2) & Hd1) & Hd2) & Hh) & Hmi) & Hs)
          & Hu).
  assert (Datetime.days_in_month (year d) (month d) <= 31).
  { unfold Datetime.days_in_month.
    repeat match goal with
           | |- context [if ?c then _ else _] => destruct c
           end; lia. }
  change (10 ^ N.of_nat 4) with 10000. change (10 ^ N.of_nat 2) with 100.
  change (10 ^ N.of_nat 6) with 1000000.
  repeat split; lia.
Qed.

(** [fromisoformat] inverts [isoformat]. *)
Lemma parse_iso_isoformat (d : datetime) :
  Datetime.valid d = true ->
  Datetime.parse_iso (Datetime.isoformat d) = Some d.
Proof.
  intros Hv.
  destruct (valid_bounds d Hv) as (Hy & Hmo & Hd & Hh & Hmi & Hs & Hu).
  unfold Datetime.parse_iso, Datetime.isoformat.
  change (py "-") with [45]. change (py "T") with [84].
  change (py ":") with [58]. change (py ".") with [46].
  repeat (rewrite number_digits_small by assumption;
          cbn [Datetime.obind app]; rewrite ?expect_head;
          cbn [Datetime.obind app]).
  destruct (N.eqb_spec (microsecond d) 0) as [H0|H0].
  - destruct d; simpl in *; congruence.
  - rewrite expect_head. cbn [Datetime.obind].
    rewrite <- (app_nil_r (Datetime.digits 6 (microsecond d))).
    rewrite number_digits_small by assumption.
    cbn [Datetime.obind]. now destruct d.
Qed.

Lemma fromisoformat_isoformat (rt : Runtime) (d : datetime) :
  Datetime.valid d = true ->
  Datetime.fromisoformat rt (Datetime.isoformat d) = Some d.
Proof.
  intros Hv. unfold Datetime.fromisoformat.
  now rewrite parse_iso_isoformat, Hv.
Qed.


Lemma compare_cons_same (c : N) (x y : pystr) :
  Str.compare (c :: x) (c :: y) = Str.compare x y.
Proof. simpl. now rewrite N.compare_refl. Qed.

Lemma compare_split (P ha hb la lb : N) (R : comparison) :
  la < P -> lb < P ->
  match ha * P + la ?= hb * P + lb with Eq => R | c => c end
  = match 48 + ha ?= 48 + hb with
    | Eq => match la ?= lb with Eq => R | c => c end
    | c => c
    end.
Proof.
  intros Hla Hlb.
  destruct (N.compare_spec ha hb) as [->|Hlt|Hgt].
  - replace (48 + hb ?= 48 + hb) with Eq by (symmetry; apply N.compare_refl).
    destruct (N.compare_spec la lb) as [->|H|H].
    + now rewrite N.compare_refl.
    + replace (hb * P + la ?= hb * P + lb) with Lt; [reflexivity|].
      symmetry. apply N.compare_lt_iff. lia.
    + replace (hb * P + la ?= hb * P + lb) with Gt; [reflexivity|].
      symmetry. apply N.compare_gt_iff. lia.
  - replace (48 + ha ?= 48 + hb) with Lt
      by (symmetry; apply N.compare_lt_iff; lia).
    replace (ha * P + la ?= hb * P + lb) with Lt; [reflexivity|].
    symmetry. apply N.compare_lt_iff. nia.
  - replace (48 + ha ?= 48 + hb) with Gt
      by (symmetry; apply N.compare_gt_iff; lia).
    replace (ha * P + la ?= hb * P + lb) with Gt; [reflexivity|].
    symmetry. apply N.compare_gt_iff. nia.
Qed.

(** Zero-padded numbers of equal width compare as the numbers do. *)
Lemma compare_digits (w : nat) (a b : N) (x y : pystr) :
  Str.compare (Datetime.digits w a ++ x) (Datetime.digits w b ++ y)
  = match a mod 10 ^ N.of_nat w ?= b mod 10 ^ N.of_nat w with
    | Eq => Str.compare x y
    | c => c
    end.
Proof.
  induction w as [|w IH].
  - cbn [Datetime.digits app]. change (10 ^ N.of_nat 0) with 1.
    now rewrite !N.mod_1_r.
  - cbn [Datetime.digits app Str.compare]. rewrite IH.
    rewrite (mod_pow10_succ a w), (mod_pow10_succ b w).
    pose proof (pow10_pos w) as HP.
    symmetry. apply compare_split; apply N.mod_upper_bound; lia.
Qed.

Lemma compare_fraction (ua ub : N) :
  ua < 10 ^ N.of_nat 6 -> ub < 10 ^ N.of_nat 6 ->
  Str.compare
    (if ua =? 0 then [] else [46] ++ Datetime.digits 6 ua)
    (if ub =? 0 then [] else [46] ++ Datetime.digits 6 ub)
  = (ua ?= ub).
Proof.
  intros Ha Hb.
  destruct (N.eqb_spec ua 0) as [->|Hna]; destruct (N.eqb_spec ub 0) as [->|Hnb].
  - reflexivity.
  - cbn [app Str.compare]. symmetry. apply N.compare_lt_iff. lia.
  - cbn [app Str.compare]. symmetry. apply N.compare_gt_iff. lia.
  - cbn [app]. rewrite compare_cons_same.
    rewrite <- (app_nil_r (Datetime.digits 6 ua)).
    rewrite <- (app_nil_r (Datetime.digits 6 ub)).
    rewrite compare_digits, !N.mod_small by assumption.
    now destruct (ua ?= ub).
Qed.

(** The store orders ISO strings as the timestamps they denote. *)
Lemma isoformat_compare (a b : datetime) :
  Datetime.valid a = true -> Datetime.valid b = true ->
  Str.compare (Datetime.isoformat a) (Datetime.isoformat b)
  = Datetime.compare a b.
Proof.
  intros Ha Hb.
  destruct (valid_bounds a Ha) as (Hy & Hmo & Hd & Hh & Hmi & Hs & Hu).
  destruct (valid_bounds b Hb) as (Hy' & Hmo' & Hd' & Hh' & Hmi' & Hs' & Hu').
  unfold Datetime.isoformat, Datetime.compare.
  change (py "-") with [45]. change (py "T") with [84].
  change (py ":") with [58]. change (py ".") with [46].
  repeat (rewrite compare_digits; cbn [app]; rewrite ?compare_cons_same).
  rewrite compare_fraction by assumption.
  now rewrite !N.mod_small by assumption.
Qed.

End DatetimeFacts.

(* ================================================================== *)
(** * Facts about stored documents *)
(* ================================================================== *)

Lemma Dict_get_set_same (k : pystr) (v : pyval) (d : pydict) :
  Dict.get k (Dict.set k v d) = Some v.
Proof.
  induction d as [|[k' v'] d IH]; simpl.
  - now rewrite Str_eqb_refl.
  - destruct (Str.eqb k k') eqn:E; simpl; rewrite E; auto.
Qed.

Lemma Dict_get_set_other (k k' : pystr) (v : pyval) (d : pydict) :
  Str.eqb k k' = false ->
  Dict.get k (Dict.set k' v d) = Dict.get k d.
Proof.
  intros Hk. induction d as [|[k0 v0] d IH]; simpl.
  - now rewrite Hk.
  - destruct (Str.eqb k' k0) eqn:E; simpl.
    + apply Str_eqb_eq in E. subst k0. now rewrite Hk.
    + now rewrite IH.
Qed.

(** The document of a result, field by field. *)
Lemma stored_document_fields (oid : pystr) (a : AnalysisResult) :
  stored_document oid a
  = [(py "id", PStr (id a));
     (py "filename", PStr (filename a));
     (py "upload_time", PStr (Datetime.isoformat (upload_time a)));
     (py "total_defects", PInt (total_defects a));
     (py "defects_found", PList (map dump_defect (defects_found a)));
     (py "analysis_complete", PBool (analysis_complete a));
     (py "image_base64",
      match image_base64 a with Some s => PStr s | None => PNone end);
     (py "_id", PObjectId oid)].
Proof. reflexivity. Qed.

Lemma encodable_defects (ds : list DefectResult) :
  forallb Store.encodable (map dump_defect ds) = forallb defect_storable ds.
Proof.
  induction ds as [|d ds IH]; [reflexivity|].
  cbn [map forallb]. rewrite IH. f_equal.
  unfold dump_defect, defect_storable.
  cbn [Store.encodable forallb]. 
  change (Store.well_formed (py "defect_type")) with true.
  change (Store.well_formed (py "confidence")) with true.
  change (Store.well_formed (py "severity")) with true.
  change (Store.well_formed (py "description")) with true.
  cbn [andb]. now rewrite !andb_true_r, andb_assoc.
Qed.

(** The driver encodes the document of a result exactly when the
    result is [storable]. *)
Lemma encodable_stored_document (oid : pystr) (a : AnalysisResult) :
  Store.encodable (PDict (stored_document oid a)) = storable a.
Proof.
  rewrite stored_document_fields. unfold storable.
  cbn [Store.encodable forallb].
  change (Store.well_formed (py "id")) with true.
  change (Store.well_formed (py "filename")) with true.
  change (Store.well_formed (py "upload_time")) with true.
  change (Store.well_formed (py "total_defects")) with true.
  change (Store.well_formed (py "defects_found")) with true.
  change (Store.well_formed (py "analysis_complete")) with true.
  change (Store.well_formed (py "image_base64")) with true.
  change (Store.well_formed (py "_id")) with true.
  cbn [andb]. rewrite isoformat_well_formed, encodable_defects.
  cbn [andb]. rewrite !andb_true_r.
  destruct (image_base64 a); cbn [Store.encodable];
    now rewrite ?andb_true_r, !andb_assoc.
Qed.

Section LoadFacts.

Variable rt : Runtime.

Lemma defect_of_kwargs_dump (d : DefectResult) :
  defect_storable d = true ->
  defect_of_kwargs rt
    [(py "defect_type", PStr (defect_type d));
     (py "confidence", PFloat (confidence d));
     (py "severity", PStr (severity d));
     (py "description", PStr (description d))]
  = Some d.
Proof.
  unfold defect_storable. rewrite !andb_true_iff. intros [[Ht Hs] Hd].
  unfold defect_of_kwargs, Validate.required.
  change (Dict.get (py "defect_type") _) with (Some (PStr (defect_type d))).
  change (Dict.get (py "confidence") _) with (Some (PFloat (confidence d))).
  change (Dict.get (py "severity") _) with (Some (PStr (severity d))).
  change (Dict.get (py "description") _) with (Some (PStr (description d))).
  cbv beta iota.
  rewrite !as_str_well_formed by assumption.
  cbn [Validate.as_float]. now destruct d.
Qed.

Lemma defects_of_dump (ds : list DefectResult) :
  forallb defect_storable ds = true ->
  defects_of rt (PList (map dump_defect ds)) = Some ds.
Proof.
  unfold defects_of. induction ds as [|d ds IH]; [reflexivity|].
  cbn [forallb map fold_right]. rewrite andb_true_iff. intros [Hd Hds].
  rewrite (IH Hds). unfold dump_defect at 1.
  now rewrite defect_of_kwargs_dump.
Qed.

(** A stored document is read back as the result it was made from,
    whether its timestamp is kept as an ISO string or as a native
    timestamp. *)
Lemma load_stored_document (env : Env) (oid : pystr) (a : AnalysisResult) :
  storable a = true -> Datetime.valid (upload_time a) = true ->
  load_document rt env (stored_document oid a) = Return a
  /\ load_document rt env
       (Dict.set (py "upload_time") (PDatetime (upload_time a))
                 (stored_document oid a)) = Return a.
Proof.
  unfold storable. rewrite !andb_true_iff.
  intros ((((Hid & Hf) & _) & Hds) & Himg) Hv.
  assert (Hload :
    AnalysisResult_of_document rt env
      (Dict.set (py "upload_time") (PDatetime (upload_time a))
                (stored_document oid a)) = Return a).
  { unfold AnalysisResult_of_document, Validate.defaulted, Validate.required.
    change (Dict.get (py "id") _) with (Some (PStr (id a))).
    change (Dict.get (py "filename") _) with (Some (PStr (filename a))).
    change (Dict.get (py "upload_time") _)
      with (Some (PDatetime (upload_time a))).
    change (Dict.get (py "total_defects") _)
      with (Some (PInt (total_defects a))).
    change (Dict.get (py "defects_found") _)
      with (Some (PList (map dump_defect (defects_found a)))).
    change (Dict.get (py "analysis_complete") _)
      with (Some (PBool (analysis_complete a))).
    change (Dict.get (py "image_base64") _)
      with (Some (match image_base64 a with
                  | Some s => PStr s
                  | None => PNone
                  end)).
    cbv beta iota.
    rewrite !as_str_well_formed, defects_of_dump by assumption.
    cbn [Validate.as_datetime Validate.as_int Validate.as_bool].
    destruct a as [i f t n ds c [img|]]; cbn [image_base64] in *.
    - unfold Validate.optional_str.
      now rewrite as_str_well_formed by assumption.
    - reflexivity. }
  split.
  - unfold load_document, normalize_upload_time.
    change (Dict.get (py "upload_time") (stored_document oid a))
      with (Some (PStr (Datetime.isoformat (upload_time a)))).
    cbv beta iota.
    rewrite fromisoformat_isoformat by assumption. cbn [bind].
    exact Hload.
  - unfold load_document, normalize_upload_time.
    rewrite Dict_get_set_same. cbn [bind].
    exact Hload.
Qed.

End LoadFacts.

(* ================================================================== *)
(** * Facts about the store and its histories *)
(* ================================================================== *)

Section HistoryFacts.

Variable rt : Runtime.

(** Everything a successful request establishes. *)
Lemma analyze_success (env : Env) (file : UploadFile.t)
  (db db' : Store.database) (resp : AnalysisResponse) :
  analyze_defects rt env file db = (Return resp, db') ->
  exists a,
    resp = success_response a
    /\ db' = {| Store.available := true;
                Store.analyses :=
                  Store.analyses db ++ [stored_document (new_object_id env) a] |}
    /\ Store.available db = true
    /\ storable a = true
    /\ id a = uuid4_id env
    /\ upload_time a = utcnow env
    /\ analysis_complete a = true
    /\ image_base64 a = Some (Base64.b64encode (UploadFile.contents file))
    /\ (Store.bson_size (PDict (stored_document (new_object_id env) a))
        <= Store.max_bson_size)%N.
Proof.
  intros H. apply analyze_defects_Return in H.
  destruct H as (ct & reply & Hct & Himg & Hask & Hrec).
  apply record_analysis_inv in Hrec.
  destruct Hrec as (data & found & items & defects & total & a
                    & _ & _ & _ & _ & _ & Hnew & Hins & ->).
  apply new_AnalysisResult_inv in Hnew.
  destruct Hnew as (f & n & i & Hf & Hn & Hi & ->).
  rewrite as_str_well_formed in Hi by apply b64encode_well_formed.
  injection Hi as <-.
  apply insert_one_analysis_inv in Hins.
  destruct Hins as (Hav & Henc & Hsize & ->).
  rewrite encodable_stored_document in Henc.
  eexists. repeat split; eauto.
Qed.

(** The documents of a list of results, each with the identifier the
    driver gave it. *)
Lemma reachable_documents (db : Store.database)
  (results : list AnalysisResult) :
  reachable rt db results ->
  exists entries : list (pystr * AnalysisResult),
    map snd entries = results
    /\ Store.analyses db
       = map (fun e => stored_document (fst e) (snd e)) entries
    /\ Forall (fun a => storable a = true
                        /\ Datetime.valid (upload_time a) = true
                        /\ analysis_complete a = true) results.
Proof.
  induction 1 as [up | db db' results env file resp a _ IH Hv Hrun Ha
                  | db db' results env file e _ IH Hrun
                  | db results up _ IH].
  - exists []. repeat split; constructor.
  - destruct IH as (entries & Hres & Hdocs & Hall).
    apply analyze_success in Hrun.
    destruct Hrun as (a' & -> & -> & _ & Hst & _ & Ht & Hc & _).
    injection Ha as ->.
    exists (entries ++ [(new_object_id env, a)]). repeat split.
    + now rewrite map_app, Hres.
    + cbn [Store.analyses]. now rewrite map_app, Hdocs.
    + apply Forall_app; split; [assumption|].
      constructor; [|constructor]. rewrite Ht. auto.
  - apply analyze_defects_Raise in Hrun. destruct Hrun as [-> _].
    exact IH.
  - exact IH.
Qed.

Lemma insert_desc_smallest (field : pystr) (x : Store.document)
  (l : list Store.document) :
  Forall (fun y => Store.bson_compare rt (Store.sort_key field x)
                     (Store.sort_key field y) = Lt) l ->
  Store.insert_desc rt field x l = l ++ [x].
Proof.
  induction 1 as [|y l Hy _ IH]; simpl; [reflexivity|].
  now rewrite Hy, IH.
Qed.

(** Sorting in descending order a list that ascends strictly reverses
    it. *)
Lemma sort_desc_ascending (field : pystr) (l : list Store.document) :
  StronglySorted
    (fun x y => Store.bson_compare rt (Store.sort_key field x)
                  (Store.sort_key field y) = Lt) l ->
  Store.sort_desc rt field l = rev l.
Proof.
  induction 1 as [|x l _ IH Hx]; [reflexivity|].
  cbn [Store.sort_desc fold_right rev].
  change (fold_right (Store.insert_desc rt field) [] l)
    with (Store.sort_desc rt field l).
  rewrite IH. apply insert_desc_smallest.
  apply Forall_rev. exact Hx.
Qed.

Lemma insert_desc_In (field : pystr) (x y : Store.document)
  (l : list Store.document) :
  In y (Store.insert_desc rt field x l) <-> y = x \/ In y l.
Proof.
  induction l as [|z l IH]; simpl.
  - intuition.
  - destruct (Store.bson_compare rt _ _); simpl; rewrite ?IH; intuition.
Qed.

Lemma sort_desc_In (field : pystr) (y : Store.document)
  (l : list Store.document) :
  In y (Store.sort_desc rt field l) <-> In y l.
Proof.
  induction l as [|x l IH]; simpl; [tauto|].
  rewrite insert_desc_In, IH. intuition.
Qed.

(** Documents written by uploads at increasing times ascend in the
    order of the store. *)
Lemma stored_ascending (entries : list (pystr * AnalysisResult)) :
  chronological (map snd entries) ->
  Forall (fun a => Datetime.valid (upload_time a) = true)
         (map snd entries) ->
  StronglySorted
    (fun x y => Store.bson_compare rt
                  (Store.sort_key (py "upload_time") x)
                  (Store.sort_key (py "upload_time") y) = Lt)
    (map (fun e => stored_document (fst e) (snd e)) entries).
Proof.
  unfold chronological.
  induction entries as [|[oid a] entries IH]; cbn [map fst snd];
    intros Hs Hv; [constructor|].
  inversion Hs as [|? ? Hs' Hlt]; subst.
  inversion Hv as [|? ? Hva Hv']; subst.
  constructor; [now apply IH|].
  rewrite Forall_map. rewrite Forall_map in Hlt, Hv'.
  rewrite Forall_forall in *. intros [oid' b] Hin.
  specialize (Hlt _ Hin). specialize (Hv' _ Hin). cbn [fst snd] in *.
  change (Store.sort_key (py "upload_time") (stored_document oid a))
    with (PStr (Datetime.isoformat (upload_time a))).
  change (Store.sort_key (py "upload_time") (stored_document oid' b))
    with (PStr (Datetime.isoformat (upload_time b))).
  cbn [Store.bson_compare]. now rewrite isoformat_compare.
Qed.

Lemma load_all (env : Env) (entries : list (pystr * AnalysisResult)) :
  Forall (fun a => storable a = true
                   /\ Datetime.valid (upload_time a) = true)
         (map snd entries) ->
  map_outcome (load_document rt env)
    (map (fun e => stored_document (fst e) (snd e)) entries)
  = Return (map snd entries).
Proof.
  induction entries as [|[oid a] entries IH]; cbn [map fst snd];
    intros H; [reflexivity|].
  inversion H as [|? ? [Hst Hv] H']; subst.
  cbn [map_outcome].
  rewrite (proj1 (load_stored_document rt env oid a Hst Hv)). cbn [bind].
  now rewrite IH.
Qed.

End HistoryFacts.

(* ================================================================== *)
(** * Blanks around a JSON text *)
(* ================================================================== *)

Section JsonBlanks.

Local Open Scope N_scope.

Lemma is_ws_cases (x : N) :
  Json.is_ws x = true -> x = 32 \/ x = 9 \/ x = 10 \/ x = 13.
Proof.
  unfold Json.is_ws. rewrite !orb_true_iff, !N.eqb_eq. tauto.
Qed.

Lemma hex_digit_ws (x : N) : Json.is_ws x = true -> Json.hex_digit x = None.
Proof.
  intros H. destruct (is_ws_cases x H) as [-> | [-> | [-> | ->]]]; reflexivity.
Qed.

Lemma hex4_ws (a b c d : N) :
  Json.is_ws a = true \/ Json.is_ws b = true \/ Json.is_ws c = true
  \/ Json.is_ws d = true ->
  Json.hex4 a b c d = None.
Proof.
  unfold Json.hex4.
  intros [H|[H|[H|H]]]; rewrite (hex_digit_ws _ H);
    repeat match goal with
           | |- context [match Json.hex_digit ?x with _ => _ end] =>
               destruct (Json.hex_digit x)
           end; reflexivity.
Qed.

Lemma scanstring_blank (v : pystr) :
  forallb Json.is_ws v = true -> Json.scanstring v = None.
Proof.
  induction v as [|x v IH]; [reflexivity|].
  cbn [forallb]. rewrite andb_true_iff. intros [Hx Hv].
  specialize (IH Hv).
  destruct (is_ws_cases x Hx) as [-> | [-> | [-> | ->]]];
    cbn [Json.scanstring N.eqb Pos.eqb N.leb N.compare Pos.compare
         Pos.compare_cont]; rewrite ?IH; reflexivity.
Qed.


Lemma ws_tests (x : N) :
  Json.is_ws x = true ->
  (x =? 34) = false /\ (x =? 92) = false /\ (x =? 117) = false
  /\ Json.simple_escape x = None /\ Json.is_digit x = false
  /\ (x =? 45) = false /\ (x =? 46) = false /\ (x =? 43) = false
  /\ (x =? 101) = false /\ (x =? 69) = false /\ (x =? 48) = false.
Proof.
  intros H. destruct (is_ws_cases x H) as [-> | [-> | [-> | ->]]];
    repeat split; reflexivity.
Qed.

Ltac blank_head :=
  repeat match goal with
         | H : forallb Json.is_ws (_ :: _) = true |- _ =>
             cbn [forallb] in H; apply andb_true_iff in H; destruct H
         end.

(** Blanks appended to a text change nothing in the string literal at
    its head: it ends before them, or it does not end at all. *)
Lemma scanstring_app_blank (r w : pystr) :
  forallb Json.is_ws w = true ->
  Json.scanstring (r ++ w) = Json.scanstring r.
Proof.
  intros Hw.
  assert (H : forall n r, (List.length r <= n)%nat ->
                          Json.scanstring (r ++ w) = Json.scanstring r).
  { clear r. induction n as [|n IH]; intros r Hr.
    - destruct r; [|simpl in Hr; lia]. now apply scanstring_blank.
    - destruct r as [|c r]; [now apply scanstring_blank|].
      cbn [app Json.scanstring].
      destruct (c =? 34); [reflexivity|].
      destruct (c =? 92).
      + destruct r as [|e r1]; cbn [app].
        * destruct w as [|x v]; [reflexivity|]. blank_head.
          destruct (ws_tests x) as (_ & _ & -> & -> & _); auto.
        * destruct (e =? 117).
          -- destruct r1 as [|h1 [|h2 [|h3 [|h4 r2]]]]; cbn [app].
             ++ destruct w as [|x1 [|x2 [|x3 [|x4 v]]]]; try reflexivity.
                blank_head. rewrite hex4_ws; auto.
             ++ destruct w as [|x1 [|x2 [|x3 v]]]; try reflexivity.
                blank_head. rewrite hex4_ws; auto.
             ++ destruct w as [|x1 [|x2 v]]; try reflexivity.
                blank_head. rewrite hex4_ws; auto.
             ++ destruct w as [|x1 v]; try reflexivity.
                blank_head. rewrite hex4_ws; auto.
             ++ destruct (Json.hex4 h1 h2 h3 h4) as [uni|]; [|reflexivity].
                destruct r2 as [|b [|u r3]]; cbn [app].
                ** rewrite (scanstring_blank w Hw).
                   destruct w as [|x1 [|x2 v]]; try reflexivity.
                   blank_head.
                   destruct (ws_tests x1) as (_ & -> & _); auto.
                   now rewrite andb_false_r.
                ** pose proof (IH [b] ltac:(simpl in *; lia)) as E.
                   cbn [app] in E. rewrite E.
                   destruct w as [|x1 v]; [reflexivity|]. blank_head.
                   destruct (ws_tests x1) as (_ & _ & -> & _); auto.
                   now rewrite andb_false_r.
                ** pose proof (IH (b :: u :: r3)
                                 ltac:(simpl in *; lia)) as E.
                   cbn [app] in E. rewrite E.
                   destruct (Json.is_high_surrogate uni && (b =? 92)
                             && (u =? 117)); [|reflexivity].
                   destruct r3 as [|k1 [|k2 [|k3 [|k4 r4]]]]; cbn [app].
                   --- destruct w as [|x1 [|x2 [|x3 [|x4 v]]]];
                         try reflexivity.
                       blank_head. rewrite hex4_ws; auto.
                   --- destruct w as [|x1 [|x2 [|x3 v]]]; try reflexivity.
                       blank_head. rewrite hex4_ws; auto.
                   --- destruct w as [|x1 [|x2 v]]; try reflexivity.
                       blank_head. rewrite hex4_ws; auto.
                   --- destruct w as [|x1 v]; try reflexivity.
                       blank_head. rewrite hex4_ws; auto.
                   --- destruct (Json.hex4 k1 k2 k3 k4) as [uni2|];
                         [|reflexivity].
                       destruct (Json.is_low_surrogate uni2);
                         [|reflexivity].
                       rewrite IH by (simpl in *; lia). reflexivity.
          -- destruct (Json.simple_escape e); [|reflexivity].
             rewrite IH by (simpl in *; lia). reflexivity.
      + destruct (c <=? 31); [reflexivity|].
        rewrite IH by (simpl in *; lia). reflexivity. }
  now apply (H (List.length r)).
Qed.


Lemma span_digits_app_blank (r w : pystr) :
  forallb Json.is_ws w = true ->
  Json.span_digits (r ++ w)
  = (fst (Json.span_digits r), snd (Json.span_digits r) ++ w).
Proof.
  intros Hw. induction r as [|c r IH]; cbn [app].
  - destruct w as [|x v]; [reflexivity|]. blank_head.
    cbn [Json.span_digits].
    now destruct (ws_tests x ltac:(assumption))
      as (_ & _ & _ & _ & -> & _).
  - cbn [Json.span_digits]. destruct (Json.is_digit c); [|reflexivity].
    rewrite IH. now destruct (Json.span_digits r).
Qed.

Lemma scan_integer_app_blank (s w : pystr) :
  forallb Json.is_ws w = true ->
  Json.scan_integer (s ++ w)
  = match Json.scan_integer s with
    | Some (neg, ds, rest) => Some (neg, ds, rest ++ w)
    | None => None
    end.
Proof.
  intros Hw.
  assert (Hblank : Json.scan_integer w = None
                   /\ match w with
                      | [] => None
                      | d :: r =>
                          if d =? 48 then Some (true, [d], r)
                          else if Json.is_digit d
                               then let (ds, rest) := Json.span_digits r in
                                    Some (true, d :: ds, rest)
                               else None
                      end = None).
  { destruct w as [|x v]; [split; reflexivity|]. blank_head.
    destruct (ws_tests x ltac:(assumption))
      as (_ & _ & _ & _ & Hd & Hm & _ & _ & _ & _ & Hz).
    unfold Json.scan_integer. now rewrite Hm, Hz, Hd. }
  destruct Hblank as [Hb1 Hb2].
  destruct s as [|c s]; [exact Hb1|].
  unfold Json.scan_integer. cbn [app].
  destruct (c =? 45).
  - destruct s as [|d s]; cbn [app]; [exact Hb2|].
    destruct (d =? 48); [reflexivity|].
    destruct (Json.is_digit d); [|reflexivity].
    rewrite span_digits_app_blank by assumption.
    now destruct (Json.span_digits s).
  - destruct (c =? 48); [reflexivity|].
    destruct (Json.is_digit c); [|reflexivity].
    rewrite span_digits_app_blank by assumption.
    now destruct (Json.span_digits s).
Qed.

Lemma scan_frac_app_blank (s w : pystr) :
  forallb Json.is_ws w = true ->
  Json.scan_frac (s ++ w)
  = (fst (Json.scan_frac s), snd (Json.scan_frac s) ++ w).
Proof.
  intros Hw. destruct s as [|c s]; cbn [app].
  - destruct w as [|x v]; [reflexivity|]. blank_head.
    unfold Json.scan_frac.
    now destruct (ws_tests x ltac:(assumption))
      as (_ & _ & _ & _ & _ & _ & -> & _).
  - unfold Json.scan_frac. destruct (c =? 46); [|reflexivity].
    rewrite span_digits_app_blank by assumption.
    destruct (Json.span_digits s) as [[|f fs] rest]; reflexivity.
Qed.

Lemma scan_exp_app_blank (s w : pystr) :
  forallb Json.is_ws w = true ->
  Json.scan_exp (s ++ w)
  = (fst (Json.scan_exp s), snd (Json.scan_exp s) ++ w).
Proof.
  intros Hw. destruct s as [|c s]; cbn [app].
  - destruct w as [|x v]; [reflexivity|]. blank_head.
    unfold Json.scan_exp.
    now destruct (ws_tests x ltac:(assumption))
      as (_ & _ & _ & _ & _ & _ & _ & _ & -> & -> & _).
  - unfold Json.scan_exp. destruct ((c =? 101) || (c =? 69))%bool;
      [|reflexivity].
    destruct s as [|g s]; cbn [app].
    + pose proof (span_digits_app_blank [] w Hw) as E. cbn in E.
      destruct w as [|x v]; [reflexivity|]. blank_head.
      destruct (ws_tests x ltac:(assumption))
        as (_ & _ & _ & _ & Hd & Hm & _ & Hp & _).
      rewrite Hp, Hm. cbn [orb]. now rewrite E.
    + destruct ((g =? 43) || (g =? 45))%bool.
      * rewrite span_digits_app_blank by assumption.
        destruct (Json.span_digits s) as [[|f fs] rest]; reflexivity.
      * pose proof (span_digits_app_blank (g :: s) w Hw) as E.
        cbn [app] in E. rewrite E.
        destruct (Json.span_digits (g :: s)) as [[|f fs] rest];
          reflexivity.
Qed.

Lemma scan_number_app_blank (s w : pystr) :
  forallb Json.is_ws w = true ->
  Json.scan_number (s ++ w) = Json.scan_number s.
Proof.
  intros Hw. unfold Json.scan_number.
  rewrite scan_integer_app_blank by assumption.
  destruct (Json.scan_integer s) as [[[neg ds] rest]|]; [|reflexivity].
  rewrite scan_frac_app_blank by assumption.
  destruct (Json.scan_frac rest) as [frac rest1]. cbn [fst snd].
  rewrite scan_exp_app_blank by assumption.
  now destruct (Json.scan_exp rest1).
Qed.

Lemma startswith_app_blank (s w p : pystr) :
  forallb Json.is_ws w = true ->
  forallb (fun c => negb (Json.is_ws c)) p = true ->
  Str.startswith (s ++ w) p = Str.startswith s p.
Proof.
  intros Hw. revert s. induction p as [|a p IH]; intros s Hp;
    [reflexivity|].
  cbn [forallb] in Hp. apply andb_true_iff in Hp. destruct Hp as [Ha Hp].
  destruct s as [|b s]; cbn [app Str.startswith].
  - destruct w as [|x v]; [reflexivity|]. blank_head.
    destruct (N.eqb_spec a x) as [->|]; [|reflexivity].
    apply negb_true_iff in Ha. congruence.
  - now rewrite IH.
Qed.

Lemma scan_token_app_blank (s w : pystr) :
  s <> [] -> forallb Json.is_ws w = true ->
  Json.scan_token (s ++ w) = Json.scan_token s.
Proof.
  intros Hs Hw. destruct s as [|c r]; [congruence|].
  unfold Json.scan_token. cbn [app].
  rewrite scanstring_app_blank by assumption.
  change (c :: r ++ w) with ((c :: r) ++ w).
  rewrite !startswith_app_blank, scan_number_app_blank
    by (assumption || reflexivity).
  reflexivity.
Qed.

(** Blanks alone leave the decoder where it is: at the end of the
    text. *)
Lemma scan_blank (lim : Json.limits) (st : Json.pstate) (k : nat)
  (w : pystr) :
  forallb Json.is_ws w = true ->
  Json.scan lim st k w = Json.scan lim st k [].
Proof.
  revert k; induction w as [|x v IH]; intros k Hw; [reflexivity|].
  blank_head. cbn [Json.scan]. destruct k.
  - replace (Json.is_ws x) with true by (symmetry; assumption).
    now apply IH.
  - rewrite IH by assumption. reflexivity.
Qed.

(** Blanks after a JSON text do not change what the decoder makes of
    it. *)
Lemma scan_app_blank (lim : Json.limits) (st : Json.pstate) (k : nat)
  (s w : pystr) :
  forallb Json.is_ws w = true ->
  Json.scan lim st k (s ++ w) = Json.scan lim st k s.
Proof.
  intros Hw. revert st k. induction s as [|c r IH]; intros st k.
  - cbn [app]. now apply scan_blank.
  - change ((c :: r) ++ w) with (c :: (r ++ w)).
    cbn [Json.scan]. destruct k; [|apply IH].
    destruct (Json.is_ws c); [apply IH|].
    change (c :: (r ++ w)) with ((c :: r) ++ w).
    rewrite scan_token_app_blank by (assumption || discriminate).
    destruct (Json.scan_token (c :: r)) as [[t n]|]; [|reflexivity].
    destruct (Json.step st t) as [st'|]; [|reflexivity].
    destruct (Json.too_long lim t); [reflexivity|].
    destruct (Json.too_deep lim st'); [reflexivity|].
    apply IH.
Qed.

(** Blanks before a JSON text are skipped. *)
Lemma scan_blank_app (lim : Json.limits) (st : Json.pstate)
  (w s : pystr) :
  forallb Json.is_ws w = true ->
  Json.scan lim st 0 (w ++ s) = Json.scan lim st 0 s.
Proof.
  induction w as [|x v IH]; intros Hw; [reflexivity|].
  blank_head. cbn [app Json.scan].
  replace (Json.is_ws x) with true by (symmetry; assumption).
  now apply IH.
Qed.

(** The decoder ignores the blanks around its argument. *)
Lemma scan_blanks (lim : Json.limits) (w1 w2 s : pystr) :
  forallb Json.is_ws w1 = true -> forallb Json.is_ws w2 = true ->
  Json.scan lim (Json.PValue []) 0 (w1 ++ s ++ w2)
  = Json.scan lim (Json.PValue []) 0 s.
Proof.
  intros H1 H2. now rewrite scan_blank_app, scan_app_blank.
Qed.

End JsonBlanks.

Section StripBlanks.

Lemma lstrip_all_blank (w : pystr) :
  forallb Str.isspace w = true -> Str.lstrip w = [].
Proof.
  induction w as [|x v IH]; [reflexivity|].
  cbn [forallb Str.lstrip]. rewrite andb_true_iff. intros [-> Hv]. auto.
Qed.

Lemma strip_blanks (w1 w2 s : pystr) :
  forallb Str.isspace w1 = true -> forallb Str.isspace w2 = true ->
  Str.strip (w1 ++ s ++ w2) = Str.strip s.
Proof.
  intros H1 H2. unfold Str.strip. rewrite lstrip_spaces by assumption.
  induction s as [|c s IH]; cbn [app].
  - now rewrite lstrip_all_blank.
  - cbn [Str.lstrip]. destruct (Str.isspace c); [exact IH|].
    change (c :: s ++ w2) with ((c :: s) ++ w2).
    now apply rstrip_spaces.
Qed.

Lemma json_blank_isspace (w : pystr) :
  forallb Json.is_ws w = true -> forallb Str.isspace w = true.
Proof.
  induction w as [|x v IH]; [reflexivity|].
  cbn [forallb]. rewrite !andb_true_iff. intros [Hx Hv].
  split; [|auto].
  destruct (is_ws_cases x Hx) as [-> | [-> | [-> | ->]]]; reflexivity.
Qed.

(** The reply without blanks and fences depends on the reply only
    through its stripped form. *)
Lemma response_text_strip (a b : pystr) :
  Str.strip a = Str.strip b -> response_text a = response_text b.
Proof. unfold response_text. now intros ->. Qed.

End StripBlanks.

(* ================================================================== *)
(** * Facts about failures and about the history endpoint *)
(* ================================================================== *)

Local Open Scope Z_scope.

Lemma In_firstn {A : Type} (x : A) (n : nat) (l : list A) :
  In x (firstn n l) -> In x l.
Proof.
  revert l; induction n as [|n IH]; intros [|y l]; simpl; try tauto.
  intros [->|H]; auto.
Qed.

Section HistoryInversion.

Variable rt : Runtime.

Lemma AnalysisResult_of_document_complete (env : Env)
  (doc : Store.document) (a : AnalysisResult) :
  AnalysisResult_of_document rt env doc = Return a ->
  Validate.defaulted (Validate.as_bool rt) (py "analysis_complete") true doc
  = Some (analysis_complete a).
Proof.
  unfold AnalysisResult_of_document.
  repeat match goal with
         | |- context [match ?x with Some _ => _ | None => _ end] =>
             destruct x; try discriminate
         end.
  now intros [= <-].
Qed.

Lemma normalize_upload_time_other (doc doc' : Store.document) (k : pystr) :
  normalize_upload_time rt doc = Return doc' ->
  Str.eqb k (py "upload_time") = false ->
  Dict.get k doc' = Dict.get k doc.
Proof.
  unfold normalize_upload_time. intros H Hk.
  destruct (Dict.get (py "upload_time") doc) as [[]|];
    try (injection H as <-; reflexivity).
  destruct (Datetime.fromisoformat rt s); [|discriminate].
  injection H as <-. now apply Dict_get_set_other.
Qed.

(** A document marked complete loads as a complete result. *)
Lemma load_document_complete (env : Env) (doc : Store.document)
  (a : AnalysisResult) :
  Dict.get (py "analysis_complete") doc = Some (PBool true) ->
  load_document rt env doc = Return a ->
  analysis_complete a = true.
Proof.
  intros Hdoc H. unfold load_document in H. invert_bind H.
  apply AnalysisResult_of_document_complete in H.
  unfold Validate.defaulted in H.
  rewrite (@normalize_upload_time_other doc x (py "analysis_complete") Hx
             eq_refl), Hdoc in H.
  now injection H.
Qed.

(** The documents the history endpoint reads are documents of the
    collection. *)
Lemma get_analysis_history_inv (env : Env) (db : Store.database)
  (limit : option Z) (l : list AnalysisResult) :
  get_analysis_history rt env db limit = Return l ->
  exists docs,
    map_outcome (load_document rt env) docs = Return l
    /\ Store.available db = true
    /\ forall doc, In doc docs -> In doc (Store.analyses db).
Proof.
  unfold get_analysis_history, try_except. intros H.
  destruct (bind _ _) as [l'|e] eqn:E; [|discriminate].
  injection H as ->. invert_bind E. exists x. split; [assumption|].
  unfold Store.find_sorted in Hx.
  destruct (_ <? 0)%Z; [discriminate|].
  destruct (Store.available db); [|discriminate].
  destruct (_ <? _)%Z; [discriminate|].
  injection Hx as <-. split; [reflexivity|].
  intros doc Hin. apply In_firstn in Hin.
  now apply sort_desc_In in Hin.
Qed.

End HistoryInversion.

Lemma Forall_firstn {A : Type} (P : A -> Prop) (n : nat) (l : list A) :
  Forall P l -> Forall P (firstn n l).
Proof.
  rewrite !Forall_forall. intros H x Hx. apply H. eapply In_firstn; eauto.
Qed.

Lemma StronglySorted_firstn {A : Type} (R : A -> A -> Prop) (n : nat)
  (l : list A) :
  StronglySorted R l -> StronglySorted R (firstn n l).
Proof.
  intros H; revert n; induction H as [|x l _ IH Hx]; intros [|n]; simpl;
    constructor; auto using Forall_firstn.
Qed.

Lemma StronglySorted_app_last {A : Type} (R : A -> A -> Prop) (l : list A)
  (x : A) :
  StronglySorted R l -> Forall (fun y => R y x) l ->
  StronglySorted R (l ++ [x]).
Proof.
  induction 1 as [|y l _ IH Hy]; intros Hx; simpl.
  - repeat constructor.
  - inversion Hx; subst. constructor; [now apply IH|].
    apply Forall_app; split; [assumption | now constructor].
Qed.

Lemma StronglySorted_rev {A : Type} (R : A -> A -> Prop) (l : list A) :
  StronglySorted R l -> StronglySorted (fun a b => R b a) (rev l).
Proof.
  induction 1 as [|x l _ IH Hx]; simpl; [constructor|].
  apply StronglySorted_app_last; [assumption|].
  now apply Forall_rev.
Qed.

(** The sample history is a history of the service. *)
Lemma first_store_reachable :
  reachable strict_runtime first_store [first_result].
Proof.
  change [first_result] with ([] ++ [first_result]).
  eapply reachable_success
    with (env := sample_env 1 (answering "sorry"))
         (file := sample_file "image/png")
         (resp := success_response first_result).
  - apply (reachable_empty strict_runtime true).
  - reflexivity.
  - vm_compute. reflexivity.
  - reflexivity.
Qed.

Lemma second_store_reachable :
  reachable strict_runtime second_store [first_result; second_result].
Proof.
  change [first_result; second_result]
    with ([first_result] ++ [second_result]).
  eapply reachable_success
    with (env := sample_env 2 (answering crack_reply))
         (file := sample_file "image/png")
         (resp := success_response second_result).
  - apply first_store_reachable.
  - reflexivity.
  - vm_compute. reflexivity.
  - reflexivity.
Qed.

Section UpstreamFacts.

Variable rt : Runtime.

Lemma create_gemini_chat_Return (env : Env) (key : pystr) :
  nonempty (GOOGLE_API_KEY env) = Some key ->
  create_gemini_chat env
  = Return {| Llm.api_key := GOOGLE_API_KEY env;
              Llm.system_message := SYSTEM_MESSAGE;
              Llm._model := Llm.DEFAULT_MODEL |}.
Proof.
  intros Hkey. unfold create_gemini_chat. rewrite Hkey. reflexivity.
Qed.

(** What [analyze_defects] answers when the endpoint responded with a
    status that is not a success. *)
Lemma analyze_upstream_failure (env : Env) (file : UploadFile.t)
  (db : Store.database) (ct key : pystr) (resp : Httpx.Response) :
  UploadFile.content_type file = Some ct ->
  Str.startswith ct (py "image/") = true ->
  nonempty (GOOGLE_API_KEY env) = Some key ->
  (forall url payload, post env url payload = Httpx.Responded resp) ->
  Httpx.is_success resp = false ->
  analyze_defects rt env file db
  = (Raise
       (HTTPException 500
          (let msg :=
             if (Httpx.status_code resp =? 403)
                && Str.contains LEAKED_MARKER (Httpx.text resp)
             then Llm.LEAKED_KEY_ERROR
             else describe rt
                    (HTTPStatusError (Httpx.status_code resp)
                       (Llm.endpoint Llm.DEFAULT_MODEL key)) in
           if Str.contains LEAKED_MARKER msg then LEAKED_KEY_DETAIL
           else llm_failure_detail msg)),
     db).
Proof.
  intros Hct Himg Hkey Hpost Hfail.
  unfold analyze_defects, analyze_body. rewrite Hct, Himg. cbn [negb].
  unfold ask_model. rewrite (create_gemini_chat_Return env Hkey).
  cbn [try_except bind]. unfold Llm.send_message.
  cbn [Llm.api_key Llm._model]. rewrite Hkey, Hpost.
  change (match Llm.DEFAULT_MODEL with [] => Llm.DEFAULT_MODEL | m => m end)
    with Llm.DEFAULT_MODEL.
  destruct ((Httpx.status_code resp =? 403)
            && Str.contains LEAKED_MARKER (Httpx.text resp)).
  - cbn [try_except bind str_of_exn].
    destruct (Str.contains LEAKED_MARKER Llm.LEAKED_KEY_ERROR); reflexivity.
  - unfold Httpx.raise_for_status. rewrite Hfail.
    cbn [try_except bind str_of_exn].
    destruct (Str.contains LEAKED_MARKER _); reflexivity.
Qed.

End UpstreamFacts.

Section FailureFacts.

Variable rt : Runtime.

Lemma ask_model_Raise (env : Env) (ct img : pystr) (e : exn) :
  ask_model rt env ct img = Raise e -> exists d, e = HTTPException 500 d.
Proof.
  unfold ask_model, create_gemini_chat.
  destruct (nonempty (GOOGLE_API_KEY env)); cbn [try_except bind].
  - destruct (Llm.send_message rt env _ _); cbn [try_except];
      [discriminate|].
    destruct (Str.contains LEAKED_MARKER _); intros [= <-]; eauto.
  - intros [= <-]; eauto.
Qed.

Lemma map_new_DefectResult_Raise (items : list pyval) (e : exn) :
  map_outcome (new_DefectResult rt) items = Raise e ->
  exists f, e = LibraryError f.
Proof.
  induction items as [|v items IH]; cbn [map_outcome]; [discriminate|].
  destruct (new_DefectResult rt v) as [d|e'] eqn:E; cbn [bind].
  - destruct (map_outcome (new_DefectResult rt) items); cbn [bind];
      [discriminate|]. intros [= <-]. now apply IH.
  - intros [= <-]. unfold new_DefectResult in E.
    destruct v; try (injection E as <-; eauto).
    destruct (defect_of_kwargs rt pairs); [discriminate|].
    injection E as <-; eauto.
Qed.

Lemma record_analysis_Raise (env : Env) (file : UploadFile.t)
  (db : Store.database) (img reply : pystr) (e : exn) :
  record_analysis rt env file db img reply = Raise e ->
  exists f, e = LibraryError f.
Proof.
  unfold record_analysis.
  destruct (analysis_data rt reply) as [data|e0] eqn:E0; cbn [bind].
  2:{ intros [= <-]. unfold analysis_data, Json.loads in E0.
      destruct (Json.scan _ _ _ _); try discriminate;
        injection E0 as <-; eauto. }
  destruct (py_get data (py "defects_found") _)
    as [found|e1] eqn:E1; cbn [bind].
  2:{ intros [= <-]. unfold py_get in E1.
      destruct data; try (injection E1 as <-; eauto).
      discriminate. }
  destruct (iterate found) as [items|e2] eqn:E2; cbn [bind].
  2:{ intros [= <-]. unfold iterate in E2.
      destruct found; try discriminate; injection E2 as <-; eauto. }
  destruct (map_outcome (new_DefectResult rt) items) as [defects|e3] eqn:E3;
    cbn [bind].
  2:{ intros [= <-]. eapply map_new_DefectResult_Raise; eauto. }
  destruct (py_get data (py "total_defects") _)
    as [total|e4] eqn:E4; cbn [bind].
  2:{ intros [= <-]. unfold py_get in E4.
      destruct data; try (injection E4 as <-; eauto).
      discriminate. }
  destruct (new_AnalysisResult rt env _ total defects img) as [a|e5] eqn:E5;
    cbn [bind].
  2:{ intros [= <-]. unfold new_AnalysisResult in E5.
      destruct (Validate.as_str rt (PStr (UploadFile.filename file)));
        destruct (Validate.as_int rt total);
        destruct (Validate.as_str rt (PStr img));
        try discriminate; injection E5 as <-; eauto. }
  destruct (Store.insert_one db _ _) as [db1|e6] eqn:E6; cbn [bind];
    [discriminate|].
  intros [= <-]. unfold Store.insert_one in E6.
  destruct (negb (Store.available db)); [injection E6 as <-; eauto|].
  destruct (negb (Store.encodable _)); [injection E6 as <-; eauto|].
  destruct (_ <? _)%N; [|discriminate].
  injection E6 as <-; eauto.
Qed.

End FailureFacts.

(* ================================================================== *)
(** * Facts about the lookup of one analysis *)
(* ================================================================== *)

Lemma find_map {A B : Type} (f : B -> bool) (g : A -> B) (l : list A) :
  find f (map g l) = option_map g (find (fun x => f (g x)) l).
Proof.
  induction l as [|x l IH]; cbn [map find]; [reflexivity|].
  destruct (f (g x)); [reflexivity | exact IH].
Qed.

Lemma find_none_iff {A : Type} (f : A -> bool) (l : list A) :
  find f l = None <-> Forall (fun x => f x = false) l.
Proof.
  induction l as [|x l IH]; cbn [find].
  - split; [constructor | reflexivity].
  - destruct (f x) eqn:E; split.
    + discriminate.
    + intros H. inversion H; congruence.
    + intros H. constructor; [exact E | now apply IH].
    + intros H. inversion H; now apply IH.
Qed.

Lemma find_app_first {A : Type} (f : A -> bool) (l r : list A) (x : A) :
  Forall (fun y => f y = false) l -> f x = true ->
  find f (l ++ x :: r) = Some x.
Proof.
  induction 1 as [|y l Hy _ IH]; intros Hx; cbn [app find].
  - now rewrite Hx.
  - rewrite Hy. now apply IH.
Qed.

Lemma Str_eqb_neq (a b : pystr) : a <> b -> Str.eqb a b = false.
Proof.
  intros H. destruct (Str.eqb a b) eqn:E; [|reflexivity].
  now apply Str_eqb_eq in E.
Qed.

Section LookupFacts.

Variable rt : Runtime.

Lemma load_document_Raise (env : Env) (doc : Store.document) (e : exn) :
  load_document rt env doc = Raise e -> exists f, e = LibraryError f.
Proof.
  unfold load_document.
  destruct (normalize_upload_time rt doc) as [doc'|e'] eqn:E; cbn [bind].
  - unfold AnalysisResult_of_document.
    repeat match goal with
           | |- context [match ?x with Some _ => _ | None => _ end] =>
               destruct x
           end; try discriminate; intros [= <-]; eauto.
  - intros [= <-]. unfold normalize_upload_time in E.
    destruct (Dict.get (py "upload_time") doc) as [[]|]; try discriminate.
    destruct (Datetime.fromisoformat rt s); [discriminate|].
    injection E as <-. eauto.
Qed.

(** The document found for an identifier among the documents of
    recorded results is the first whose result has that identifier. *)
Lemma find_stored (s : pystr) (entries : list (pystr * AnalysisResult)) :
  find (fun doc => match Dict.get (py "id") doc with
                   | Some v => Store.matches v s
                   | None => false
                   end)
       (map (fun e => stored_document (fst e) (snd e)) entries)
  = option_map (fun e => stored_document (fst e) (snd e))
      (find (fun e => Str.eqb (id (snd e)) s) entries).
Proof.
  induction entries as [|[oid a] entries IH]; cbn [map find fst snd];
    [reflexivity|].
  change (Dict.get (py "id") (stored_document oid a))
    with (Some (PStr (id a))).
  cbn [Store.matches].
  destruct (Str.eqb (id a) s); [reflexivity | exact IH].
Qed.

(** On a store the service has written, the lookup returns the earliest
    recorded result with the identifier asked for, and answers 404 when
    there is none. *)
Lemma get_analysis_reachable (env : Env) (db : Store.database)
  (results : list AnalysisResult) (s : pystr) :
  reachable rt db results ->
  Store.available db = true ->
  Store.well_formed s = true ->
  get_analysis rt env db s
  = match find (fun a => Str.eqb (id a) s) results with
    | Some a => Return a
    | None => Raise (HTTPException 404 (py "Analysis not found"))
    end.
Proof.
  intros Hr Hav Hs.
  destruct (reachable_documents Hr) as (entries & Hres & Hdocs & Hall).
  unfold get_analysis, get_analysis_body, Store.find_one.
  rewrite Hav, Hs. cbn [negb bind]. rewrite Hdocs, find_stored.
  rewrite <- Hres, find_map.
  destruct (find (fun e => Str.eqb (id (snd e)) s) entries)
    as [[oid a]|] eqn:E; cbn [option_map fst snd]; [|reflexivity].
  apply find_some in E. destruct E as [Hin _].
  assert (Ha : In a results).
  { rewrite <- Hres. apply in_map_iff. now exists (oid, a). }
  rewrite Forall_forall in Hall. destruct (Hall a Ha) as (Hst & Hv & _).
  change (truthy rt (PDict (stored_document oid a))) with true.
  cbv iota.
  now rewrite (proj1 (load_stored_document rt env oid a Hst Hv)).
Qed.

End LookupFacts.

Lemma find_unique (l : list AnalysisResult) (a : AnalysisResult) :
  NoDup (map id l) -> In a l ->
  find (fun x => Str.eqb (id x) (id a)) l = Some a.
Proof.
  induction l as [|x l IH]; cbn [map In find]; [tauto|].
  intros Hnd [-> | Hin].
  - now rewrite Str_eqb_refl.
  - inversion Hnd as [|? ? Hx Hnd']; subst.
    rewrite Str_eqb_neq; [now apply IH|].
    intros Heq. apply Hx. rewrite Heq. now apply in_map.
Qed.

(* ================================================================== *)
(** * Further facts about the history endpoint *)
(* ================================================================== *)

Lemma map_outcome_Raise_In {A B : Type} (f : A -> outcome B) (l : list A)
  (x : A) (e : exn) :
  In x l -> f x = Raise e -> exists e', map_outcome f l = Raise e'.
Proof.
  induction l as [|y l IH]; cbn [In map_outcome]; [tauto|].
  intros [-> | Hin] Hx.
  - rewrite Hx. cbn [bind]. eauto.
  - destruct (f y); cbn [bind]; [|eauto].
    destruct (IH Hin Hx) as [e' ->]. cbn [bind]. eauto.
Qed.

Lemma map_outcome_Raise_inv {A B : Type} (f : A -> outcome B) (l : list A)
  (e : exn) :
  map_outcome f l = Raise e -> exists x, In x l /\ f x = Raise e.
Proof.
  induction l as [|y l IH]; cbn [map_outcome]; [discriminate|].
  destruct (f y) as [b|e'] eqn:E; cbn [bind].
  - destruct (map_outcome f l); cbn [bind]; [discriminate|].
    intros [= <-]. destruct IH as (x & Hin & Hx); [reflexivity|].
    exists x. split; [now right | exact Hx].
  - intros [= <-]. exists y. split; [now left | exact E].
Qed.

Section HistoryWindow.

Variable rt : Runtime.

Lemma insert_desc_length (field : pystr) (x : Store.document)
  (l : list Store.document) :
  List.length (Store.insert_desc rt field x l) = S (List.length l).
Proof.
  induction l as [|y l IH]; cbn [Store.insert_desc List.length];
    [reflexivity|].
  destruct (Store.bson_compare rt _ _); cbn [List.length]; now rewrite ?IH.
Qed.

Lemma sort_desc_length (field : pystr) (l : list Store.document) :
  List.length (Store.sort_desc rt field l) = List.length l.
Proof.
  induction l as [|x l IH]; [reflexivity|].
  cbn [Store.sort_desc fold_right List.length].
  rewrite insert_desc_length. f_equal. exact IH.
Qed.

(** What the endpoint reads for a limit the driver accepts. *)
Lemma get_analysis_history_window (env : Env) (db : Store.database)
  (limit : Z) :
  Store.available db = true ->
  0 <= limit <= Store.int64_max ->
  get_analysis_history rt env db (Some limit)
  = try_except
      (map_outcome (load_document rt env)
         (firstn (Z.to_nat limit)
            (Store.sort_desc rt (py "upload_time") (Store.analyses db))))
      (fun e =>
         Raise (HTTPException 500
                  (py "Failed to fetch history: " ++ str_of_exn rt e))).
Proof.
  intros Hav Hl. unfold get_analysis_history, Store.find_sorted.
  replace (limit <? 0) with false by (symmetry; apply Z.ltb_ge; lia).
  rewrite Hav. cbn [negb].
  replace (Store.int64_max <? limit) with false
    by (symmetry; apply Z.ltb_ge; lia).
  reflexivity.
Qed.

(** The sorted documents of a store the service wrote at increasing
    times load as the recorded results, newest first. *)
Lemma history_of_reachable (env : Env) (db : Store.database)
  (results : list AnalysisResult) (limit : Z) :
  reachable rt db results ->
  chronological results ->
  Store.available db = true ->
  0 <= limit <= Store.int64_max ->
  get_analysis_history rt env db (Some limit)
  = Return (firstn (Z.to_nat limit) (rev results)).
Proof.
  intros Hr Hchrono Hav Hl.
  destruct (reachable_documents Hr) as (entries & Hres & Hdocs & Hall).
  assert (Hok : Forall (fun a => storable a = true
                                 /\ Datetime.valid (upload_time a) = true)
                       results).
  { eapply Forall_impl; [|exact Hall]. now intros a (H1 & H2 & _). }
  rewrite get_analysis_history_window by assumption.
  rewrite Hdocs, sort_desc_ascending.
  2:{ apply stored_ascending; rewrite Hres; [assumption|].
      eapply Forall_impl; [|exact Hok]. now intros a [_ H]. }
  rewrite <- map_rev, firstn_map, load_all.
  - cbn [try_except]. now rewrite <- firstn_map, map_rev, Hres.
  - rewrite <- firstn_map, map_rev, Hres.
    now apply Forall_firstn, Forall_rev.
Qed.

End HistoryWindow.

(* ================================================================== *)
(** * The order of the history *)
(* ================================================================== *)

Section DatetimeOrder.

Local Open Scope N_scope.

Lemma lex_flip (x y : N) (r r' : comparison) :
  r' = CompOpp r ->
  match y ?= x with Eq => r' | c => c end
  = CompOpp (match x ?= y with Eq => r | c => c end).
Proof.
  intros ->. rewrite (N.compare_antisym x y).
  now destruct (x ?= y).
Qed.

(** Comparing two timestamps the other way round gives the opposite
    answer. *)
Lemma Datetime_compare_flip (a b : datetime) :
  Datetime.compare b a = CompOpp (Datetime.compare a b).
Proof.
  unfold Datetime.compare.
  repeat apply lex_flip. apply N.compare_antisym.
Qed.

Lemma lex_trans (x y z : N) (r1 r2 r3 : comparison) :
  (r1 <> Gt -> r2 <> Gt -> r3 <> Gt) ->
  match x ?= y with Eq => r1 | c => c end <> Gt ->
  match y ?= z with Eq => r2 | c => c end <> Gt ->
  match x ?= z with Eq => r3 | c => c end <> Gt.
Proof.
  intros Hr.
  destruct (N.compare_spec x y) as [Exy | Hxy | Hxy]; intros H1;
    [| |congruence].
  - subst y. destruct (x ?= z); [auto | discriminate | congruence].
  - intros H2.
    assert (Hyz : y <= z).
    { destruct (N.compare_spec y z); [lia | lia | congruence]. }
    replace (x ?= z) with Lt by (symmetry; apply N.compare_lt_iff; lia).
    discriminate.
Qed.

Lemma Datetime_le_trans (a b c : datetime) :
  Datetime.le a b -> Datetime.le b c -> Datetime.le a c.
Proof.
  unfold Datetime.le, Datetime.compare.
  repeat apply lex_trans.
  intros H1 H2.
  destruct (N.compare_spec (microsecond a) (microsecond b));
    destruct (N.compare_spec (microsecond b) (microsecond c));
    try congruence;
    (destruct (N.compare_spec (microsecond a) (microsecond c));
     [discriminate | discriminate | lia]).
Qed.

End DatetimeOrder.

Lemma StronglySorted_map {A B : Type} (R : B -> B -> Prop) (f : A -> B)
  (l : list A) :
  StronglySorted (fun x y => R (f x) (f y)) l ->
  StronglySorted R (map f l).
Proof.
  induction 1 as [|x l _ IH Hx]; cbn [map]; constructor; [exact IH|].
  now rewrite Forall_map.
Qed.

Lemma StronglySorted_app_cross {A : Type} (R : A -> A -> Prop)
  (l1 l2 : list A) :
  StronglySorted R (l1 ++ l2) -> Forall (fun a => Forall (R a) l2) l1.
Proof.
  induction l1 as [|x l1 IH]; cbn [app]; intros H; constructor.
  - inversion H as [|? ? _ Hx]; subst.
    apply Forall_app in Hx. tauto.
  - apply IH. now inversion H.
Qed.

Section HistoryOrder.

Variable rt : Runtime.

Lemma insert_desc_stored (e : pystr * AnalysisResult)
  (l : list (pystr * AnalysisResult)) :
  Datetime.valid (upload_time (snd e)) = true ->
  Forall (fun x => Datetime.valid (upload_time (snd x)) = true) l ->
  StronglySorted
    (fun x y => Datetime.le (upload_time (snd y)) (upload_time (snd x))) l ->
  exists l',
    Store.insert_desc rt (py "upload_time")
      (stored_document (fst e) (snd e))
      (map (fun x => stored_document (fst x) (snd x)) l)
    = map (fun x => stored_document (fst x) (snd x)) l'
    /\ Permutation l' (e :: l)
    /\ StronglySorted
    (fun x y => Datetime.le (upload_time (snd y)) (upload_time (snd x))) l'.
Proof.
  intros He Hv Hs. induction Hs as [|x l Hs IH Hx].
  - exists [e]. repeat split; repeat constructor.
  - inversion Hv as [|? ? Hvx Hvl]; subst.
    cbn [map Store.insert_desc].
    change (Store.sort_key (py "upload_time")
              (stored_document (fst e) (snd e)))
      with (PStr (Datetime.isoformat (upload_time (snd e)))).
    change (Store.sort_key (py "upload_time")
              (stored_document (fst x) (snd x)))
      with (PStr (Datetime.isoformat (upload_time (snd x)))).
    cbn [Store.bson_compare]. rewrite isoformat_compare by assumption.
    destruct (Datetime.compare (upload_time (snd e)) (upload_time (snd x)))
      eqn:E.
    + exists (e :: x :: l). split; [reflexivity|]. split; [reflexivity|].
      assert (Hxe : Datetime.le (upload_time (snd x)) (upload_time (snd e))).
      { unfold Datetime.le.
        rewrite Datetime_compare_flip, E. discriminate. }
      constructor; [now constructor|].
      constructor; [exact Hxe|].
      eapply Forall_impl; [|exact Hx].
      intros y Hy. cbv beta in *.
      eapply Datetime_le_trans; eassumption.
    + destruct (IH Hvl) as (l' & Hl' & Hperm & Hsorted).
      exists (x :: l'). split; [now rewrite Hl'|]. split.
      * rewrite Hperm. apply perm_swap.
      * constructor; [exact Hsorted|].
        apply (Permutation_Forall (Permutation_sym Hperm)).
        constructor; [|exact Hx].
        unfold Datetime.le. rewrite E. discriminate.
    + exists (e :: x :: l). split; [reflexivity|]. split; [reflexivity|].
      assert (Hxe : Datetime.le (upload_time (snd x)) (upload_time (snd e))).
      { unfold Datetime.le.
        rewrite Datetime_compare_flip, E. discriminate. }
      constructor; [now constructor|].
      constructor; [exact Hxe|].
      eapply Forall_impl; [|exact Hx].
      intros y Hy. cbv beta in *.
      eapply Datetime_le_trans; eassumption.
Qed.

(** Sorting the documents of recorded analyses lists them latest first,
    each once. *)
Lemma sort_desc_stored (entries : list (pystr * AnalysisResult)) :
  Forall (fun x => Datetime.valid (upload_time (snd x)) = true) entries ->
  exists sorted,
    Store.sort_desc rt (py "upload_time")
      (map (fun x => stored_document (fst x) (snd x)) entries)
    = map (fun x => stored_document (fst x) (snd x)) sorted
    /\ Permutation sorted entries
    /\ StronglySorted
    (fun x y => Datetime.le (upload_time (snd y)) (upload_time (snd x))) sorted.
Proof.
  induction 1 as [|e entries He Hv IH].
  - exists []. repeat split; constructor.
  - destruct IH as (sorted & Hsort & Hperm & Hs).
    cbn [map Store.sort_desc fold_right].
    change (fold_right (Store.insert_desc rt (py "upload_time")) []
              (map (fun x => stored_document (fst x) (snd x)) entries))
      with (Store.sort_desc rt (py "upload_time")
              (map (fun x => stored_document (fst x) (snd x)) entries)).
    rewrite Hsort.
    destruct (@insert_desc_stored e sorted He) as (l' & Hl' & Hperm' & Hs').
    + apply (Permutation_Forall (Permutation_sym Hperm)). exact Hv.
    + exact Hs.
    + exists l'. split; [exact Hl'|]. split; [|exact Hs'].
      rewrite Hperm'. now constructor.
Qed.

(** What the history endpoint returns on a store the service wrote,
    whatever the order of the upload times. *)
Lemma history_latest_first (env : Env) (db : Store.database)
  (results : list AnalysisResult) (limit : Z) :
  reachable rt db results ->
  Store.available db = true ->
  0 <= limit <= Store.int64_max ->
  exists sorted,
    get_analysis_history rt env db (Some limit)
    = Return (firstn (Z.to_nat limit) sorted)
    /\ Permutation sorted results
    /\ StronglySorted
         (fun a b => Datetime.le (upload_time b) (upload_time a)) sorted.
Proof.
  intros Hr Hav Hl.
  destruct (reachable_documents Hr) as (entries & Hres & Hdocs & Hall).
  assert (Hok : Forall (fun a => storable a = true
                                 /\ Datetime.valid (upload_time a) = true)
                       (map snd entries)).
  { rewrite Hres. eapply Forall_impl; [|exact Hall].
    now intros a (H1 & H2 & _). }
  destruct (sort_desc_stored (entries := entries)) as (se & Hsort & Hperm & Hs).
  { rewrite Forall_map in Hok. eapply Forall_impl; [|exact Hok].
    now intros x [_ H]. }
  exists (map snd se). split; [|split].
  - rewrite get_analysis_history_window by assumption.
    rewrite Hdocs, Hsort, firstn_map, load_all.
    + cbn [try_except]. now rewrite firstn_map.
    + rewrite <- firstn_map. apply Forall_firstn.
      apply (Permutation_Forall
               (Permutation_map snd (Permutation_sym Hperm))).
      exact Hok.
  - rewrite <- Hres. now apply Permutation_map.
  - apply StronglySorted_map. exact Hs.
Qed.

End HistoryOrder.

(* ================================================================== *)
(** * Facts about the request to the model *)
(* ================================================================== *)

Lemma startswith_prefix (s p : pystr) :
  Str.startswith s p = true <-> exists r, s = p ++ r.
Proof.
  revert s; induction p as [|a p IH]; intros s; cbn [Str.startswith].
  - split; [intros _; now exists s | reflexivity].
  - destruct s as [|b s]; [split; [discriminate | now intros [r [=]]]|].
    rewrite andb_true_iff, N.eqb_eq, IH. split.
    + intros [-> [r ->]]. now exists r.
    + intros [r [= -> ->]]. split; [reflexivity | now exists r].
Qed.

Lemma contains_infix (n h : pystr) :
  Str.contains n h = true <-> exists p r, h = p ++ n ++ r.
Proof.
  induction h as [|c h IH]; cbn [Str.contains].
  - rewrite orb_false_r, startswith_prefix. split.
    + intros [r Hr]. now exists [], r.
    + intros (p & r & H). destruct p as [|x p]; [|discriminate H].
      now exists r.
  - rewrite orb_true_iff, startswith_prefix, IH. split.
    + intros [[r Hr] | (p & r & Hr)].
      * now exists [], r.
      * exists (c :: p), r. now rewrite Hr.
    + intros (p & r & H). destruct p as [|x p].
      * left. now exists r.
      * right. injection H as _ H. now exists p, r.
Qed.

Section RequestFacts.

Variable rt : Runtime.

(** The call to the model, for a configured key: one POST, to the
    endpoint of the model [gemini-2.0-flash] with the key in the query,
    whose body carries the two fixed instructions and the image. *)
Lemma ask_model_request (env : Env) (ct img key : pystr) :
  nonempty (GOOGLE_API_KEY env) = Some key ->
  ask_model rt env ct img
  = try_except
      (match post env (Llm.endpoint (py "gemini-2.0-flash") key)
               (Llm.payload
                  (SYSTEM_MESSAGE ++ [10%N; 10%N] ++ USER_INSTRUCTION)
                  [{| Llm.image_base64 := img; Llm.mime_type := ct |}]) with
       | Httpx.Failed detail => Raise (LibraryError (TransportError detail))
       | Httpx.Responded resp =>
           if (Httpx.status_code resp =? 403)
              && Str.contains LEAKED_MARKER (Httpx.text resp)
           then Raise (RuntimeError Llm.LEAKED_KEY_ERROR)
           else
             _ <- Httpx.raise_for_status
                    (Llm.endpoint (py "gemini-2.0-flash") key) resp ;;
             data <- Httpx.json (client_limits rt) resp ;;
             Llm.reply_text rt data
       end)
      (fun e =>
         if Str.contains LEAKED_MARKER (str_of_exn rt e)
         then Raise (HTTPException 500 LEAKED_KEY_DETAIL)
         else Raise (HTTPException 500 (llm_failure_detail (str_of_exn rt e)))).
Proof.
  intros Hkey. unfold ask_model.
  rewrite (create_gemini_chat_Return env Hkey). cbn [try_except bind].
  unfold Llm.send_message. cbn [Llm.api_key Llm._model Llm.system_message
                                Llm.text Llm.file_contents].
  rewrite Hkey.
  replace (Str.strip SYSTEM_MESSAGE) with SYSTEM_MESSAGE
    by (vm_compute; reflexivity).
  reflexivity.
Qed.

(** A failure of the call to the model is the failure of the request. *)
Lemma analyze_ask_Raise (env : Env) (file : UploadFile.t)
  (db : Store.database) (ct : pystr) (s : Z) (d : pystr) :
  UploadFile.content_type file = Some ct ->
  Str.startswith ct (py "image/") = true ->
  ask_model rt env ct (Base64.b64encode (UploadFile.contents file))
  = Raise (HTTPException s d) ->
  analyze_defects rt env file db = (Raise (HTTPException s d), db).
Proof.
  intros Hct Himg Hask. unfold analyze_defects, analyze_body.
  rewrite Hct, Himg. cbn [negb]. now rewrite Hask.
Qed.

(** The reply of the model when the endpoint answered with a success
    status, whatever the request was. *)
Lemma ask_model_success (env : Env) (ct img key : pystr)
  (resp : Httpx.Response) :
  nonempty (GOOGLE_API_KEY env) = Some key ->
  (forall url payload, post env url payload = Httpx.Responded resp) ->
  Httpx.is_success resp = true ->
  ask_model rt env ct img
  = try_except
      (data <- Httpx.json (client_limits rt) resp ;; Llm.reply_text rt data)
      (fun e =>
         if Str.contains LEAKED_MARKER (str_of_exn rt e)
         then Raise (HTTPException 500 LEAKED_KEY_DETAIL)
         else Raise (HTTPException 500 (llm_failure_detail (str_of_exn rt e)))).
Proof.
  intros Hkey Hpost Hok. rewrite (ask_model_request env ct img Hkey).
  rewrite Hpost. unfold Httpx.raise_for_status. rewrite Hok.
  replace (Httpx.status_code resp =? 403) with false; [reflexivity|].
  symmetry. apply Z.eqb_neq. unfold Httpx.is_success in Hok.
  apply andb_true_iff in Hok. destruct Hok as [H1 H2].
  apply Z.leb_le in H1, H2. lia.
Qed.

End RequestFacts.

(* ================================================================== *)
(** * Facts about the reply *)
(* ================================================================== *)

Lemma strings_of_strs (ss : list pystr) :
  Llm.strings_of (map PStr ss) = Return ss.
Proof.
  induction ss as [|s ss IH]; cbn [map Llm.strings_of]; [reflexivity|].
  now rewrite IH.
Qed.

(** No JSON text starts with a backtick: the decoder stops at it,
    whatever the limits. *)
Lemma scan_backtick (lim : Json.limits) (s : pystr) :
  Json.scan lim (Json.PValue []) 0 (96%N :: s) = Json.NotJson.
Proof. reflexivity. Qed.

Lemma scan_empty (lim : Json.limits) :
  Json.scan lim (Json.PValue []) 0 [] = Json.NotJson.
Proof. reflexivity. Qed.

(** A run of opening brackets: the decoder gives up at the first one it
    has no room for. *)
Lemma scan_open_brackets (lim : Json.limits) (k : nat)
  (stk : list Json.frame) :
  (Json.max_depth lim < S (List.length stk) + k)%nat ->
  (S (List.length stk) <= Json.max_depth lim)%nat ->
  Json.scan lim (Json.PListOpen stk) 0 (repeat 91%N k) = Json.TooDeep.
Proof.
  revert stk. induction k as [|k IH]; intros stk Hk Hstk; [lia|].
  cbn [repeat Json.scan]. 
  change (Json.is_ws 91) with false. cbv iota.
  change (Json.scan_token (91%N :: repeat 91%N k))
    with (Some (Json.TLBrack, 1%nat)).
  cbn [Json.step Json.start_value Json.too_long Json.too_deep List.length
       pred].
  destruct (Nat.ltb_spec (Json.max_depth lim) (S (S (List.length stk))))
    as [Hdeep|Hroom]; [reflexivity|].
  apply IH; cbn [List.length]; lia.
Qed.

Lemma scan_brackets (lim : Json.limits) (n : nat) :
  (Json.max_depth lim < n)%nat ->
  Json.scan lim (Json.PValue []) 0 (repeat 91%N n) = Json.TooDeep.
Proof.
  intros Hn. destruct n as [|n]; [lia|].
  cbn [repeat Json.scan].
  change (Json.is_ws 91) with false. cbv iota.
  change (Json.scan_token (91%N :: repeat 91%N n))
    with (Some (Json.TLBrack, 1%nat)).
  cbn [Json.step Json.start_value Json.too_long Json.too_deep List.length
       pred].
  destruct (Nat.ltb_spec (Json.max_depth lim) 1) as [Hdeep|Hroom];
    [reflexivity|].
  apply scan_open_brackets; cbn [List.length]; lia.
Qed.

(** The data of a reply, by what the decoder makes of its text. *)
Lemma analysis_data_scan (rt : Runtime) (reply : pystr) :
  analysis_data rt reply
  = match Json.scan (reply_limits rt) (Json.PValue []) 0
            (response_text reply) with
    | Json.Decoded v => Return v
    | Json.NotJson => Return PARSE_ERROR_DATA
    | Json.TooDeep => Raise (LibraryError RecursionError)
    | Json.TooLong =>
        Raise (LibraryError
                 (ValueError
                    (py "Exceeds the limit for integer string conversion")))
    end.
Proof.
  unfold analysis_data, Json.loads. now destruct (Json.scan _ _ _ _).
Qed.

(** What the data of a reply are when [json.loads] returns or raises
    [JSONDecodeError]. *)
Lemma analysis_data_Return (rt : Runtime) (reply : pystr) (v : pyval) :
  Json.loads (reply_limits rt) (response_text reply) = Return v ->
  analysis_data rt reply = Return v.
Proof. unfold analysis_data. now intros ->. Qed.


(** A text that starts with three backticks still starts with one, or
    is empty, once its last three characters are removed. *)
Lemma drop_last_backticks (r : pystr) :
  Str.drop_last 3 (py "```" ++ r) = []
  \/ exists r', Str.drop_last 3 (py "```" ++ r) = 96%N :: r'.
Proof.
  unfold Str.drop_last.
  change (py "```" ++ r) with (96%N :: 96%N :: 96%N :: r).
  cbn [List.length]. replace (S (S (S (List.length r))) - 3)%nat
    with (List.length r) by lia.
  destruct r as [|c r]; cbn [List.length firstn]; eauto.
Qed.

(* ================================================================== *)
(** * The properties of the specification *)
(* ================================================================== *)




(** C2: the code does not do what the claim says.  A reply that is valid
    JSON but not an object, here the empty list, makes the request fail
    with status 500, and so does an object whose [defects_found] entry
    does not have the fields of a record; nothing is stored. *)
Theorem malformed_reply_fails_request (rt : Runtime) :
  analyze_defects rt (sample_env 1 (answering "[]"))
    (sample_file "image/png") empty_db
  = (Raise (HTTPException 500
              (py "Analysis failed: "
               ++ describe rt (AttributeError (PList []) (py "get")))),
     empty_db)
  /\ analyze_defects rt (sample_env 1 (answering "{\'defects_found\': [{}]}"))
       (sample_file "image/png") empty_db
     = (Raise (HTTPException 500
                 (py "Analysis failed: "
                  ++ describe rt
                       (ValidationError (py "DefectResult") (PDict [])))),
        empty_db)
  /\ Json.loads (reply_limits rt) (response_text (py "[]"))
     = Return (PList [])
  /\ Json.loads (reply_limits rt)
       (response_text (pyq "{'defects_found': [{}]}"))
     = Return (PDict [(py "defects_found", PList [PDict []])]).
Proof.
  repeat split; vm_compute; reflexivity.
Qed.

(** C3.  When the parsed reply is an object and the request succeeds,
    the stored [total_defects] is the value of the reply's own
    [total_defects] field whenever the object has that field, whatever
    the number of records, and it is the number of records exactly when
    the field is absent. *)
Theorem total_defects_follows_model (rt : Runtime) (env : Env)
  (file : UploadFile.t) (db db' : Store.database)
  (resp : AnalysisResponse) (ct reply : pystr) (d : pydict) :
  UploadFile.content_type file = Some ct ->
  ask_model rt env ct (Base64.b64encode (UploadFile.contents file))
  = Return reply ->
  analysis_data rt reply = Return (PDict d) ->
  analyze_defects rt env file db = (Return resp, db') ->
  exists a,
    analysis resp = Some a
    /\ Store.analyses db'
       = Store.analyses db ++ [stored_document (new_object_id env) a]
    /\ Dict.get (py "total_defects") (stored_document (new_object_id env) a)
       = Some (PInt (total_defects a))
    /\ (forall v, Dict.get (py "total_defects") d = Some v ->
                  Validate.as_int rt v = Some (total_defects a))
    /\ (forall n, Dict.get (py "total_defects") d = Some (PInt n) ->
                  total_defects a = n)
    /\ (Dict.get (py "total_defects") d = None ->
        total_defects a = Z.of_nat (List.length (defects_found a))).
Proof.
  intros Hct Hask Hdata H.
  pose proof H as H'. apply analyze_success in H'.
  destruct H' as (a' & Hresp & Hdb & _).
  apply analyze_defects_Return in H.
  destruct H as (ct' & reply' & Hct' & _ & Hask' & Hrec).
  rewrite Hct in Hct'. injection Hct' as <-.
  rewrite Hask in Hask'. injection Hask' as <-.
  apply record_analysis_inv in Hrec.
  destruct Hrec as (data & found & items & defects & total & a
                    & Hdata' & _ & _ & _ & Htotal & Hnew & _ & Hresp').
  rewrite Hresp' in Hresp. apply (f_equal analysis) in Hresp.
  cbn [analysis success_response] in Hresp. injection Hresp as <-.
  rewrite Hdata in Hdata'. injection Hdata' as <-.
  cbn [py_get] in Htotal.
  apply new_AnalysisResult_inv in Hnew.
  destruct Hnew as (f & n & i & _ & Hn & _ & Ha).
  exists a. subst resp db'. split; [reflexivity|]. split; [reflexivity|].
  split; [reflexivity|].
  assert (Hna : total_defects a = n) by (now rewrite Ha).
  assert (Hda : defects_found a = defects) by (now rewrite Ha).
  rewrite Hna, Hda. repeat split.
  - intros v Hv. rewrite Hv in Htotal. now injection Htotal as <-.
  - intros m Hm. rewrite Hm in Htotal. injection Htotal as <-.
    cbn [Validate.as_int] in Hn. now injection Hn.
  - intros Hnone. rewrite Hnone in Htotal. injection Htotal as <-.
    cbn [Validate.as_int] in Hn. now injection Hn.
Qed.

Lemma total_defects_follows_model_witness :
  exists a,
    analysis (success_response second_result) = Some a
    /\ total_defects a = 5
    /\ List.length (defects_found a) = 1%nat.
Proof.
  destruct (total_defects_follows_model strict_runtime
              (sample_env 2 (answering crack_reply))
              (sample_file "image/png") first_store
              (db' := second_store)
              (resp := success_response second_result)
              (ct := py "image/png")
              (reply := pyq "{'defects_found': [{'defect_type': 'Crack', 'confidence': 92, 'severity': 'High', 'description': 'Hairline crack'}], 'total_defects': 5}")
              (d := [(py "defects_found",
                      PList [PDict [(py "defect_type", PStr (py "Crack"));
                                    (py "confidence", PInt 92);
                                    (py "severity", PStr (py "High"));
                                    (py "description",
                                     PStr (py "Hairline crack"))]]);
                     (py "total_defects", PInt 5)]))
    as (a & Ha & _ & _ & _ & Hn & _).
  - reflexivity.
  - vm_compute. reflexivity.
  - vm_compute. reflexivity.
  - vm_compute. reflexivity.
  - exists a. split; [exact Ha|]. split; [now apply Hn|].
    injection Ha as <-. reflexivity.
Defined.

(** C4 (as amended).  Whatever blanks surround it, a reply made of the
    seven-character marker, a payload and the three-character marker is
    reduced to the payload before the JSON parse, so its analysis data
    are those of [json.loads] on the payload itself.  They are the data
    obtained from the payload sent without fences whenever the payload,
    apart from JSON blanks (space, tab, line feed, carriage return)
    around it, is bare: it has no other blanks around it and neither
    starts with the opening marker nor ends with the closing one. *)
Theorem fenced_reply_parses_as_payload (rt : Runtime) (ws1 ws2 s : pystr) :
  forallb Str.isspace ws1 = true ->
  forallb Str.isspace ws2 = true ->
  response_text (ws1 ++ py "```json" ++ s ++ py "```" ++ ws2) = s
  /\ analysis_data rt (ws1 ++ py "```json" ++ s ++ py "```" ++ ws2)
     = match Json.loads (reply_limits rt) s with
       | Raise (LibraryError (JSONDecodeError _)) => Return PARSE_ERROR_DATA
       | r => r
       end
  /\ (forall w1 w2 core,
        s = w1 ++ core ++ w2 ->
        forallb Json.is_ws w1 = true -> forallb Json.is_ws w2 = true ->
        Str.strip core = core ->
        Str.startswith core (py "```json") = false ->
        Str.endswith core (py "```") = false ->
        analysis_data rt (ws1 ++ py "```json" ++ s ++ py "```" ++ ws2)
        = analysis_data rt s).
Proof.
  intros H1 H2.
  pose proof (response_text_fenced ws1 ws2 s H1 H2) as Hfenced.
  split; [assumption|]. split.
  - unfold analysis_data. now rewrite Hfenced.
  - intros w1 w2 core -> Hw1 Hw2 Hstrip Hstart Hend.
    rewrite !analysis_data_scan, Hfenced.
    rewrite (response_text_strip (w1 ++ core ++ w2) core)
      by (apply strip_blanks; now apply json_blank_isspace).
    rewrite scan_blanks by assumption.
    unfold response_text. now rewrite Hstrip, Hstart, Hend.
Qed.

Lemma fenced_reply_parses_as_payload_witness :
  analysis_data strict_runtime (pyq "  ```json
{'defects_found': [], 'total_defects': 0}
```  ")
  = analysis_data strict_runtime (pyq "
{'defects_found': [], 'total_defects': 0}
").
Proof.
  apply (fenced_reply_parses_as_payload strict_runtime (py "  ") (py "  ")
           (pyq "
{'defects_found': [], 'total_defects': 0}
") eq_refl eq_refl)
    with (w1 := [10%N]) (w2 := [10%N])
         (core := pyq "{'defects_found': [], 'total_defects': 0}");
    reflexivity.
Defined.

(** C4 as stated fails for a payload that itself ends with the closing
    marker: inside fences it is not JSON and the fallback is used, on
    its own its marker is removed and it parses as the empty object. *)
Lemma fenced_payload_parses_differently :
  analysis_data strict_runtime (py "```json" ++ py "{}```" ++ py "```")
  = Return PARSE_ERROR_DATA
  /\ analysis_data strict_runtime (py "{}```") = Return (PDict [])
  /\ analysis_data strict_runtime (py "```json" ++ py "{}```" ++ py "```")
     <> analysis_data strict_runtime (py "{}```").
Proof.
  split; [vm_compute; reflexivity|].
  split; [vm_compute; reflexivity|].
  vm_compute. discriminate.
Qed.

(** C5.  An upload whose declared content type does not begin with
    [image/] is answered with status 400, and the store is left exactly
    as it was: nothing is inserted. *)
Theorem non_image_upload_rejected (rt : Runtime) (env : Env)
  (file : UploadFile.t) (db : Store.database) (ct : pystr) :
  UploadFile.content_type file = Some ct ->
  Str.startswith ct (py "image/") = false ->
  analyze_defects rt env file db
  = (Raise (HTTPException 400 (py "Only image files are supported")), db)
  /\ http_status (fst (analyze_defects rt env file db)) = 400
  /\ snd (analyze_defects rt env file db) = db.
Proof.
  intros Hct Hprefix.
  assert (H : analyze_defects rt env file db
              = (Raise (HTTPException 400 (py "Only image files are supported")),
                 db)).
  { unfold analyze_defects, analyze_body. now rewrite Hct, Hprefix. }
  rewrite H. auto.
Qed.

Lemma non_image_upload_rejected_witness :
  http_status
    (fst (analyze_defects strict_runtime
            (sample_env 1 (answering "{}"))
            (sample_file "text/plain") empty_db)) = 400
  /\ snd (analyze_defects strict_runtime
            (sample_env 1 (answering "{}"))
            (sample_file "text/plain") empty_db) = empty_db.
Proof.
  apply (non_image_upload_rejected strict_runtime
           (sample_env 1 (answering "{}"))
           (sample_file "text/plain") empty_db (ct := py "text/plain"));
    reflexivity.
Defined.

(** C6.  When the endpoint answers with status 403 and a body that
    contains the leaked-key phrase, the request fails with status 500
    and a detail that tells the operator to generate a new API key.
    That detail differs from every detail of the generic kind, which is
    what any other non-success status produces (as long as the text of
    the client's status error does not itself contain the phrase). *)
Theorem leaked_key_is_reported (rt : Runtime) (env : Env)
  (file : UploadFile.t) (db : Store.database) (ct key : pystr)
  (resp : Httpx.Response) :
  UploadFile.content_type file = Some ct ->
  Str.startswith ct (py "image/") = true ->
  nonempty (GOOGLE_API_KEY env) = Some key ->
  (forall url payload, post env url payload = Httpx.Responded resp) ->
  Httpx.status_code resp = 403 ->
  Str.contains LEAKED_MARKER (Httpx.text resp) = true ->
  analyze_defects rt env file db
  = (Raise (HTTPException 500 LEAKED_KEY_DETAIL), db)
  /\ http_status (fst (analyze_defects rt env file db)) = 500
  /\ Str.contains (py "Please generate a new API key") LEAKED_KEY_DETAIL
     = true
  /\ (forall msg, LEAKED_KEY_DETAIL <> llm_failure_detail msg)
  /\ (forall env' other,
        nonempty (GOOGLE_API_KEY env') = Some key ->
        (forall url payload, post env' url payload = Httpx.Responded other) ->
        Httpx.is_success other = false ->
        (Httpx.status_code other =? 403)
        && Str.contains LEAKED_MARKER (Httpx.text other) = false ->
        let msg := describe rt
                     (HTTPStatusError (Httpx.status_code other)
                        (Llm.endpoint Llm.DEFAULT_MODEL key)) in
        Str.contains LEAKED_MARKER msg = false ->
        analyze_defects rt env' file db
        = (Raise (HTTPException 500 (llm_failure_detail msg)), db)).
Proof.
  intros Hct Himg Hkey Hpost Hstatus Hmarker.
  assert (Hrun : analyze_defects rt env file db
                 = (Raise (HTTPException 500 LEAKED_KEY_DETAIL), db)).
  { rewrite (analyze_upstream_failure rt env file db Hct Himg Hkey Hpost).
    - rewrite Hstatus, Hmarker. reflexivity.
    - unfold Httpx.is_success. now rewrite Hstatus. }
  rewrite Hrun.
  split; [reflexivity|]. split; [reflexivity|].
  split; [vm_compute; reflexivity|]. split.
  - intros msg H. vm_compute in H. discriminate H.
  - intros env' other Hkey' Hpost' Hfail Hnot msg Hmsg.
    rewrite (analyze_upstream_failure rt env' file db Hct Himg Hkey' Hpost'
               Hfail).
    rewrite Hnot. cbv zeta. fold msg. now rewrite Hmsg.
Qed.

Lemma leaked_key_is_reported_witness :
  analyze_defects strict_runtime (sample_env 1 leaked_answer)
    (sample_file "image/png") empty_db
  = (Raise (HTTPException 500 LEAKED_KEY_DETAIL), empty_db).
Proof.
  apply (leaked_key_is_reported strict_runtime (sample_env 1 leaked_answer)
           (sample_file "image/png") empty_db
           (ct := py "image/png") (key := py "k")
           (resp := (plain_response 403 (py "API key was reported as leaked. Please use another API key."))));
    reflexivity.
Defined.

(** C7 (as amended).  On a successful request the document handed to
    [insert_one] has exactly the keys [id], [filename], [upload_time],
    [total_defects], [defects_found], [analysis_complete] and
    [image_base64] (the image field is called [image_base64], there is
    no [image_encoded]); its [upload_time] is the ISO-8601 text of the
    time of the upload, which reads back as that time; and the store
    keeps this document with the [_id] the driver adds. *)
Theorem inserted_document_shape (rt : Runtime) (env : Env)
  (file : UploadFile.t) (db db' : Store.database)
  (resp : AnalysisResponse) :
  analyze_defects rt env file db = (Return resp, db') ->
  exists a,
    analysis resp = Some a
    /\ Store.insert_one db (new_object_id env) (analysis_dict a) = Return db'
    /\ Dict.keys (analysis_dict a)
       = [py "id"; py "filename"; py "upload_time"; py "total_defects";
          py "defects_found"; py "analysis_complete"; py "image_base64"]
    /\ Dict.get (py "upload_time") (analysis_dict a)
       = Some (PStr (Datetime.isoformat (utcnow env)))
    /\ (Datetime.valid (utcnow env) = true ->
        Datetime.fromisoformat rt (Datetime.isoformat (utcnow env))
        = Some (utcnow env))
    /\ Store.analyses db'
       = Store.analyses db
         ++ [Dict.set (py "_id") (PObjectId (new_object_id env))
                      (analysis_dict a)].
Proof.
  intros H. apply analyze_success in H.
  destruct H as (a & -> & -> & Hav & Hst & _ & Ht & _ & _ & Hsize).
  exists a. split; [reflexivity|]. split.
  { apply insert_one_analysis; [assumption| |exact Hsize].
    now rewrite encodable_stored_document. }
  split; [reflexivity|]. split.
  { change (Dict.get (py "upload_time") (analysis_dict a))
      with (Some (PStr (Datetime.isoformat (upload_time a)))).
    now rewrite Ht. }
  split; [apply fromisoformat_isoformat | reflexivity].
Qed.

Lemma inserted_document_shape_witness :
  exists a,
    Store.insert_one empty_db (py "665f00000000000000000001")
      (analysis_dict a) = Return first_store
    /\ Dict.get (py "upload_time") (analysis_dict a)
       = Some (PStr (py "2024-05-17T09:30:01")).
Proof.
  destruct (inserted_document_shape strict_runtime
              (sample_env 1 (answering "sorry")) (sample_file "image/png")
              empty_db (db' := first_store)
              (resp := success_response first_result))
    as (a & _ & Hins & _ & Ht & _).
  - vm_compute. reflexivity.
  - exists a. split; [exact Hins | exact Ht].
Defined.

(** C7 as stated fails: the document inserted for the sample upload has
    no field [image_encoded]; the image is under [image_base64]. *)
Lemma inserted_document_has_no_image_encoded :
  analyze_defects strict_runtime (sample_env 1 (answering "sorry"))
    (sample_file "image/png") empty_db
  = (Return (success_response first_result), first_store)
  /\ Store.insert_one empty_db (py "665f00000000000000000001")
       (analysis_dict first_result) = Return first_store
  /\ ~ In (py "image_encoded") (Dict.keys (analysis_dict first_result))
  /\ In (py "image_base64") (Dict.keys (analysis_dict first_result)).
Proof.
  split; [vm_compute; reflexivity|].
  split; [vm_compute; reflexivity|].
  split.
  - vm_compute. intros H.
    repeat (destruct H as [H|H]; [discriminate H|]). exact H.
  - vm_compute. tauto.
Qed.

(** C8 (as amended).  After the service has recorded N analyses,
    [GET /api/history] with a limit [K] smaller than N returns exactly
    [K] of them, each once, in descending order of upload time, and
    they are [K] analyses with the latest upload times: none of those
    left out is later than any of those returned.  They are the [K]
    most recent inserts when the upload times increase in the order of
    insertion.  Without a limit the limit is 10; and a stored document
    is read back as the same result whether its [upload_time] is kept
    as an ISO string or as a native timestamp. *)
Theorem history_returns_most_recent (rt : Runtime) (env : Env)
  (db : Store.database) (results : list AnalysisResult) (K : nat) :
  reachable rt db results ->
  Store.available db = true ->
  (K < List.length results)%nat ->
  Z.of_nat K <= Store.int64_max ->
  exists returned others,
    get_analysis_history rt env db (Some (Z.of_nat K)) = Return returned
    /\ List.length returned = K
    /\ Permutation (returned ++ others) results
    /\ StronglySorted
         (fun a b => Datetime.le (upload_time b) (upload_time a)) returned
    /\ Forall (fun a =>
                 Forall (fun b => Datetime.le (upload_time b) (upload_time a))
                        others)
              returned
    /\ (chronological results -> returned = firstn K (rev results))
    /\ get_analysis_history rt env db None
       = get_analysis_history rt env db (Some 10)
    /\ forall a oid,
         In a results ->
         load_document rt env (stored_document oid a) = Return a
         /\ load_document rt env
              (Dict.set (py "upload_time") (PDatetime (upload_time a))
                        (stored_document oid a)) = Return a.
Proof.
  intros Hreach Hav HK Hmax.
  assert (Hl : 0 <= Z.of_nat K <= Store.int64_max) by lia.
  destruct (history_latest_first env Hreach Hav Hl)
    as (sorted & Hget & Hperm & Hsorted).
  rewrite Nat2Z.id in Hget.
  exists (firstn K sorted), (skipn K sorted).
  split; [exact Hget|]. split; [|split; [|split; [|split; [|split; [|split]]]]].
  - apply firstn_length_le.
    rewrite (Permutation_length Hperm). lia.
  - now rewrite firstn_skipn.
  - now apply StronglySorted_firstn.
  - apply StronglySorted_app_cross. now rewrite firstn_skipn.
  - intros Hchrono.
    rewrite (history_of_reachable env Hreach Hchrono Hav Hl) in Hget.
    rewrite Nat2Z.id in Hget. now injection Hget.
  - reflexivity.
  - intros a oid Hin.
    destruct (reachable_documents Hreach) as (_ & _ & _ & Hall).
    rewrite Forall_forall in Hall.
    destruct (Hall a Hin) as (Hst & Hv & _).
    apply (load_stored_document rt env oid a Hst Hv).
Qed.

Lemma history_returns_most_recent_witness :
  exists returned others,
    get_analysis_history strict_runtime (sample_env 3 (answering "{}"))
      second_store (Some 1) = Return returned
    /\ List.length returned = 1%nat
    /\ Permutation (returned ++ others) [first_result; second_result]
    /\ returned = [second_result].
Proof.
  assert (Hc : chronological [first_result; second_result]).
  { repeat constructor. }
  assert (HK : (1 < List.length [first_result; second_result])%nat)
    by (simpl; lia).
  assert (Hmax : Z.of_nat 1 <= Store.int64_max) by (vm_compute; discriminate).
  destruct (history_returns_most_recent
              (sample_env 3 (answering "{}")) second_store_reachable
              eq_refl HK Hmax)
    as (returned & others & H1 & H2 & H3 & _ & _ & H4 & _).
  exists returned, others. repeat split; auto.
Defined.

(** C8 as stated fails when the clock does not advance: after an upload
    stamped second 5 and then an upload stamped second 2, the history
    with limit 1 returns the first of the two, which is the later one by
    its upload time and not the most recent insert. *)
Lemma history_is_not_by_insertion :
  reachable strict_runtime skewed_store [fifth_result; second_result]
  /\ get_analysis_history strict_runtime (sample_env 6 (answering "{}"))
       skewed_store (Some 1) = Return [fifth_result]
  /\ firstn 1 (rev [fifth_result; second_result]) = [second_result]
  /\ [fifth_result] <> [second_result].
Proof.
  split; [|split; [|split]].
  - change [fifth_result; second_result]
      with ([fifth_result] ++ [second_result]).
    eapply reachable_success
      with (env := sample_env 2 (answering crack_reply))
           (file := sample_file "image/png")
           (resp := success_response second_result)
           (db := {| Store.available := true;
                     Store.analyses :=
                       [stored_document (py "665f00000000000000000005")
                          fifth_result] |}).
    + change [fifth_result] with ([] ++ [fifth_result]).
      eapply reachable_success
        with (env := sample_env 5 (answering "sorry"))
             (file := sample_file "image/png")
             (resp := success_response fifth_result).
      * apply (reachable_empty strict_runtime true).
      * reflexivity.
      * vm_compute. reflexivity.
      * reflexivity.
    + reflexivity.
    + vm_compute. reflexivity.
    + reflexivity.
  - vm_compute. reflexivity.
  - reflexivity.
  - vm_compute. discriminate.
Qed.

(** C9.  On every successful request the [image_base64] field of the
    returned result is present and is the base64 encoding of the
    uploaded bytes, the stored document carries the same string, and
    decoding it gives exactly the uploaded bytes back. *)
Theorem image_base64_is_encoding_of_upload (rt : Runtime) (env : Env)
  (file : UploadFile.t) (db db' : Store.database)
  (resp : AnalysisResponse) :
  analyze_defects rt env file db = (Return resp, db') ->
  exists a doc,
    analysis resp = Some a
    /\ image_base64 a = Some (Base64.b64encode (UploadFile.contents file))
    /\ Store.analyses db' = Store.analyses db ++ [doc]
    /\ Dict.get (py "image_base64") doc
       = Some (PStr (Base64.b64encode (UploadFile.contents file)))
    /\ Base64.b64decode (Base64.b64encode (UploadFile.contents file))
       = Some (UploadFile.contents file).
Proof.
  intros H. apply analyze_success in H.
  destruct H as (a & -> & -> & _ & _ & _ & _ & _ & Himg & _).
  exists a, (stored_document (new_object_id env) a).
  repeat split; auto.
  - rewrite stored_document_fields.
    change (Dict.get (py "image_base64") _)
      with (Some (match image_base64 a with
                  | Some s => PStr s
                  | None => PNone
                  end)).
    now rewrite Himg.
  - apply b64decode_b64encode.
Qed.

Lemma image_base64_is_encoding_of_upload_witness :
  exists a doc,
    image_base64 a = Some (py "iVBORw==")
    /\ Dict.get (py "image_base64") doc = Some (PStr (py "iVBORw=="))
    /\ Base64.b64decode (py "iVBORw==")
       = Some [Byte.x89; Byte.x50; Byte.x4e; Byte.x47].
Proof.
  destruct (image_base64_is_encoding_of_upload strict_runtime
              (sample_env 1 (answering "{}"))
              (sample_file "image/png") empty_db
              (db' := snd (analyze_defects strict_runtime
                             (sample_env 1 (answering "{}"))
                             (sample_file "image/png") empty_db))
              (resp := success_response
                         {| id := py "5a0f2c1e-0000-4000-8000-000000000001";
                            filename := py "weld.png";
                            upload_time := sample_time 1;
                            total_defects := 0;
                            defects_found := [];
                            analysis_complete := true;
                            image_base64 := Some (py "iVBORw==") |})
              eq_refl)
    as (a & doc & _ & Himg & _ & Hdoc & Hdec).
  exists a, doc. split; [exact Himg|]. split; [exact Hdoc | exact Hdec].
Defined.

(** C10.  Along every history of the service, each result the analyze
    endpoint returned has [analysis_complete = true], each document it
    stored carries [analysis_complete = true], and each result the
    history endpoint then builds from the store has
    [analysis_complete = true]: no result with the flag cleared is ever
    constructed or stored, the parse-failure path included. *)
Theorem analysis_complete_always_true (rt : Runtime)
  (db : Store.database) (results : list AnalysisResult) :
  reachable rt db results ->
  Forall (fun a => analysis_complete a = true) results
  /\ Forall (fun doc => Dict.get (py "analysis_complete") doc
                        = Some (PBool true)) (Store.analyses db)
  /\ forall env limit l,
       get_analysis_history rt env db limit = Return l ->
       Forall (fun a => analysis_complete a = true) l.
Proof.
  intros Hreach.
  destruct (reachable_documents Hreach) as (entries & Hres & Hdocs & Hall).
  assert (Hcomplete : Forall (fun a => analysis_complete a = true) results).
  { eapply Forall_impl; [|exact Hall]. now intros a (_ & _ & Hc). }
  assert (Hstored : Forall (fun doc => Dict.get (py "analysis_complete") doc
                                       = Some (PBool true))
                           (Store.analyses db)).
  { rewrite Hdocs, Forall_map. subst results.
    rewrite Forall_map in Hcomplete.
    eapply Forall_impl; [|exact Hcomplete].
    intros [oid a] Hc. cbn [fst snd] in *.
    rewrite stored_document_fields.
    change (Dict.get (py "analysis_complete") _)
      with (Some (PBool (analysis_complete a))).
    now rewrite Hc. }
  repeat split; [assumption | assumption |].
  intros env limit l Hl.
  apply get_analysis_history_inv in Hl.
  destruct Hl as (docs & Hload & _ & Hin).
  apply map_outcome_Forall2 in Hload.
  rewrite Forall_forall in Hstored.
  induction Hload as [|doc a docs l Hdoc _ IH]; constructor.
  - eapply load_document_complete; [|exact Hdoc].
    apply Hstored, Hin. now left.
  - apply IH. intros d Hd. apply Hin. now right.
Qed.

Lemma analysis_complete_always_true_witness :
  Forall (fun a => analysis_complete a = true) [first_result]
  /\ Forall (fun doc => Dict.get (py "analysis_complete") doc
                        = Some (PBool true)) (Store.analyses first_store)
  /\ forall env limit l,
       get_analysis_history strict_runtime env first_store limit = Return l ->
       Forall (fun a => analysis_complete a = true) l.
Proof.
  apply (analysis_complete_always_true first_store_reachable).
Defined.

(* ================================================================== *)
(** * Further properties of the endpoints *)
(* ================================================================== *)

(** X1.  A request to the analyze endpoint never ends in an unhandled
    fault: when it fails, it fails with an [HTTPException] of status 400
    or 500, and the store is left as it was. *)
Theorem analyze_failure_is_http_error (rt : Runtime) (env : Env)
  (file : UploadFile.t) (db db' : Store.database) (e : exn) :
  analyze_defects rt env file db = (Raise e, db') ->
  db' = db /\ exists s d, e = HTTPException s d /\ (s = 400 \/ s = 500).
Proof.
  unfold analyze_defects.
  destruct (analyze_body rt env file db) as [[r d]|e0] eqn:E;
    [discriminate|].
  assert (H : forall s d, e0 = HTTPException s d -> s = 400 \/ s = 500).
  { intros s d ->. unfold analyze_body in E.
    destruct (UploadFile.content_type file) as [ct|]; [|discriminate].
    destruct (negb (Str.startswith ct (py "image/")));
      [injection E as <- _; auto|].
    destruct (ask_model rt env ct _) as [reply|e1] eqn:E1; cbn [bind] in E.
    - apply record_analysis_Raise in E. now destruct E.
    - injection E as ->. apply ask_model_Raise in E1.
      destruct E1 as [d' [= -> _]]. auto. }
  destruct e0 as [s d|m|f]; intros [= <- <-]; split; eauto.
Qed.

Lemma analyze_failure_is_http_error_witness :
  exists s d,
    HTTPException 400 (py "Only image files are supported")
    = HTTPException s d /\ (s = 400 \/ s = 500).
Proof.
  apply (analyze_failure_is_http_error strict_runtime
           (sample_env 1 (answering "{}")) (sample_file "text/plain")
           empty_db (db' := empty_db) eq_refl).
Defined.

(** X2.  A missing or empty API key is reported with status 500 and its
    own message, whatever the remote endpoint would answer: the check
    comes before any call, and nothing is stored. *)
Theorem missing_key_is_configuration_error (rt : Runtime) (env : Env)
  (file : UploadFile.t) (db : Store.database) (ct : pystr) :
  UploadFile.content_type file = Some ct ->
  Str.startswith ct (py "image/") = true ->
  nonempty (GOOGLE_API_KEY env) = None ->
  analyze_defects rt env file db
  = (Raise (HTTPException 500
              (py "GOOGLE_API_KEY is not set in the environment. "
               ++ py "Please set a valid Gemini API key.")), db).
Proof.
  intros Hct Himg Hkey. unfold analyze_defects, analyze_body.
  rewrite Hct, Himg. cbn [negb]. unfold ask_model, create_gemini_chat.
  now rewrite Hkey.
Qed.

Lemma missing_key_is_configuration_error_witness :
  http_status
    (fst (analyze_defects strict_runtime
            {| GOOGLE_API_KEY := Some [];
               uuid4_session := []; uuid4_id := [];
               utcnow := sample_time 1; new_object_id := [];
               post := fun _ _ => answering "{}" |}
            (sample_file "image/png") empty_db)) = 500.
Proof.
  rewrite (missing_key_is_configuration_error strict_runtime
             {| GOOGLE_API_KEY := Some [];
                uuid4_session := []; uuid4_id := [];
                utcnow := sample_time 1; new_object_id := [];
                post := fun _ _ => answering "{}" |}
             (sample_file "image/png") empty_db
             (ct := py "image/png") eq_refl eq_refl eq_refl).
  reflexivity.
Defined.

(** X3.  An upload that declares no content type at all is not answered
    with status 400: the test on the content type itself fails and the
    request ends with status 500; nothing is stored. *)
Theorem undeclared_content_type_is_server_error (rt : Runtime) (env : Env)
  (file : UploadFile.t) (db : Store.database) :
  UploadFile.content_type file = None ->
  analyze_defects rt env file db
  = (Raise (HTTPException 500
              (py "Analysis failed: "
               ++ describe rt (AttributeError PNone (py "startswith")))),
     db).
Proof.
  intros Hct. unfold analyze_defects, analyze_body. now rewrite Hct.
Qed.

Lemma undeclared_content_type_is_server_error_witness :
  http_status
    (fst (analyze_defects strict_runtime (sample_env 1 (answering "{}"))
            {| UploadFile.filename := py "weld.png";
               UploadFile.content_type := None;
               UploadFile.contents := [] |} empty_db)) = 500.
Proof.
  rewrite (undeclared_content_type_is_server_error strict_runtime
             (sample_env 1 (answering "{}"))
             {| UploadFile.filename := py "weld.png";
                UploadFile.content_type := None;
                UploadFile.contents := [] |} empty_db eq_refl).
  reflexivity.
Defined.

(** X4.  A negative limit makes the history endpoint fail with status
    500: the driver refuses a negative length. *)
Theorem negative_limit_is_server_error (rt : Runtime) (env : Env)
  (db : Store.database) (limit : Z) :
  limit < 0 ->
  get_analysis_history rt env db (Some limit)
  = Raise (HTTPException 500
             (py "Failed to fetch history: "
              ++ describe rt (ValueError (py "length must be non-negative")))).
Proof.
  intros H. unfold get_analysis_history, Store.find_sorted.
  apply Z.ltb_lt in H. now rewrite H.
Qed.

Lemma negative_limit_is_server_error_witness :
  http_status
    (get_analysis_history strict_runtime (sample_env 3 (answering "{}"))
       second_store (Some (-1))) = 500.
Proof.
  rewrite (negative_limit_is_server_error strict_runtime
             (sample_env 3 (answering "{}")) second_store (limit := -1)
             eq_refl).
  reflexivity.
Defined.



(** X6.  On a store the service has written, asking for an identifier
    that no recorded analysis has is answered with status 404 and the
    detail [Analysis not found]. *)
Theorem unknown_id_is_not_found (rt : Runtime) (env : Env)
  (db : Store.database) (results : list AnalysisResult)
  (analysis_id : pystr) :
  reachable rt db results ->
  Store.available db = true ->
  Store.well_formed analysis_id = true ->
  Forall (fun a => id a <> analysis_id) results ->
  get_analysis rt env db analysis_id
  = Raise (HTTPException 404 (py "Analysis not found"))
  /\ http_status (get_analysis rt env db analysis_id) = 404.
Proof.
  intros Hr Hav Hs Hnew.
  assert (H : get_analysis rt env db analysis_id
              = Raise (HTTPException 404 (py "Analysis not found"))).
  { rewrite (@get_analysis_reachable rt env db results analysis_id Hr Hav Hs).
    replace (find _ results) with (@None AnalysisResult); [reflexivity|].
    symmetry. apply find_none_iff.
    eapply Forall_impl; [|exact Hnew].
    intros a Ha. now apply Str_eqb_neq. }
  split; [exact H | now rewrite H].
Qed.

Lemma unknown_id_is_not_found_witness :
  http_status
    (get_analysis strict_runtime (sample_env 3 (answering "{}"))
       second_store (py "5a0f2c1e-0000-4000-8000-000000000009")) = 404.
Proof.
  apply (unknown_id_is_not_found (sample_env 3 (answering "{}"))
           (analysis_id := py "5a0f2c1e-0000-4000-8000-000000000009")
           second_store_reachable eq_refl eq_refl).
  repeat constructor; discriminate.
Defined.

(** X7.  What the analyze endpoint returned can be fetched by its
    identifier afterwards: on a store the service has written, when an
    upload succeeds with an identifier no earlier analysis has, the
    lookup of that identifier on the resulting store returns exactly the
    analysis of the response. *)
Theorem recorded_analysis_is_found (rt : Runtime) (env env' : Env)
  (file : UploadFile.t) (db db' : Store.database)
  (results : list AnalysisResult) (resp : AnalysisResponse)
  (a : AnalysisResult) :
  reachable rt db results ->
  Datetime.valid (utcnow env) = true ->
  analyze_defects rt env file db = (Return resp, db') ->
  analysis resp = Some a ->
  Forall (fun r => id r <> id a) results ->
  get_analysis rt env' db' (id a) = Return a.
Proof.
  intros Hr Hv Hrun Ha Hnew.
  assert (Hr' : reachable rt db' (results ++ [a]))
    by (eapply reachable_success; eauto).
  pose proof Hrun as Hs. apply analyze_success in Hs.
  destruct Hs as (a' & -> & -> & _ & Hst & _). injection Ha as ->.
  assert (Hid : Store.well_formed (id a) = true).
  { unfold storable in Hst. rewrite !andb_true_iff in Hst. tauto. }
  rewrite (@get_analysis_reachable rt env' _ _ (id a) Hr' eq_refl Hid).
  rewrite find_app_first; [reflexivity | | apply Str_eqb_refl].
  eapply Forall_impl; [|exact Hnew].
  intros r Hne. now apply Str_eqb_neq.
Qed.

Lemma recorded_analysis_is_found_witness :
  get_analysis strict_runtime (sample_env 3 (answering "{}")) second_store
    (py "5a0f2c1e-0000-4000-8000-000000000002")
  = Return second_result.
Proof.
  change (py "5a0f2c1e-0000-4000-8000-000000000002")
    with (id second_result).
  apply (recorded_analysis_is_found
           (sample_env 2 (answering crack_reply))
           (sample_env 3 (answering "{}"))
           (sample_file "image/png") (db := first_store)
           (db' := second_store) (resp := success_response second_result)
           (a := second_result) first_store_reachable eq_refl).
  - vm_compute. reflexivity.
  - reflexivity.
  - repeat constructor. discriminate.
Defined.

(** X8.  The lookup endpoint fails in two ways only: with status 404
    and the detail [Analysis not found], or with status 500 and a detail
    that starts with [Failed to fetch analysis: ] followed by the text
    of a library error. *)
Theorem lookup_failure_is_http_error (rt : Runtime) (env : Env)
  (db : Store.database) (analysis_id : pystr) (e : exn) :
  get_analysis rt env db analysis_id = Raise e ->
  e = HTTPException 404 (py "Analysis not found")
  \/ exists f,
       e = HTTPException 500 (py "Failed to fetch analysis: " ++ describe rt f).
Proof.
  unfold get_analysis.
  destruct (get_analysis_body rt env db analysis_id) as [a|e0] eqn:E;
    [discriminate|].
  assert (H : e0 = HTTPException 404 (py "Analysis not found")
              \/ exists f, e0 = LibraryError f).
  { unfold get_analysis_body, Store.find_one in E.
    destruct (negb (Store.available db)); cbn [bind] in E;
      [injection E as <-; eauto|].
    destruct (negb (Store.well_formed analysis_id)); cbn [bind] in E;
      [injection E as <-; eauto|].
    destruct (find _ _) as [doc|]; [|injection E as <-; auto].
    destruct (truthy rt (PDict doc)); [|injection E as <-; auto].
    right. eapply load_document_Raise; eauto. }
  destruct H as [-> | [f ->]]; intros [= <-];
    [left | right; exists f]; reflexivity.
Qed.

Lemma lookup_failure_is_http_error_witness :
  HTTPException 404 (py "Analysis not found")
  = HTTPException 404 (py "Analysis not found")
  \/ exists f,
       HTTPException 404 (py "Analysis not found")
       = HTTPException 500
           (py "Failed to fetch analysis: " ++ describe strict_runtime f).
Proof.
  apply (lookup_failure_is_http_error strict_runtime
           (sample_env 3 (answering "{}")) second_store
           (py "5a0f2c1e-0000-4000-8000-000000000009")).
  vm_compute. reflexivity.
Defined.

(** X9.  For every limit the driver accepts, the history of a store the
    service wrote at increasing times is the recorded analyses, newest
    first, cut after [limit] entries: all of them when the limit is at
    least their number. *)
Theorem history_is_cut_at_limit (rt : Runtime) (env : Env)
  (db : Store.database) (results : list AnalysisResult) (limit : Z) :
  reachable rt db results ->
  chronological results ->
  Store.available db = true ->
  0 <= limit <= Store.int64_max ->
  get_analysis_history rt env db (Some limit)
  = Return (firstn (Z.to_nat limit) (rev results))
  /\ (Z.of_nat (List.length results) <= limit ->
      get_analysis_history rt env db (Some limit) = Return (rev results)).
Proof.
  intros Hr Hc Hav Hl.
  rewrite (history_of_reachable env Hr Hc Hav Hl).
  split; [reflexivity|].
  intros Hn. rewrite firstn_all2; [reflexivity|].
  rewrite length_rev. lia.
Qed.

Lemma history_is_cut_at_limit_witness :
  get_analysis_history strict_runtime (sample_env 3 (answering "{}"))
    second_store (Some 7) = Return [second_result; first_result].
Proof.
  assert (Hc : chronological [first_result; second_result]).
  { repeat constructor. }
  assert (Hl : 0 <= 7 <= Store.int64_max).
  { split; vm_compute; discriminate. }
  destruct (history_is_cut_at_limit (sample_env 3 (answering "{}"))
              second_store_reachable Hc eq_refl Hl) as (_ & H).
  apply H. vm_compute. discriminate.
Defined.

(** X10.  One document that cannot be read makes the whole listing
    fail: when the limit covers the collection and some document of it
    does not load as an analysis (a required field is missing, a field
    has the wrong type, its timestamp is not a date), the history
    endpoint answers with status 500 and returns no analysis at all. *)
Theorem unreadable_document_fails_history (rt : Runtime) (env : Env)
  (db : Store.database) (doc : Store.document) (e : exn) (limit : Z) :
  Store.available db = true ->
  In doc (Store.analyses db) ->
  load_document rt env doc = Raise e ->
  Z.of_nat (List.length (Store.analyses db)) <= limit <= Store.int64_max ->
  exists f,
    get_analysis_history rt env db (Some limit)
    = Raise (HTTPException 500
               (py "Failed to fetch history: " ++ describe rt f)).
Proof.
  intros Hav Hin Hload Hl.
  rewrite get_analysis_history_window by (assumption || lia).
  rewrite firstn_all2 by (rewrite sort_desc_length; lia).
  assert (Hin' : In doc (Store.sort_desc rt (py "upload_time")
                           (Store.analyses db)))
    by now apply sort_desc_In.
  destruct (map_outcome_Raise_In _ _ _ Hin' Hload) as [e' He'].
  rewrite He'. cbn [try_except].
  apply map_outcome_Raise_inv in He'. destruct He' as (x & _ & Hx).
  apply load_document_Raise in Hx. destruct Hx as [f ->].
  now exists f.
Qed.

Lemma unreadable_document_fails_history_witness :
  exists f,
    get_analysis_history strict_runtime (sample_env 3 (answering "{}"))
      damaged_store (Some 10)
    = Raise (HTTPException 500
               (py "Failed to fetch history: " ++ describe strict_runtime f)).
Proof.
  apply (unreadable_document_fails_history strict_runtime
           (sample_env 3 (answering "{}")) damaged_store
           [(py "_id", PObjectId (py "665f00000000000000000007"));
            (py "id", PStr (py "7"));
            (py "total_defects", PInt 0);
            (py "defects_found", PList [])]
           (e := LibraryError
                   (ValidationError (py "AnalysisResult")
                      (PDict [(py "_id",
                               PObjectId (py "665f00000000000000000007"));
                              (py "id", PStr (py "7"));
                              (py "total_defects", PInt 0);
                              (py "defects_found", PList [])])))
           (limit := 10) eq_refl).
  - right. left. reflexivity.
  - vm_compute. reflexivity.
  - split; vm_compute; discriminate.
Defined.

(** X11.  While the store cannot be reached no endpoint succeeds: an
    upload fails with an HTTP error and leaves the store as it is, the
    history (for a limit that is not negative) and the lookup fail with
    status 500 and the text of the store's error. *)
Theorem unreachable_store_fails_every_endpoint (rt : Runtime) (env : Env)
  (file : UploadFile.t) (db : Store.database) (limit : Z)
  (analysis_id : pystr) :
  Store.available db = false ->
  (exists s d,
     analyze_defects rt env file db = (Raise (HTTPException s d), db))
  /\ (0 <= limit ->
      get_analysis_history rt env db (Some limit)
      = Raise (HTTPException 500
                 (py "Failed to fetch history: " ++ describe rt StoreError)))
  /\ get_analysis rt env db analysis_id
     = Raise (HTTPException 500
                (py "Failed to fetch analysis: " ++ describe rt StoreError)).
Proof.
  intros Hav. split; [|split].
  - destruct (analyze_defects rt env file db) as [[resp|e] db'] eqn:E.
    + apply analyze_success in E.
      destruct E as (a & _ & _ & Hup & _). congruence.
    + apply analyze_defects_Raise in E.
      destruct E as (-> & s & d & ->). eauto.
  - intros Hl. unfold get_analysis_history, Store.find_sorted.
    replace (limit <? 0) with false by (symmetry; apply Z.ltb_ge; lia).
    now rewrite Hav.
  - unfold get_analysis, get_analysis_body, Store.find_one.
    now rewrite Hav.
Qed.

Lemma unreachable_store_fails_every_endpoint_witness :
  get_analysis strict_runtime (sample_env 3 (answering "{}"))
    {| Store.available := false;
       Store.analyses := Store.analyses second_store |}
    (py "5a0f2c1e-0000-4000-8000-000000000002")
  = Raise (HTTPException 500
             (py "Failed to fetch analysis: "
              ++ describe strict_runtime StoreError)).
Proof.
  apply (unreachable_store_fails_every_endpoint strict_runtime
           (sample_env 3 (answering "{}")) (sample_file "image/png")
           {| Store.available := false;
              Store.analyses := Store.analyses second_store |}
           10 (py "5a0f2c1e-0000-4000-8000-000000000002") eq_refl).
Defined.

(** X12.  The collection holds exactly one document per successful
    upload, in the order of the uploads, and each is the document of the
    analysis that upload returned: failed requests and outages leave no
    trace, and no document is changed or removed afterwards. *)
Theorem store_holds_one_document_per_success (rt : Runtime)
  (db : Store.database) (results : list AnalysisResult) :
  reachable rt db results ->
  List.length (Store.analyses db) = List.length results
  /\ Forall2 (fun doc a =>
                exists oid, doc = stored_document oid a
                            /\ Dict.get (py "_id") doc = Some (PObjectId oid)
                            /\ Dict.get (py "id") doc = Some (PStr (id a)))
             (Store.analyses db) results.
Proof.
  intros Hr.
  destruct (reachable_documents Hr) as (entries & <- & -> & _).
  split; [now rewrite !length_map|]. clear Hr.
  induction entries as [|[oid a] entries IH]; cbn [map fst snd];
    [constructor|].
  constructor; [|exact IH].
  exists oid. repeat split.
Qed.

Lemma store_holds_one_document_per_success_witness :
  List.length (Store.analyses second_store) = 2%nat.
Proof.
  apply (store_holds_one_document_per_success second_store_reachable).
Defined.

(** X13.  The store orders timestamps by type before value, so a
    document whose [upload_time] is a native timestamp is listed before
    a document whose [upload_time] is an ISO string, whatever the two
    times are and in whichever order the documents were inserted. *)
Theorem native_timestamps_are_listed_first (rt : Runtime) (env : Env)
  (db : Store.database) (a b : AnalysisResult) (oa ob : pystr) :
  storable a = true -> Datetime.valid (upload_time a) = true ->
  storable b = true -> Datetime.valid (upload_time b) = true ->
  Store.available db = true ->
  Store.analyses db
  = [Dict.set (py "upload_time") (PDatetime (upload_time a))
       (stored_document oa a);
     stored_document ob b]
  \/ Store.analyses db
     = [stored_document ob b;
        Dict.set (py "upload_time") (PDatetime (upload_time a))
          (stored_document oa a)] ->
  get_analysis_history rt env db (Some 2) = Return [a; b].
Proof.
  intros Hsa Hva Hsb Hvb Hav Hdocs.
  rewrite get_analysis_history_window
    by (assumption || split; vm_compute; discriminate).
  assert (Hsort :
    Store.sort_desc rt (py "upload_time") (Store.analyses db)
    = [Dict.set (py "upload_time") (PDatetime (upload_time a))
         (stored_document oa a);
       stored_document ob b]).
  { destruct Hdocs as [-> | ->]; reflexivity. }
  rewrite Hsort. change (Z.to_nat 2) with 2%nat. cbn [firstn map_outcome].
  rewrite (proj2 (load_stored_document rt env oa a Hsa Hva)).
  rewrite (proj1 (load_stored_document rt env ob b Hsb Hvb)).
  reflexivity.
Qed.

Lemma native_timestamps_are_listed_first_witness :
  get_analysis_history strict_runtime (sample_env 4 (answering "{}"))
    {| Store.available := true;
       Store.analyses :=
         [Dict.set (py "upload_time") (PDatetime (sample_time 1))
            (stored_document (py "665f00000000000000000001") first_result);
          stored_document (py "665f00000000000000000002") second_result] |}
    (Some 2)
  = Return [first_result; second_result].
Proof.
  apply (@native_timestamps_are_listed_first strict_runtime
           (sample_env 4 (answering "{}"))
           {| Store.available := true;
              Store.analyses :=
                [Dict.set (py "upload_time") (PDatetime (sample_time 1))
                   (stored_document (py "665f00000000000000000001")
                      first_result);
                 stored_document (py "665f00000000000000000002")
                   second_result] |}
           first_result second_result
           (py "665f00000000000000000001") (py "665f00000000000000000002")
           eq_refl eq_refl eq_refl eq_refl eq_refl).
  left. reflexivity.
Defined.

(** X14.  The answer to an upload depends on the remote endpoint through
    one request only: a POST to the [generateContent] address of the
    model [gemini-2.0-flash] with the configured key in the query, whose
    body holds the system message, a blank line and the user
    instruction as text and the upload as inline data with its declared
    content type.  Two environments that agree on the answer to this
    request (and on the key, the clock and the fresh identifiers) give
    the same response and the same store; the session identifier plays
    no part. *)
Theorem answer_depends_on_one_request (rt : Runtime) (env env' : Env)
  (file : UploadFile.t) (db : Store.database) (ct key : pystr) :
  UploadFile.content_type file = Some ct ->
  nonempty (GOOGLE_API_KEY env) = Some key ->
  GOOGLE_API_KEY env' = GOOGLE_API_KEY env ->
  uuid4_id env' = uuid4_id env ->
  utcnow env' = utcnow env ->
  new_object_id env' = new_object_id env ->
  post env' (Llm.endpoint (py "gemini-2.0-flash") key)
    (Llm.payload (SYSTEM_MESSAGE ++ [10%N; 10%N] ++ USER_INSTRUCTION)
       [{| Llm.image_base64 := Base64.b64encode (UploadFile.contents file);
           Llm.mime_type := ct |}])
  = post env (Llm.endpoint (py "gemini-2.0-flash") key)
      (Llm.payload (SYSTEM_MESSAGE ++ [10%N; 10%N] ++ USER_INSTRUCTION)
         [{| Llm.image_base64 := Base64.b64encode (UploadFile.contents file);
             Llm.mime_type := ct |}]) ->
  analyze_defects rt env' file db = analyze_defects rt env file db.
Proof.
  intros Hct Hkey Hk Hid Hnow Hoid Hpost.
  assert (Hkey' : nonempty (GOOGLE_API_KEY env') = Some key)
    by now rewrite Hk.
  unfold analyze_defects, analyze_body. rewrite Hct.
  destruct (negb (Str.startswith ct (py "image/"))); [reflexivity|].
  rewrite (ask_model_request rt env' ct _ Hkey').
  rewrite (ask_model_request rt env ct _ Hkey).
  rewrite Hpost.
  destruct (try_except _ _) as [reply|e]; cbn [bind]; [|reflexivity].
  unfold record_analysis, new_AnalysisResult.
  now rewrite Hid, Hnow, Hoid.
Qed.

Lemma answer_depends_on_one_request_witness :
  analyze_defects strict_runtime
    {| GOOGLE_API_KEY := Some (py "k");
       uuid4_session := py "another session";
       uuid4_id := py "5a0f2c1e-0000-4000-8000-000000000002";
       utcnow := sample_time 2;
       new_object_id := py "665f00000000000000000002";
       post := fun url _ =>
                 if Str.eqb url (Llm.endpoint (py "gemini-2.0-flash") (py "k"))
                 then answering crack_reply
                 else Httpx.Failed (py "no route") |}
    (sample_file "image/png") first_store
  = analyze_defects strict_runtime (sample_env 2 (answering crack_reply))
      (sample_file "image/png") first_store.
Proof.
  apply (answer_depends_on_one_request strict_runtime
           (sample_env 2 (answering crack_reply))
           {| GOOGLE_API_KEY := Some (py "k");
              uuid4_session := py "another session";
              uuid4_id := py "5a0f2c1e-0000-4000-8000-000000000002";
              utcnow := sample_time 2;
              new_object_id := py "665f00000000000000000002";
              post := fun url _ =>
                        if Str.eqb url
                             (Llm.endpoint (py "gemini-2.0-flash") (py "k"))
                        then answering crack_reply
                        else Httpx.Failed (py "no route") |}
           (sample_file "image/png") first_store
           (ct := py "image/png") (key := py "k")
           eq_refl eq_refl eq_refl eq_refl eq_refl eq_refl).
  vm_compute. reflexivity.
Defined.

(** X15.  A failure of the transport (no connection, a timeout) fails
    the request with status 500 and the detail
    [Analysis failed while calling LLM: ] followed by the text of the
    error; nothing is stored. *)
Theorem transport_failure_is_server_error (rt : Runtime) (env : Env)
  (file : UploadFile.t) (db : Store.database) (ct key detail : pystr) :
  UploadFile.content_type file = Some ct ->
  Str.startswith ct (py "image/") = true ->
  nonempty (GOOGLE_API_KEY env) = Some key ->
  (forall url payload, post env url payload = Httpx.Failed detail) ->
  Str.contains LEAKED_MARKER (describe rt (TransportError detail)) = false ->
  analyze_defects rt env file db
  = (Raise (HTTPException 500
              (py "Analysis failed while calling LLM: "
               ++ describe rt (TransportError detail))), db).
Proof.
  intros Hct Himg Hkey Hpost Hmark.
  apply analyze_ask_Raise with (ct := ct); [assumption..|].
  rewrite (ask_model_request rt env ct _ Hkey), Hpost.
  cbn [try_except str_of_exn]. now rewrite Hmark.
Qed.

Lemma transport_failure_is_server_error_witness :
  http_status
    (fst (analyze_defects strict_runtime
            (sample_env 1 (Httpx.Failed (py "timed out")))
            (sample_file "image/png") empty_db)) = 500.
Proof.
  rewrite (transport_failure_is_server_error strict_runtime
             (sample_env 1 (Httpx.Failed (py "timed out")))
             (sample_file "image/png") empty_db
             (ct := py "image/png") (key := py "k")
             (detail := py "timed out")
             eq_refl eq_refl eq_refl (fun _ _ => eq_refl) eq_refl).
  reflexivity.
Defined.

(** X16.  The fallback record stands in for a reply that is not JSON,
    not for an answer of the endpoint that cannot be read: when the
    endpoint answers with a success status and [resp.json()] raises
    (the body, as the client decodes its bytes, is not JSON; the bytes
    do not decode; the interpreter gives up on the document), the
    request fails with status 500 and the text of that exception, and
    nothing is stored. *)
Theorem unparsable_envelope_is_server_error (rt : Runtime) (env : Env)
  (file : UploadFile.t) (db : Store.database) (ct key : pystr)
  (resp : Httpx.Response) (e : exn) :
  UploadFile.content_type file = Some ct ->
  Str.startswith ct (py "image/") = true ->
  nonempty (GOOGLE_API_KEY env) = Some key ->
  (forall url payload, post env url payload = Httpx.Responded resp) ->
  Httpx.is_success resp = true ->
  Httpx.json (client_limits rt) resp = Raise e ->
  Str.contains LEAKED_MARKER (str_of_exn rt e) = false ->
  analyze_defects rt env file db
  = (Raise (HTTPException 500
              (py "Analysis failed while calling LLM: "
               ++ str_of_exn rt e)), db).
Proof.
  intros Hct Himg Hkey Hpost Hok Hjson Hmark.
  apply analyze_ask_Raise with (ct := ct); [assumption..|].
  rewrite (ask_model_success rt env ct _ Hkey Hpost Hok).
  rewrite Hjson. cbn [bind try_except]. now rewrite Hmark.
Qed.

Lemma unparsable_envelope_is_server_error_witness :
  analyze_defects strict_runtime
    (sample_env 1
       (Httpx.Responded (plain_response 200 (py "<html>ok</html>"))))
    (sample_file "image/png") empty_db
  = (Raise (HTTPException 500
              (py "Analysis failed while calling LLM: "
               ++ describe strict_runtime
                    (JSONDecodeError (py "<html>ok</html>")))),
     empty_db).
Proof.
  apply (@unparsable_envelope_is_server_error strict_runtime
           (sample_env 1
              (Httpx.Responded (plain_response 200 (py "<html>ok</html>"))))
           (sample_file "image/png") empty_db
           (py "image/png") (py "k")
           (plain_response 200 (py "<html>ok</html>"))
           (LibraryError (JSONDecodeError (py "<html>ok</html>")))
           eq_refl eq_refl eq_refl (fun _ _ => eq_refl) eq_refl eq_refl
           eq_refl).
Defined.

(** X17.  The detail of an upstream error discloses the API key.  When
    the endpoint answers with a status that is not a success, the
    request fails with status 500 and the detail is the text of the
    client's status error; that error is raised for the address of the
    request, which ends with the key, so whenever its text names the
    address (as the client's does) the key is part of the detail sent
    to the caller. *)
Theorem upstream_error_discloses_key (rt : Runtime) (env : Env)
  (file : UploadFile.t) (db : Store.database) (ct key : pystr)
  (resp : Httpx.Response) :
  UploadFile.content_type file = Some ct ->
  Str.startswith ct (py "image/") = true ->
  nonempty (GOOGLE_API_KEY env) = Some key ->
  (forall url payload, post env url payload = Httpx.Responded resp) ->
  Httpx.is_success resp = false ->
  (Httpx.status_code resp =? 403)
  && Str.contains LEAKED_MARKER (Httpx.text resp) = false ->
  Str.contains LEAKED_MARKER
    (describe rt (HTTPStatusError (Httpx.status_code resp)
                    (Llm.endpoint (py "gemini-2.0-flash") key))) = false ->
  Str.contains (Llm.endpoint (py "gemini-2.0-flash") key)
    (describe rt (HTTPStatusError (Httpx.status_code resp)
                    (Llm.endpoint (py "gemini-2.0-flash") key))) = true ->
  exists detail,
    analyze_defects rt env file db = (Raise (HTTPException 500 detail), db)
    /\ detail
       = py "Analysis failed while calling LLM: "
         ++ describe rt (HTTPStatusError (Httpx.status_code resp)
                           (Llm.endpoint (py "gemini-2.0-flash") key))
    /\ Str.contains key detail = true.
Proof.
  intros Hct Himg Hkey Hpost Hfail Hleak Hmark Hurl.
  eexists. split; [|split; [reflexivity|]].
  - rewrite (analyze_upstream_failure rt env file db Hct Himg Hkey Hpost
               Hfail).
    rewrite Hleak. cbv zeta.
    change Llm.DEFAULT_MODEL with (py "gemini-2.0-flash").
    now rewrite Hmark.
  - apply contains_infix in Hurl. destruct Hurl as (p & r & ->).
    apply contains_infix.
    exists (py "Analysis failed while calling LLM: " ++ p
            ++ py "https://generativelanguage.googleapis.com/v1/models/"
            ++ py "gemini-2.0-flash" ++ py ":generateContent?key="), r.
    unfold Llm.endpoint. now rewrite <- !app_assoc.
Qed.

Lemma upstream_error_discloses_key_witness :
  exists detail,
    analyze_defects verbose_runtime
      (sample_env 1
         (Httpx.Responded (plain_response 429 (py "quota exceeded"))))
      (sample_file "image/png") empty_db
    = (Raise (HTTPException 500 detail), empty_db)
    /\ detail
       = py "Analysis failed while calling LLM: "
         ++ describe verbose_runtime
              (HTTPStatusError 429
                 (Llm.endpoint (py "gemini-2.0-flash") (py "k")))
    /\ Str.contains (py "k") detail = true.
Proof.
  apply (upstream_error_discloses_key verbose_runtime
           (sample_env 1
              (Httpx.Responded (plain_response 429 (py "quota exceeded"))))
           (sample_file "image/png") empty_db
           (ct := py "image/png") (key := py "k")
           eq_refl eq_refl eq_refl (fun _ _ => eq_refl) eq_refl eq_refl);
    vm_compute; reflexivity.
Defined.



(** X19.  The reply handed to the parser is the text of the first
    candidate only: the [text] entries of its parts, in order, joined by
    line feeds.  Parts that are no object or have no [text] entry are
    passed over, and further candidates are not looked at. *)
Theorem reply_joins_text_parts (rt : Runtime) (d cand content : pydict)
  (items more : list pyval) (ss : list pystr) :
  Dict.get (py "candidates") d = Some (PList (PDict cand :: more)) ->
  Dict.get (py "content") cand = Some (PDict content) ->
  Dict.get (py "parts") content = Some (PList items) ->
  Llm.texts_of items = map PStr ss ->
  ss <> [] ->
  Llm.reply_text rt (PDict d) = Return (Str.join [10%N] ss).
Proof.
  intros Hc Hcontent Hparts Htexts Hne.
  unfold Llm.reply_text. rewrite Hc.
  cbn [truthy Llm.first_item bind py_get]. rewrite Hcontent.
  cbn [bind py_get]. rewrite Hparts. cbn [bind iterate]. rewrite Htexts.
  destruct ss as [|s ss]; [congruence|].
  cbn [map]. change (PStr s :: map PStr ss) with (map PStr (s :: ss)).
  now rewrite strings_of_strs.
Qed.

Lemma reply_joins_text_parts_witness :
  Llm.reply_text strict_runtime
    (PDict [(py "candidates",
             PList [PDict [(py "content",
                            PDict [(py "parts",
                                    PList [PDict [(py "text", PStr (py "{"))];
                                           PDict [(py "inlineData", PNone)];
                                           PDict [(py "text", PStr (py "}"))]])])];
                    PDict [(py "content", PNone)]])])
  = Return (py "{" ++ [10%N] ++ py "}").
Proof.
  apply (@reply_joins_text_parts strict_runtime
           [(py "candidates",
             PList [PDict [(py "content",
                            PDict [(py "parts",
                                    PList [PDict [(py "text", PStr (py "{"))];
                                           PDict [(py "inlineData", PNone)];
                                           PDict [(py "text", PStr (py "}"))]])])];
                    PDict [(py "content", PNone)]])]
           [(py "content",
             PDict [(py "parts",
                     PList [PDict [(py "text", PStr (py "{"))];
                            PDict [(py "inlineData", PNone)];
                            PDict [(py "text", PStr (py "}"))]])])]
           [(py "parts",
             PList [PDict [(py "text", PStr (py "{"))];
                    PDict [(py "inlineData", PNone)];
                    PDict [(py "text", PStr (py "}"))]])]
           [PDict [(py "text", PStr (py "{"))];
            PDict [(py "inlineData", PNone)];
            PDict [(py "text", PStr (py "}"))]]
           [PDict [(py "content", PNone)]]
           [py "{"; py "}"]
           eq_refl eq_refl eq_refl eq_refl).
  discriminate.
Defined.

(** X20.  An answer whose first candidate is not a JSON object fails the
    request: the endpoint answered with a success status and a
    well-formed document, yet the request ends with status 500 and
    nothing is stored. *)
Theorem malformed_candidate_is_server_error (rt : Runtime) (env : Env)
  (file : UploadFile.t) (db : Store.database) (ct key : pystr)
  (resp : Httpx.Response) (d : pydict) (cand : pyval) (more : list pyval) :
  UploadFile.content_type file = Some ct ->
  Str.startswith ct (py "image/") = true ->
  nonempty (GOOGLE_API_KEY env) = Some key ->
  (forall url payload, post env url payload = Httpx.Responded resp) ->
  Httpx.is_success resp = true ->
  Httpx.json (client_limits rt) resp = Return (PDict d) ->
  Dict.get (py "candidates") d = Some (PList (cand :: more)) ->
  (forall fields, cand <> PDict fields) ->
  Str.contains LEAKED_MARKER
    (describe rt (AttributeError cand (py "get"))) = false ->
  analyze_defects rt env file db
  = (Raise (HTTPException 500
              (py "Analysis failed while calling LLM: "
               ++ describe rt (AttributeError cand (py "get")))), db).
Proof.
  intros Hct Himg Hkey Hpost Hok Hjson Hc Hcand Hmark.
  apply analyze_ask_Raise with (ct := ct); [assumption..|].
  rewrite (ask_model_success rt env ct _ Hkey Hpost Hok).
  rewrite Hjson. cbn [bind Llm.reply_text].
  rewrite Hc. cbn [truthy Llm.first_item bind].
  assert (Hget : py_get cand (py "content") (PDict [])
                 = Raise (LibraryError (AttributeError cand (py "get")))).
  { destruct cand; try reflexivity. now destruct (Hcand pairs). }
  rewrite Hget. cbn [bind try_except str_of_exn]. now rewrite Hmark.
Qed.

Lemma malformed_candidate_is_server_error_witness :
  http_status
    (fst (analyze_defects strict_runtime
            (sample_env 1
               (Httpx.Responded
                  (plain_response 200 (pyq "{'candidates': ['blocked']}"))))
            (sample_file "image/png") empty_db)) = 500.
Proof.
  rewrite (malformed_candidate_is_server_error strict_runtime
             (sample_env 1
                (Httpx.Responded
                   (plain_response 200 (pyq "{'candidates': ['blocked']}"))))
             (sample_file "image/png") empty_db
             (ct := py "image/png") (key := py "k")
             (d := [(py "candidates", PList [PStr (py "blocked")])])
             (cand := PStr (py "blocked")) (more := [])
             eq_refl eq_refl eq_refl (fun _ _ => eq_refl) eq_refl eq_refl
             eq_refl ltac:(discriminate) eq_refl).
  reflexivity.
Defined.

(** X21.  Only the fence marker with the tag [json] is removed at the
    front.  A reply that, without its surrounding blanks, starts with
    three backticks not followed by [json] (a bare fence, or another
    tag) is never parsed: its data are those of the fallback record,
    whatever the fence encloses. *)
Theorem untagged_fence_is_not_parsed (rt : Runtime) (reply : pystr) :
  Str.startswith (Str.strip reply) (py "```") = true ->
  Str.startswith (Str.strip reply) (py "```json") = false ->
  Json.loads (reply_limits rt) (response_text reply)
  = Raise (LibraryError (JSONDecodeError (response_text reply)))
  /\ analysis_data rt reply = Return PARSE_ERROR_DATA.
Proof.
  intros Hfence Htag.
  assert (H : Json.scan (reply_limits rt) (Json.PValue []) 0
                (response_text reply) = Json.NotJson).
  { unfold response_text. rewrite Htag.
    apply startswith_prefix in Hfence. destruct Hfence as [r ->].
    destruct (Str.endswith (py "```" ++ r) (py "```")).
    - destruct (drop_last_backticks r) as [-> | [r' ->]];
        [apply scan_empty | apply scan_backtick].
    - apply scan_backtick. }
  split.
  - unfold Json.loads. now rewrite H.
  - rewrite analysis_data_scan. now rewrite H.
Qed.

Lemma untagged_fence_is_not_parsed_witness :
  analysis_data strict_runtime
    (py "```" ++ [10%N] ++ pyq "{'defects_found': [], 'total_defects': 0}"
     ++ [10%N] ++ py "```")
  = Return PARSE_ERROR_DATA.
Proof.
  apply (untagged_fence_is_not_parsed strict_runtime
           (py "```" ++ [10%N]
            ++ pyq "{'defects_found': [], 'total_defects': 0}"
            ++ [10%N] ++ py "```")); vm_compute; reflexivity.
Defined.

(** X22.  The list length stands in for [total_defects] only when the
    entry is absent.  A reply whose [total_defects] is present but does
    not validate as an integer (it is [null], a list, an object) fails
    the request with status 500 although every record is valid, and
    nothing is stored. *)
Theorem invalid_total_fails_request (rt : Runtime) (env : Env)
  (file : UploadFile.t) (db : Store.database) (ct reply : pystr)
  (d : pydict) (found total : pyval) (items : list pyval)
  (defects : list DefectResult) :
  UploadFile.content_type file = Some ct ->
  Str.startswith ct (py "image/") = true ->
  ask_model rt env ct (Base64.b64encode (UploadFile.contents file))
  = Return reply ->
  Json.loads (reply_limits rt) (response_text reply) = Return (PDict d) ->
  py_get (PDict d) (py "defects_found") (PList []) = Return found ->
  iterate found = Return items ->
  map_outcome (new_DefectResult rt) items = Return defects ->
  Dict.get (py "total_defects") d = Some total ->
  Validate.as_int rt total = None ->
  analyze_defects rt env file db
  = (Raise (HTTPException 500
              (py "Analysis failed: "
               ++ describe rt (ValidationError (py "AnalysisResult") total))),
     db).
Proof.
  intros Hct Himg Hask Hjson Hfound Hiter Hitems Htotal Hint.
  unfold analyze_defects, analyze_body. rewrite Hct, Himg. cbn [negb].
  rewrite Hask. cbn [bind]. unfold record_analysis.
  rewrite (analysis_data_Return rt reply Hjson). cbn [bind].
  rewrite Hfound. cbn [bind]. rewrite Hiter. cbn [bind].
  rewrite Hitems. cbn [bind py_get]. rewrite Htotal. cbn [bind].
  unfold new_AnalysisResult. rewrite Hint.
  destruct (Validate.as_str rt (PStr (UploadFile.filename file)));
    reflexivity.
Qed.

Lemma invalid_total_fails_request_witness :
  http_status
    (fst (analyze_defects strict_runtime
            (sample_env 1
               (answering "{\'defects_found\': [], \'total_defects\': null}"))
            (sample_file "image/png") empty_db)) = 500.
Proof.
  rewrite (invalid_total_fails_request strict_runtime
             (sample_env 1
                (answering
                   "{\'defects_found\': [], \'total_defects\': null}"))
             (sample_file "image/png") empty_db
             (ct := py "image/png")
             (reply := pyq "{'defects_found': [], 'total_defects': null}")
             (d := [(py "defects_found", PList []);
                    (py "total_defects", PNone)])
             (found := PList []) (total := PNone) (items := [])
             (defects := [])
             eq_refl eq_refl eq_refl eq_refl eq_refl eq_refl eq_refl eq_refl
             eq_refl).
  reflexivity.
Defined.

(** X23.  The key is read from the variable [GEMINI_API_KEY], not from
    the variable the error message names.  A process started without
    [GEMINI_API_KEY] answers every image upload with status 500 and the
    message that [GOOGLE_API_KEY] is not set, whatever else its
    environment holds, a value for [GOOGLE_API_KEY] included; a process
    started with a non-empty [GEMINI_API_KEY] sends that value as the
    key of its request. *)
Theorem key_is_read_from_gemini_variable (rt : Runtime)
  (e : Config.environ) (env : Env) (file : UploadFile.t)
  (db : Store.database) (ct : pystr) :
  UploadFile.content_type file = Some ct ->
  Str.startswith ct (py "image/") = true ->
  (Config.get e (py "GEMINI_API_KEY") = None ->
   analyze_defects rt (started_in e env) file db
   = (Raise (HTTPException 500
               (py "GOOGLE_API_KEY is not set in the environment. "
                ++ py "Please set a valid Gemini API key.")), db))
  /\ (forall key,
        nonempty (Config.get e (py "GEMINI_API_KEY")) = Some key ->
        create_gemini_chat (started_in e env)
        = Return {| Llm.api_key := Some key;
                    Llm.system_message := SYSTEM_MESSAGE;
                    Llm._model := py "gemini-2.0-flash" |}).
Proof.
  intros Hct Himg. split.
  - intros Hnone. unfold analyze_defects, analyze_body.
    rewrite Hct, Himg. cbn [negb].
    unfold ask_model, create_gemini_chat, started_in, Config.GOOGLE_API_KEY.
    cbn [GOOGLE_API_KEY]. now rewrite Hnone.
  - intros key Hkey.
    rewrite (@create_gemini_chat_Return (started_in e env) key Hkey).
    cbn [started_in GOOGLE_API_KEY Config.GOOGLE_API_KEY].
    unfold Config.GOOGLE_API_KEY.
    destruct (Config.get e (py "GEMINI_API_KEY")) as [[|c r]|];
      try discriminate.
    now injection Hkey as <-.
Qed.

Lemma key_is_read_from_gemini_variable_witness :
  http_status
    (fst (analyze_defects strict_runtime
            (started_in [(py "GOOGLE_API_KEY", py "k")]
               (sample_env 1 (answering "{}")))
            (sample_file "image/png") empty_db)) = 500.
Proof.
  destruct (key_is_read_from_gemini_variable strict_runtime
              [(py "GOOGLE_API_KEY", py "k")]
              (sample_env 1 (answering "{}"))
              (sample_file "image/png") empty_db
              (ct := py "image/png") eq_refl eq_refl) as [H _].
  rewrite (H eq_refl). reflexivity.
Defined.



(** X25.  Every recorded analysis can be fetched by its identifier: on
    a store the service has written, as long as the identifiers of the
    recorded analyses are pairwise distinct, the lookup of the
    identifier of any of them returns that analysis, as the upload
    returned it. *)
Theorem every_recorded_analysis_is_found (rt : Runtime) (env : Env)
  (db : Store.database) (results : list AnalysisResult)
  (a : AnalysisResult) :
  reachable rt db results ->
  Store.available db = true ->
  NoDup (map id results) ->
  In a results ->
  get_analysis rt env db (id a) = Return a.
Proof.
  intros Hr Hav Hnd Hin.
  destruct (reachable_documents Hr) as (_ & _ & _ & Hall).
  rewrite Forall_forall in Hall. destruct (Hall a Hin) as (Hst & _).
  assert (Hid : Store.well_formed (id a) = true).
  { unfold storable in Hst. rewrite !andb_true_iff in Hst. tauto. }
  rewrite (@get_analysis_reachable rt env db results (id a) Hr Hav Hid).
  now rewrite find_unique.
Qed.

Lemma every_recorded_analysis_is_found_witness :
  get_analysis strict_runtime (sample_env 3 (answering "{}")) second_store
    (py "5a0f2c1e-0000-4000-8000-000000000001")
  = Return first_result.
Proof.
  change (py "5a0f2c1e-0000-4000-8000-000000000001") with (id first_result).
  apply (@every_recorded_analysis_is_found strict_runtime
           (sample_env 3 (answering "{}")) second_store
           [first_result; second_result] first_result
           second_store_reachable eq_refl).
  - repeat constructor; cbn [map In]; intuition discriminate.
  - left. reflexivity.
Defined.

(** X26.  The newest upload heads the history: when an upload succeeds
    at a time later than every analysis recorded before it, the history
    of the resulting store, for any limit of at least 1, starts with the
    analysis of that upload, followed by the earlier ones, newest
    first. *)
Theorem new_upload_heads_history (rt : Runtime) (env env' : Env)
  (file : UploadFile.t) (db db' : Store.database)
  (results : list AnalysisResult) (resp : AnalysisResponse)
  (a : AnalysisResult) (limit : Z) :
  reachable rt db results ->
  chronological results ->
  Datetime.valid (utcnow env) = true ->
  Forall (fun r => Datetime.lt (upload_time r) (utcnow env)) results ->
  analyze_defects rt env file db = (Return resp, db') ->
  analysis resp = Some a ->
  1 <= limit <= Store.int64_max ->
  get_analysis_history rt env' db' (Some limit)
  = Return (a :: firstn (Z.to_nat (limit - 1)) (rev results)).
Proof.
  intros Hr Hc Hv Hlater Hrun Ha Hl.
  assert (Hr' : reachable rt db' (results ++ [a]))
    by (eapply reachable_success; eauto).
  pose proof Hrun as Hs. apply analyze_success in Hs.
  destruct Hs as (a' & -> & -> & _ & _ & _ & Ht & _). injection Ha as ->.
  assert (Hc' : chronological (results ++ [a])).
  { apply StronglySorted_app_last; [exact Hc|]. now rewrite Ht. }
  rewrite (@history_of_reachable rt env' _ _ limit Hr' Hc' eq_refl)
    by lia.
  rewrite rev_app_distr. cbn [rev app].
  replace (Z.to_nat limit) with (S (Z.to_nat (limit - 1))) by lia.
  reflexivity.
Qed.

Lemma new_upload_heads_history_witness :
  get_analysis_history strict_runtime (sample_env 3 (answering "{}"))
    second_store (Some 1)
  = Return [second_result].
Proof.
  assert (Hc : chronological [first_result]) by repeat constructor.
  assert (Hlater : Forall (fun r => Datetime.lt (upload_time r)
                                      (utcnow (sample_env 2
                                                 (answering crack_reply))))
                          [first_result]) by repeat constructor.
  assert (Hl : 1 <= 1 <= Store.int64_max)
    by (split; vm_compute; discriminate).
  apply (@new_upload_heads_history strict_runtime
           (sample_env 2 (answering crack_reply))
           (sample_env 3 (answering "{}")) (sample_file "image/png")
           first_store second_store [first_result]
           (success_response second_result) second_result 1
           first_store_reachable Hc eq_refl Hlater).
  - vm_compute. reflexivity.
  - reflexivity.
  - exact Hl.
Defined.

(** X27.  The fallback record covers [JSONDecodeError] only.  When
    [json.loads] gives up on the reply with another exception (the
    nesting is beyond what the interpreter has room for, an integer
    literal is beyond its digit limit), the request fails with status
    500 and the text of that exception, and nothing is stored.  A reply
    of more opening brackets than the interpreter has room for is such
    a reply, whatever the room is. *)
Theorem undecodable_reply_fails_request (rt : Runtime) (env : Env)
  (file : UploadFile.t) (db : Store.database) (ct reply : pystr)
  (f : fault) :
  UploadFile.content_type file = Some ct ->
  Str.startswith ct (py "image/") = true ->
  ask_model rt env ct (Base64.b64encode (UploadFile.contents file))
  = Return reply ->
  Json.loads (reply_limits rt) (response_text reply)
  = Raise (LibraryError f) ->
  (forall doc, f <> JSONDecodeError doc) ->
  analyze_defects rt env file db
  = (Raise (HTTPException 500 (py "Analysis failed: " ++ describe rt f)), db)
  /\ forall n,
       (Json.max_depth (reply_limits rt) < n)%nat ->
       Json.loads (reply_limits rt) (repeat 91%N n)
       = Raise (LibraryError RecursionError).
Proof.
  intros Hct Himg Hask Hjson Hf. split.
  - unfold analyze_defects, analyze_body. rewrite Hct, Himg. cbn [negb].
    rewrite Hask. cbn [bind]. unfold record_analysis, analysis_data.
    rewrite Hjson.
    destruct f; try reflexivity. now destruct (Hf doc).
  - intros n Hn. unfold Json.loads.
    now rewrite (@scan_brackets (reply_limits rt) n Hn).
Qed.

Lemma undecodable_reply_fails_request_witness :
  analyze_defects strict_runtime
    (sample_env 1 (answering_text (py "[" ++ repeat 57%N 4301 ++ py "]")))
    (sample_file "image/png") empty_db
  = (Raise (HTTPException 500
              (py "Analysis failed: "
               ++ describe strict_runtime
                    (ValueError
                       (py "Exceeds the limit for integer string conversion")))),
     empty_db).
Proof.
  apply (@undecodable_reply_fails_request strict_runtime
           (sample_env 1
              (answering_text (py "[" ++ repeat 57%N 4301 ++ py "]")))
           (sample_file "image/png") empty_db (py "image/png")
           (py "[" ++ repeat 57%N 4301 ++ py "]")
           (ValueError (py "Exceeds the limit for integer string conversion"))
           eq_refl eq_refl).
  - vm_compute. reflexivity.
  - vm_compute. reflexivity.
  - discriminate.
Defined.
